(** * Infinity Storm: reel strips, grid synthesis and replay

    A shallow embedding of [infinity-storm-server/src/game/reelStrips.js]
    (the versioned strip registry and its integrity check) and of
    [infinity-storm-server/src/game/reelStripGenerator.js] (the
    [ReelStripGenerator] class), with the properties of the engine proved
    about the embedding.

    Conventions.
    - A JavaScript number that the code uses as an index, a length or a
      counter is a [Z]: the model covers the calls whose numeric arguments
      are integers (below 2^53 in size, where doubles are exact), and
      [undefined] read from an array is [None].  The outcome of a seeded
      draw, a double in [0, 1), is modelled with its significand and
      exponent, and so are the doubles of the percentages of
      [getStripStatistics], with the rounding of each operation.
    - A method of the generator is a computation in the monad [M]: it takes
      the world (statistics of the instance, live entropy, audit trail,
      clock) and gives back an outcome, a returned value or a thrown error,
      with the world as the method left it.  A throw keeps the world. *)

From Stdlib Require Import ZArith List String Ascii Bool Lia DecimalString.
Import ListNotations.

Local Open Scope string_scope.
Local Open Scope list_scope.
Local Open Scope Z_scope.

(** ** JavaScript values the engine relies on *)

Module JS.

(** [a.length] *)
Definition length {A : Type} (a : list A) : Z := Z.of_nat (List.length a).

(** [a[i]] for an integer [i]: [undefined] outside [0, a.length). *)
Definition index {A : Type} (a : list A) (i : Z) : option A :=
  if i <? 0 then None else nth_error a (Z.to_nat i).

(** [x % y] on integers: the remainder has the sign of the dividend;
    [x % 0] is [NaN], written [None]. *)
Definition rem (x y : Z) : option Z :=
  if y =? 0 then None else Some (Z.rem x y).

(** [a[i]] where the index may be [NaN]: reading at [NaN] gives
    [undefined]. *)
Definition index_num {A : Type} (a : list A) (i : option Z) : option A :=
  match i with
  | Some i => index a i
  | None => None
  end.

(** An integer inside a template literal: its decimal digits. *)
Definition show (n : Z) : string := NilZero.string_of_int (Z.to_int n).

(** A value that may be [undefined] inside a template literal or used as
    a property key. *)
Definition show_opt (s : option string) : string :=
  match s with
  | Some s => s
  | None => "undefined"
  end.

(** Truthiness of an optional string ([null] and the empty string are
    falsy): what [if (seed)] and [!!seed] test. *)
Definition truthy (s : option string) : bool :=
  match s with
  | Some s => negb (s =? "")%string
  | None => false
  end.

(** [x || d] for a number option field: [undefined] and [0] give [d]. *)
Definition or_default (x : option Z) (d : Z) : Z :=
  match x with
  | Some v => if v =? 0 then d else v
  | None => d
  end.

End JS.

(** *** Doubles in the unit interval

    A draw of a seeded stream is a double [u] with [0 <= u < 1].  Every such
    double is [mant / 2 ^ scale] for integers [0 <= mant < 2 ^ 53] and
    [0 <= scale <= 1074], and every such pair with [mant < 2 ^ scale] is one
    of these doubles. *)

Definition unit_double_ok (mant scale : Z) : bool :=
  (0 <=? mant) && (mant <? 2 ^ 53) && (0 <=? scale) && (scale <=? 1074)
  && (mant <? 2 ^ scale).

Record unit_double : Type := mkUnit {
  mant : Z;
  scale : Z;
  unit_ok : unit_double_ok mant scale = true
}.

(** [p / 2 ^ k] rounded to the nearest integer, ties to the even one: the
    rounding of an exact product to a 53-bit significand. *)
Definition round_half_even (p k : Z) : Z :=
  if k <=? 0 then p
  else
    let q := Z.shiftr p k in
    let r := Z.land p (Z.ones k) in
    let half := 2 ^ (k - 1) in
    if r <? half then q
    else if half <? r then q + 1
    else if Z.even q then q else q + 1.

(** [Math.floor(u * n)] for a draw [u] and an array length [n]: the exact
    product [mant * n / 2 ^ scale] is rounded to 53 significant bits (the
    double multiplication), then floored. *)
Definition Math_floor_mul (u : unit_double) (n : Z) : Z :=
  let p := mant u * n in
  let k := Z.max 0 (Z.log2 p + 1 - 53) in
  let q := round_half_even p k in
  Z.shiftl q (k - scale u).

(** ** The strip registry ([reelStrips.js]) *)

Definition STRIP_VERSION : string := "2.0.0".
Definition STRIP_LENGTH : Z := 120.

(** Base game reel strips: 6 columns (reelStrips.js, lines 43-235). *)
Definition BASE_GAME_STRIPS : list (list string) :=
[
  (* Column 0 *)
  [
    "time_gem"; "time_gem"; "space_gem"; "space_gem"; "mind_gem";
    "mind_gem"; "power_gem"; "power_gem"; "reality_gem"; "reality_gem";
    "soul_gem"; "soul_gem"; "thanos_weapon"; "thanos_weapon"; "scarlet_witch";
    "thanos"; "time_gem"; "time_gem"; "space_gem"; "space_gem";
    "mind_gem"; "power_gem"; "reality_gem"; "soul_gem"; "infinity_glove";
    "time_gem"; "time_gem"; "space_gem"; "mind_gem"; "mind_gem";
    "power_gem"; "power_gem"; "reality_gem"; "soul_gem"; "thanos_weapon";
    "thanos_weapon"; "scarlet_witch"; "thanos"; "infinity_glove"; "space_gem";
    "space_gem"; "space_gem"; "mind_gem"; "power_gem"; "reality_gem";
    "reality_gem"; "soul_gem"; "soul_gem"; "thanos_weapon"; "infinity_glove";
    "time_gem"; "time_gem"; "space_gem"; "space_gem"; "mind_gem";
    "mind_gem"; "power_gem"; "reality_gem"; "soul_gem"; "thanos_weapon";
    "scarlet_witch"; "scarlet_witch"; "thanos"; "time_gem"; "time_gem";
    "space_gem"; "space_gem"; "mind_gem"; "power_gem"; "power_gem";
    "reality_gem"; "reality_gem"; "soul_gem"; "thanos_weapon"; "infinity_glove";
    "time_gem"; "space_gem"; "space_gem"; "mind_gem"; "mind_gem";
    "power_gem"; "power_gem"; "reality_gem"; "soul_gem"; "soul_gem";
    "thanos_weapon"; "thanos_weapon"; "scarlet_witch"; "thanos"; "thanos";
    "time_gem"; "time_gem"; "space_gem"; "mind_gem"; "power_gem";
    "reality_gem"; "soul_gem"; "thanos_weapon"; "scarlet_witch"; "infinity_glove";
    "time_gem"; "time_gem"; "space_gem"; "space_gem"; "mind_gem";
    "power_gem"; "reality_gem"; "reality_gem"; "soul_gem"; "thanos_weapon";
    "scarlet_witch"; "scarlet_witch"; "thanos"; "thanos"; "time_gem";
    "space_gem"; "mind_gem"; "power_gem"; "reality_gem"; "infinity_glove"
  ];
  (* Column 1 *)
  [
    "space_gem"; "space_gem"; "time_gem"; "time_gem"; "mind_gem";
    "mind_gem"; "power_gem"; "reality_gem"; "reality_gem"; "soul_gem";
    "soul_gem"; "thanos_weapon"; "thanos_weapon"; "scarlet_witch"; "infinity_glove";
    "time_gem"; "time_gem"; "space_gem"; "space_gem"; "mind_gem";
    "power_gem"; "power_gem"; "reality_gem"; "soul_gem"; "infinity_glove";
    "time_gem"; "space_gem"; "space_gem"; "mind_gem"; "mind_gem";
    "power_gem"; "reality_gem"; "reality_gem"; "soul_gem"; "soul_gem";
    "thanos_weapon"; "scarlet_witch"; "scarlet_witch"; "thanos"; "infinity_glove";
    "time_gem"; "space_gem"; "space_gem"; "mind_gem"; "power_gem";
    "power_gem"; "reality_gem"; "soul_gem"; "thanos_weapon"; "infinity_glove";
    "time_gem"; "time_gem"; "space_gem"; "mind_gem"; "mind_gem";
    "power_gem"; "power_gem"; "reality_gem"; "reality_gem"; "soul_gem";
    "thanos_weapon"; "thanos_weapon"; "scarlet_witch"; "thanos"; "thanos";
    "time_gem"; "space_gem"; "space_gem"; "space_gem"; "mind_gem";
    "power_gem"; "reality_gem"; "reality_gem"; "soul_gem"; "infinity_glove";
    "time_gem"; "time_gem"; "space_gem"; "space_gem"; "mind_gem";
    "mind_gem"; "power_gem"; "reality_gem"; "soul_gem"; "soul_gem";
    "thanos_weapon"; "thanos_weapon"; "scarlet_witch"; "scarlet_witch"; "thanos";
    "time_gem"; "time_gem"; "space_gem"; "mind_gem"; "power_gem";
    "power_gem"; "reality_gem"; "soul_gem"; "thanos_weapon"; "infinity_glove";
    "time_gem"; "space_gem"; "space_gem"; "mind_gem"; "mind_gem";
    "power_gem"; "power_gem"; "reality_gem"; "reality_gem"; "soul_gem";
    "thanos_weapon"; "scarlet_witch"; "thanos"; "thanos"; "time_gem";
    "space_gem"; "mind_gem"; "power_gem"; "soul_gem"; "thanos_weapon"
  ];
  (* Column 2 *)
  [
    "mind_gem"; "mind_gem"; "time_gem"; "time_gem"; "space_gem";
    "space_gem"; "power_gem"; "power_gem"; "reality_gem"; "soul_gem";
    "soul_gem"; "thanos_weapon"; "scarlet_witch"; "scarlet_witch"; "thanos";
    "time_gem"; "time_gem"; "space_gem"; "mind_gem"; "mind_gem";
    "power_gem"; "reality_gem"; "reality_gem"; "soul_gem"; "infinity_glove";
    "time_gem"; "time_gem"; "space_gem"; "space_gem"; "mind_gem";
    "power_gem"; "power_gem"; "reality_gem"; "reality_gem"; "soul_gem";
    "thanos_weapon"; "thanos_weapon"; "scarlet_witch"; "thanos"; "infinity_glove";
    "space_gem"; "space_gem"; "space_gem"; "mind_gem"; "mind_gem";
    "power_gem"; "reality_gem"; "soul_gem"; "soul_gem"; "infinity_glove";
    "time_gem"; "time_gem"; "space_gem"; "space_gem"; "mind_gem";
    "mind_gem"; "power_gem"; "power_gem"; "reality_gem"; "soul_gem";
    "thanos_weapon"; "thanos_weapon"; "scarlet_witch"; "thanos"; "infinity_glove";
    "time_gem"; "time_gem"; "space_gem"; "mind_gem"; "power_gem";
    "power_gem"; "reality_gem"; "reality_gem"; "soul_gem"; "infinity_glove";
    "time_gem"; "space_gem"; "space_gem"; "mind_gem"; "mind_gem";
    "power_gem"; "reality_gem"; "reality_gem"; "soul_gem"; "soul_gem";
    "thanos_weapon"; "thanos_weapon"; "scarlet_witch"; "scarlet_witch"; "thanos";
    "time_gem"; "time_gem"; "space_gem"; "space_gem"; "mind_gem";
    "power_gem"; "power_gem"; "reality_gem"; "soul_gem"; "infinity_glove";
    "time_gem"; "time_gem"; "space_gem"; "mind_gem"; "mind_gem";
    "power_gem"; "reality_gem"; "soul_gem"; "thanos_weapon"; "thanos_weapon";
    "scarlet_witch"; "thanos"; "thanos"; "time_gem"; "space_gem";
    "space_gem"; "mind_gem"; "power_gem"; "reality_gem"; "soul_gem"
  ];
  (* Column 3 *)
  [
    "power_gem"; "power_gem"; "time_gem"; "time_gem"; "space_gem";
    "space_gem"; "mind_gem"; "mind_gem"; "reality_gem"; "reality_gem";
    "soul_gem"; "thanos_weapon"; "thanos_weapon"; "scarlet_witch"; "thanos";
    "time_gem"; "space_gem"; "space_gem"; "mind_gem"; "mind_gem";
    "power_gem"; "power_gem"; "reality_gem"; "soul_gem"; "infinity_glove";
    "time_gem"; "time_gem"; "space_gem"; "space_gem"; "mind_gem";
    "power_gem"; "reality_gem"; "reality_gem"; "soul_gem"; "soul_gem";
    "thanos_weapon"; "scarlet_witch"; "scarlet_witch"; "thanos"; "thanos";
    "time_gem"; "time_gem"; "space_gem"; "mind_gem"; "mind_gem";
    "power_gem"; "power_gem"; "reality_gem"; "soul_gem"; "infinity_glove";
    "time_gem"; "time_gem"; "space_gem"; "space_gem"; "mind_gem";
    "mind_gem"; "power_gem"; "reality_gem"; "reality_gem"; "soul_gem";
    "soul_gem"; "thanos_weapon"; "thanos_weapon"; "scarlet_witch"; "thanos";
    "time_gem"; "space_gem"; "space_gem"; "space_gem"; "mind_gem";
    "power_gem"; "power_gem"; "reality_gem"; "soul_gem"; "infinity_glove";
    "time_gem"; "time_gem"; "space_gem"; "mind_gem"; "mind_gem";
    "power_gem"; "power_gem"; "reality_gem"; "reality_gem"; "soul_gem";
    "thanos_weapon"; "thanos_weapon"; "scarlet_witch"; "scarlet_witch"; "thanos";
    "time_gem"; "time_gem"; "space_gem"; "space_gem"; "mind_gem";
    "power_gem"; "reality_gem"; "reality_gem"; "soul_gem"; "infinity_glove";
    "time_gem"; "space_gem"; "space_gem"; "mind_gem"; "mind_gem";
    "power_gem"; "power_gem"; "reality_gem"; "soul_gem"; "soul_gem";
    "thanos_weapon"; "scarlet_witch"; "thanos"; "thanos"; "time_gem";
    "space_gem"; "mind_gem"; "power_gem"; "reality_gem"; "thanos_weapon"
  ];
  (* Column 4 *)
  [
    "reality_gem"; "reality_gem"; "time_gem"; "time_gem"; "space_gem";
    "space_gem"; "mind_gem"; "power_gem"; "power_gem"; "soul_gem";
    "soul_gem"; "thanos_weapon"; "scarlet_witch"; "scarlet_witch"; "thanos";
    "time_gem"; "time_gem"; "space_gem"; "space_gem"; "mind_gem";
    "mind_gem"; "power_gem"; "reality_gem"; "soul_gem"; "infinity_glove";
    "time_gem"; "space_gem"; "space_gem"; "mind_gem"; "mind_gem";
    "power_gem"; "power_gem"; "reality_gem"; "reality_gem"; "soul_gem";
    "thanos_weapon"; "thanos_weapon"; "scarlet_witch"; "thanos"; "thanos";
    "time_gem"; "time_gem"; "space_gem"; "space_gem"; "mind_gem";
    "power_gem"; "power_gem"; "reality_gem"; "soul_gem"; "infinity_glove";
    "time_gem"; "time_gem"; "space_gem"; "mind_gem"; "mind_gem";
    "power_gem"; "reality_gem"; "reality_gem"; "soul_gem"; "soul_gem";
    "thanos_weapon"; "thanos_weapon"; "scarlet_witch"; "scarlet_witch"; "thanos";
    "time_gem"; "time_gem"; "space_gem"; "space_gem"; "mind_gem";
    "power_gem"; "power_gem"; "reality_gem"; "reality_gem"; "soul_gem";
    "thanos_weapon"; "scarlet_witch"; "thanos"; "time_gem"; "infinity_glove";
    "time_gem"; "space_gem"; "space_gem"; "mind_gem"; "mind_gem";
    "power_gem"; "power_gem"; "reality_gem"; "soul_gem"; "soul_gem";
    "thanos_weapon"; "thanos_weapon"; "scarlet_witch"; "scarlet_witch"; "thanos";
    "time_gem"; "time_gem"; "space_gem"; "space_gem"; "infinity_glove";
    "mind_gem"; "mind_gem"; "power_gem"; "reality_gem"; "reality_gem";
    "soul_gem"; "thanos_weapon"; "thanos"; "thanos"; "time_gem";
    "space_gem"; "space_gem"; "mind_gem"; "power_gem"; "reality_gem";
    "soul_gem"; "soul_gem"; "thanos_weapon"; "scarlet_witch"; "power_gem"
  ];
  (* Column 5 *)
  [
    "soul_gem"; "soul_gem"; "time_gem"; "time_gem"; "space_gem";
    "space_gem"; "mind_gem"; "mind_gem"; "power_gem"; "reality_gem";
    "reality_gem"; "thanos_weapon"; "thanos_weapon"; "scarlet_witch"; "thanos";
    "time_gem"; "time_gem"; "space_gem"; "mind_gem"; "mind_gem";
    "power_gem"; "power_gem"; "reality_gem"; "soul_gem"; "infinity_glove";
    "time_gem"; "space_gem"; "space_gem"; "space_gem"; "mind_gem";
    "power_gem"; "reality_gem"; "reality_gem"; "soul_gem"; "soul_gem";
    "thanos_weapon"; "scarlet_witch"; "scarlet_witch"; "thanos"; "thanos";
    "time_gem"; "time_gem"; "space_gem"; "space_gem"; "mind_gem";
    "power_gem"; "power_gem"; "reality_gem"; "soul_gem"; "infinity_glove";
    "time_gem"; "time_gem"; "space_gem"; "mind_gem"; "mind_gem";
    "power_gem"; "power_gem"; "reality_gem"; "reality_gem"; "soul_gem";
    "soul_gem"; "thanos_weapon"; "thanos_weapon"; "scarlet_witch"; "thanos";
    "time_gem"; "space_gem"; "space_gem"; "space_gem"; "mind_gem";
    "mind_gem"; "power_gem"; "reality_gem"; "soul_gem"; "infinity_glove";
    "time_gem"; "time_gem"; "space_gem"; "mind_gem"; "power_gem";
    "power_gem"; "reality_gem"; "reality_gem"; "soul_gem"; "soul_gem";
    "thanos_weapon"; "thanos_weapon"; "scarlet_witch"; "scarlet_witch"; "thanos";
    "time_gem"; "time_gem"; "space_gem"; "space_gem"; "mind_gem";
    "power_gem"; "power_gem"; "reality_gem"; "soul_gem"; "infinity_glove";
    "time_gem"; "space_gem"; "space_gem"; "mind_gem"; "mind_gem";
    "power_gem"; "reality_gem"; "reality_gem"; "soul_gem"; "thanos_weapon";
    "thanos_weapon"; "scarlet_witch"; "thanos"; "thanos"; "time_gem";
    "space_gem"; "mind_gem"; "power_gem"; "reality_gem"; "soul_gem"
  ]
].

(** Free spins reel strips: 6 columns (reelStrips.js, lines 246-414). *)
Definition FREE_SPINS_STRIPS : list (list string) :=
[
  (* Column 0 *)
  [
    "time_gem"; "time_gem"; "space_gem"; "space_gem"; "thanos_weapon";
    "thanos_weapon"; "scarlet_witch"; "scarlet_witch"; "thanos"; "thanos";
    "time_gem"; "time_gem"; "space_gem"; "mind_gem"; "power_gem";
    "reality_gem"; "soul_gem"; "thanos_weapon"; "thanos_weapon"; "scarlet_witch";
    "thanos"; "time_gem"; "time_gem"; "space_gem"; "infinity_glove";
    "time_gem"; "space_gem"; "space_gem"; "thanos_weapon"; "thanos_weapon";
    "scarlet_witch"; "scarlet_witch"; "thanos"; "time_gem"; "time_gem";
    "space_gem"; "space_gem"; "mind_gem"; "power_gem"; "thanos_weapon";
    "thanos"; "thanos"; "scarlet_witch"; "time_gem"; "time_gem";
    "space_gem"; "space_gem"; "thanos_weapon"; "thanos_weapon"; "infinity_glove";
    "time_gem"; "time_gem"; "space_gem"; "scarlet_witch"; "scarlet_witch";
    "thanos"; "thanos"; "mind_gem"; "power_gem"; "thanos_weapon";
    "time_gem"; "space_gem"; "space_gem"; "thanos_weapon"; "thanos_weapon";
    "scarlet_witch"; "thanos"; "time_gem"; "time_gem"; "space_gem";
    "reality_gem"; "soul_gem"; "thanos_weapon"; "scarlet_witch"; "infinity_glove";
    "time_gem"; "time_gem"; "space_gem"; "space_gem"; "thanos_weapon";
    "thanos_weapon"; "scarlet_witch"; "scarlet_witch"; "thanos"; "thanos";
    "time_gem"; "space_gem"; "mind_gem"; "power_gem"; "thanos_weapon";
    "scarlet_witch"; "time_gem"; "time_gem"; "space_gem"; "space_gem";
    "thanos_weapon"; "thanos"; "thanos"; "scarlet_witch"; "infinity_glove";
    "time_gem"; "time_gem"; "space_gem"; "space_gem"; "thanos_weapon";
    "thanos_weapon"; "scarlet_witch"; "thanos"; "reality_gem"; "soul_gem";
    "time_gem"; "space_gem"; "thanos_weapon"; "scarlet_witch"; "infinity_glove";
    "time_gem"; "space_gem"; "thanos"; "thanos"; "scarlet_witch"
  ];
  (* Column 1 *)
  [
    "space_gem"; "space_gem"; "time_gem"; "time_gem"; "thanos_weapon";
    "thanos_weapon"; "scarlet_witch"; "thanos"; "thanos"; "mind_gem";
    "power_gem"; "time_gem"; "time_gem"; "space_gem"; "space_gem";
    "thanos_weapon"; "thanos_weapon"; "scarlet_witch"; "scarlet_witch"; "thanos";
    "time_gem"; "space_gem"; "reality_gem"; "soul_gem"; "infinity_glove";
    "time_gem"; "time_gem"; "space_gem"; "space_gem"; "thanos_weapon";
    "thanos_weapon"; "scarlet_witch"; "thanos"; "thanos"; "time_gem";
    "space_gem"; "mind_gem"; "power_gem"; "thanos_weapon"; "scarlet_witch";
    "scarlet_witch"; "time_gem"; "time_gem"; "space_gem"; "space_gem";
    "thanos_weapon"; "thanos"; "thanos"; "scarlet_witch"; "infinity_glove";
    "time_gem"; "time_gem"; "space_gem"; "thanos_weapon"; "thanos_weapon";
    "scarlet_witch"; "scarlet_witch"; "thanos"; "reality_gem"; "soul_gem";
    "time_gem"; "space_gem"; "space_gem"; "thanos_weapon"; "thanos_weapon";
    "scarlet_witch"; "thanos"; "thanos"; "time_gem"; "time_gem";
    "space_gem"; "mind_gem"; "power_gem"; "thanos_weapon"; "infinity_glove";
    "time_gem"; "time_gem"; "space_gem"; "space_gem"; "thanos_weapon";
    "thanos_weapon"; "scarlet_witch"; "scarlet_witch"; "thanos"; "thanos";
    "time_gem"; "space_gem"; "thanos_weapon"; "scarlet_witch"; "reality_gem";
    "soul_gem"; "time_gem"; "time_gem"; "space_gem"; "space_gem";
    "thanos_weapon"; "thanos"; "scarlet_witch"; "scarlet_witch"; "infinity_glove";
    "time_gem"; "time_gem"; "space_gem"; "space_gem"; "thanos_weapon";
    "thanos_weapon"; "scarlet_witch"; "thanos"; "thanos"; "mind_gem";
    "power_gem"; "time_gem"; "space_gem"; "thanos_weapon"; "infinity_glove";
    "time_gem"; "space_gem"; "scarlet_witch"; "thanos"; "thanos_weapon"
  ];
  (* Column 2 *)
  [
    "thanos_weapon"; "thanos_weapon"; "time_gem"; "time_gem"; "space_gem";
    "space_gem"; "scarlet_witch"; "scarlet_witch"; "thanos"; "thanos";
    "mind_gem"; "power_gem"; "time_gem"; "time_gem"; "space_gem";
    "thanos_weapon"; "thanos_weapon"; "scarlet_witch"; "thanos"; "reality_gem";
    "soul_gem"; "time_gem"; "space_gem"; "space_gem"; "infinity_glove";
    "time_gem"; "time_gem"; "space_gem"; "thanos_weapon"; "thanos_weapon";
    "scarlet_witch"; "scarlet_witch"; "thanos"; "thanos"; "time_gem";
    "space_gem"; "mind_gem"; "power_gem"; "thanos_weapon"; "scarlet_witch";
    "time_gem"; "time_gem"; "space_gem"; "space_gem"; "thanos_weapon";
    "thanos_weapon"; "scarlet_witch"; "thanos"; "thanos"; "infinity_glove";
    "time_gem"; "time_gem"; "space_gem"; "space_gem"; "thanos_weapon";
    "scarlet_witch"; "scarlet_witch"; "thanos"; "reality_gem"; "soul_gem";
    "time_gem"; "space_gem"; "thanos_weapon"; "thanos_weapon"; "scarlet_witch";
    "thanos"; "thanos"; "time_gem"; "time_gem"; "space_gem";
    "space_gem"; "mind_gem"; "power_gem"; "thanos_weapon"; "infinity_glove";
    "time_gem"; "time_gem"; "space_gem"; "thanos_weapon"; "thanos_weapon";
    "scarlet_witch"; "scarlet_witch"; "thanos"; "thanos"; "time_gem";
    "space_gem"; "space_gem"; "thanos_weapon"; "scarlet_witch"; "reality_gem";
    "soul_gem"; "time_gem"; "time_gem"; "space_gem"; "thanos_weapon";
    "thanos_weapon"; "scarlet_witch"; "thanos"; "thanos"; "infinity_glove";
    "time_gem"; "time_gem"; "space_gem"; "space_gem"; "thanos_weapon";
    "thanos_weapon"; "scarlet_witch"; "scarlet_witch"; "thanos"; "mind_gem";
    "power_gem"; "time_gem"; "space_gem"; "thanos_weapon"; "infinity_glove";
    "time_gem"; "space_gem"; "scarlet_witch"; "thanos"; "thanos_weapon"
  ];
  (* Column 3 *)
  [
    "scarlet_witch"; "scarlet_witch"; "time_gem"; "time_gem"; "space_gem";
    "space_gem"; "thanos_weapon"; "thanos_weapon"; "thanos"; "thanos";
    "mind_gem"; "power_gem"; "time_gem"; "space_gem"; "thanos_weapon";
    "thanos_weapon"; "scarlet_witch"; "scarlet_witch"; "thanos"; "reality_gem";
    "soul_gem"; "time_gem"; "time_gem"; "space_gem"; "infinity_glove";
    "time_gem"; "space_gem"; "space_gem"; "thanos_weapon"; "thanos_weapon";
    "scarlet_witch"; "thanos"; "thanos"; "time_gem"; "time_gem";
    "space_gem"; "mind_gem"; "power_gem"; "thanos_weapon"; "scarlet_witch";
    "scarlet_witch"; "time_gem"; "time_gem"; "space_gem"; "space_gem";
    "thanos_weapon"; "thanos_weapon"; "thanos"; "thanos"; "infinity_glove";
    "time_gem"; "time_gem"; "space_gem"; "thanos_weapon"; "scarlet_witch";
    "scarlet_witch"; "thanos"; "thanos"; "reality_gem"; "soul_gem";
    "time_gem"; "space_gem"; "space_gem"; "thanos_weapon"; "thanos_weapon";
    "scarlet_witch"; "scarlet_witch"; "thanos"; "time_gem"; "time_gem";
    "space_gem"; "mind_gem"; "power_gem"; "thanos_weapon"; "infinity_glove";
    "time_gem"; "time_gem"; "space_gem"; "space_gem"; "thanos_weapon";
    "thanos_weapon"; "scarlet_witch"; "thanos"; "thanos"; "time_gem";
    "space_gem"; "thanos_weapon"; "scarlet_witch"; "scarlet_witch"; "reality_gem";
    "soul_gem"; "time_gem"; "time_gem"; "space_gem"; "thanos_weapon";
    "thanos_weapon"; "scarlet_witch"; "thanos"; "thanos"; "infinity_glove";
    "time_gem"; "time_gem"; "space_gem"; "space_gem"; "thanos_weapon";
    "scarlet_witch"; "scarlet_witch"; "thanos"; "thanos"; "mind_gem";
    "power_gem"; "time_gem"; "space_gem"; "thanos_weapon"; "infinity_glove";
    "time_gem"; "space_gem"; "scarlet_witch"; "thanos"; "thanos_weapon"
  ];
  (* Column 4 *)
  [
    "thanos"; "thanos"; "time_gem"; "time_gem"; "space_gem";
    "space_gem"; "thanos_weapon"; "thanos_weapon"; "scarlet_witch"; "scarlet_witch";
    "mind_gem"; "power_gem"; "time_gem"; "space_gem"; "thanos_weapon";
    "scarlet_witch"; "scarlet_witch"; "thanos"; "thanos"; "reality_gem";
    "soul_gem"; "time_gem"; "time_gem"; "space_gem"; "infinity_glove";
    "time_gem"; "space_gem"; "space_gem"; "thanos_weapon"; "thanos_weapon";
    "scarlet_witch"; "scarlet_witch"; "thanos"; "thanos"; "time_gem";
    "time_gem"; "space_gem"; "mind_gem"; "power_gem"; "thanos_weapon";
    "thanos_weapon"; "scarlet_witch"; "thanos"; "thanos"; "time_gem";
    "space_gem"; "space_gem"; "thanos_weapon"; "scarlet_witch"; "infinity_glove";
    "time_gem"; "time_gem"; "space_gem"; "thanos_weapon"; "thanos_weapon";
    "scarlet_witch"; "scarlet_witch"; "thanos"; "thanos"; "reality_gem";
    "soul_gem"; "time_gem"; "space_gem"; "space_gem"; "thanos_weapon";
    "thanos_weapon"; "scarlet_witch"; "thanos"; "thanos"; "time_gem";
    "time_gem"; "space_gem"; "mind_gem"; "power_gem"; "infinity_glove";
    "time_gem"; "time_gem"; "space_gem"; "space_gem"; "thanos_weapon";
    "thanos_weapon"; "scarlet_witch"; "scarlet_witch"; "thanos"; "thanos";
    "time_gem"; "space_gem"; "thanos_weapon"; "scarlet_witch"; "reality_gem";
    "soul_gem"; "time_gem"; "time_gem"; "space_gem"; "space_gem";
    "thanos_weapon"; "thanos_weapon"; "scarlet_witch"; "thanos"; "infinity_glove";
    "time_gem"; "time_gem"; "space_gem"; "thanos_weapon"; "thanos_weapon";
    "scarlet_witch"; "scarlet_witch"; "thanos"; "thanos"; "mind_gem";
    "power_gem"; "time_gem"; "space_gem"; "thanos_weapon"; "infinity_glove";
    "time_gem"; "space_gem"; "scarlet_witch"; "thanos"; "thanos_weapon"
  ];
  (* Column 5 *)
  [
    "thanos_weapon"; "thanos_weapon"; "time_gem"; "time_gem"; "space_gem";
    "space_gem"; "scarlet_witch"; "scarlet_witch"; "thanos"; "thanos";
    "mind_gem"; "power_gem"; "time_gem"; "space_gem"; "thanos_weapon";
    "thanos_weapon"; "scarlet_witch"; "thanos"; "thanos"; "reality_gem";
    "soul_gem"; "time_gem"; "time_gem"; "space_gem"; "infinity_glove";
    "time_gem"; "space_gem"; "space_gem"; "thanos_weapon"; "thanos_weapon";
    "scarlet_witch"; "scarlet_witch"; "thanos"; "thanos"; "time_gem";
    "time_gem"; "space_gem"; "mind_gem"; "power_gem"; "thanos_weapon";
    "scarlet_witch"; "scarlet_witch"; "thanos"; "thanos"; "time_gem";
    "space_gem"; "space_gem"; "thanos_weapon"; "thanos_weapon"; "infinity_glove";
    "time_gem"; "time_gem"; "space_gem"; "thanos_weapon"; "scarlet_witch";
    "scarlet_witch"; "thanos"; "thanos"; "reality_gem"; "soul_gem";
    "time_gem"; "space_gem"; "space_gem"; "thanos_weapon"; "thanos_weapon";
    "scarlet_witch"; "scarlet_witch"; "thanos"; "thanos"; "time_gem";
    "time_gem"; "space_gem"; "mind_gem"; "power_gem"; "infinity_glove";
    "time_gem"; "time_gem"; "space_gem"; "space_gem"; "thanos_weapon";
    "thanos_weapon"; "scarlet_witch"; "thanos"; "thanos"; "time_gem";
    "space_gem"; "thanos_weapon"; "thanos_weapon"; "scarlet_witch"; "scarlet_witch";
    "reality_gem"; "soul_gem"; "time_gem"; "time_gem"; "space_gem";
    "thanos_weapon"; "scarlet_witch"; "thanos"; "thanos"; "infinity_glove";
    "time_gem"; "time_gem"; "space_gem"; "space_gem"; "thanos_weapon";
    "thanos_weapon"; "scarlet_witch"; "scarlet_witch"; "thanos"; "mind_gem";
    "power_gem"; "time_gem"; "space_gem"; "thanos_weapon"; "infinity_glove";
    "time_gem"; "space_gem"; "scarlet_witch"; "thanos"; "thanos_weapon"
  ]
].

(** [getStrips(freeSpinsMode)] *)
Definition getStrips (freeSpinsMode : bool) : list (list string) :=
  if freeSpinsMode then FREE_SPINS_STRIPS else BASE_GAME_STRIPS.

(** What a call can throw.  Each constructor is one [throw new Error(...)]
    of the source, with the values its message interpolates; [TypeError] is
    the engine's own error on reading a property of [undefined]. *)
Inductive Error : Type :=
| InvalidColumnIndex (column : Z)
| StripVersionMismatch (expected got : string)
| InvalidStopPositions (expected : Z)
| TypeError.

(** The message of a thrown error, as the source builds it. *)
Definition message (e : Error) : string :=
  match e with
  | InvalidColumnIndex column => "Invalid column index: " ++ JS.show column
  | StripVersionMismatch expected got =>
      "Strip version mismatch: expected " ++ expected ++ ", got " ++ got
  | InvalidStopPositions expected =>
      "Invalid stop positions: expected " ++ JS.show expected ++ " positions"
  | TypeError => "Cannot read properties of undefined (reading 'length')"
  end.

Inductive Outcome (A : Type) : Type :=
| Returns (a : A)
| Throws (e : Error).
Arguments Returns {A} a.
Arguments Throws {A} e.

(** [getStrip(column, freeSpinsMode)].  Past the guard the column is an
    index of [strips], so the read [strips[column]] is never [undefined]
    (lemma [getStrip_in_range] below); the last branch is there for the
    type of the read only. *)
Definition getStrip (column : Z) (freeSpinsMode : bool) : Outcome (list string) :=
  let strips := getStrips freeSpinsMode in
  if (column <? 0) || (column >=? JS.length strips) then
    Throws (InvalidColumnIndex column)
  else
    match JS.index strips column with
    | Some strip => Returns strip
    | None => Throws TypeError
    end.

(** [getSymbolAt(column, position, freeSpinsMode)] *)
Definition getSymbolAt (column position : Z) (freeSpinsMode : bool)
  : Outcome (option string) :=
  match getStrip column freeSpinsMode with
  | Throws e => Throws e
  | Returns strip =>
      let wrappedPosition :=
        match JS.rem position (JS.length strip) with
        | Some r => JS.rem (r + JS.length strip) (JS.length strip)
        | None => None
        end in
      Returns (JS.index_num strip wrappedPosition)
  end.

(** *** [validateStrips()] *)

Record ValidationResults : Type := {
  valid : bool;
  errors : list string;
  warnings : list string
}.

(** [results.valid = false; results.errors.push(msg)] *)
Definition push_error (msg : string) (results : ValidationResults) : ValidationResults :=
  {| valid := false;
     errors := errors results ++ [msg];
     warnings := warnings results |}.

(** [results.warnings.push(msg)] *)
Definition push_warning (msg : string) (results : ValidationResults) : ValidationResults :=
  {| valid := valid results;
     errors := errors results;
     warnings := warnings results ++ [msg] |}.

(** [validSymbols], the set of the 10 symbol names, as the list of its
    elements. *)
Definition validSymbols : list string :=
  [ "time_gem"; "space_gem"; "mind_gem"; "power_gem"; "reality_gem";
    "soul_gem"; "thanos_weapon"; "scarlet_witch"; "thanos"; "infinity_glove" ].

(** [validSymbols.has(s)] *)
Definition validSymbols_has (s : string) : bool :=
  existsb (String.eqb s) validSymbols.

(** [strip.filter(s => s === 'infinity_glove').length] *)
Definition scatterCount (strip : list string) : Z :=
  JS.length (filter (fun s => (s =? "infinity_glove")%string) strip).

(** The loop over the positions of one strip, from position [pos] on. *)
Fixpoint validate_positions (mode : string) (col pos : Z) (rest : list string)
    (results : ValidationResults) : ValidationResults :=
  match rest with
  | [] => results
  | s :: rest' =>
      let results :=
        if validSymbols_has s then results
        else push_error (mode ++ " column " ++ JS.show col ++ " position "
                           ++ JS.show pos ++ ": Invalid symbol '" ++ s ++ "'")
                        results in
      validate_positions mode col (pos + 1) rest' results
  end.

(** The body of the loop over columns, for one strip. *)
Definition validate_strip (mode : string) (col : Z) (strip : list string)
    (results : ValidationResults) : ValidationResults :=
  let results :=
    if JS.length strip =? STRIP_LENGTH then results
    else push_error (mode ++ " column " ++ JS.show col ++ ": Expected "
                       ++ JS.show STRIP_LENGTH ++ " symbols, got "
                       ++ JS.show (JS.length strip))
                    results in
  let results := validate_positions mode col 0 strip results in
  if (scatterCount strip <? 4) || (scatterCount strip >? 7) then
    push_warning (mode ++ " column " ++ JS.show col ++ ": Scatter count "
                    ++ JS.show (scatterCount strip) ++ " may affect trigger rate")
                 results
  else results.

(** The loop over the columns of one mode, from column [col] on. *)
Fixpoint validate_columns (mode : string) (col : Z) (rest : list (list string))
    (results : ValidationResults) : ValidationResults :=
  match rest with
  | [] => results
  | strip :: rest' =>
      validate_columns mode (col + 1) rest' (validate_strip mode col strip results)
  end.

(** The body of the loop over the two modes. *)
Definition validate_mode (mode : string) (strips : list (list string))
    (results : ValidationResults) : ValidationResults :=
  let results :=
    if JS.length strips =? 6 then results
    else push_error (mode ++ ": Expected 6 strips, got " ++ JS.show (JS.length strips))
                    results in
  validate_columns mode 0 strips results.

(** [validateStrips()] with the two strip tables it reads as arguments. *)
Definition validateStrips_of (base free_spins : list (list string)) : ValidationResults :=
  let results := {| valid := true; errors := []; warnings := [] |} in
  let results := validate_mode "base" base results in
  validate_mode "free_spins" free_spins results.

(** [validateStrips()] *)
Definition validateStrips : ValidationResults :=
  validateStrips_of BASE_GAME_STRIPS FREE_SPINS_STRIPS.

(** ** The entropy provider ([./rng]) *)

(** Modelled from the spec: the entropy provider, the module [./rng] that
    [reelStripGenerator.js] requires and that is not among the sources.
    Section 4.1 of the specification gives its contract:
    [randomInt(min, max)] is an integer between the bounds, both included,
    drawn from the live source; [createSeededRNG(seed)] is a stream of
    doubles in [0, 1) that is a function of the seed string alone.  The live
    source has a state of its own ([live]); a seeded stream closes over a
    state of its own ([stream]) that each call of the stream advances. *)
Record EntropyProvider : Type := {
  live : Type;
  randomInt : Z -> Z -> live -> Z * live;
  randomInt_inclusive :
    forall (lo hi : Z) (e : live),
      lo <= hi -> lo <= fst (randomInt lo hi e) <= hi;
  stream : Type;
  createSeededRNG : string -> stream;
  seededRNG : stream -> unit_double * stream
}.

(** ** The generator ([reelStripGenerator.js]) *)

(** The statistics of one generator instance ([this.statistics]). *)
Record Statistics : Type := {
  gridsGenerated : Z;
  symbolsGenerated : Z;
  replacementSymbolsGenerated : Z;
  lastStopPositions : option (list Z);
  initialized : Z
}.

(** The options of the constructor that the class reads, once defaulted:
    [this.rows], [this.cols], [this.auditLogging].  No method assigns
    them. *)
Record Generator : Type := {
  rows : Z;
  cols : Z;
  auditLogging : bool
}.

(** The [options] argument of the constructor; [None] is a missing key. *)
Record Options : Type := {
  opt_rows : option Z;
  opt_cols : option Z;
  opt_auditLogging : option bool
}.

(** A grid: columns of cells; a cell read outside a strip is [undefined]. *)
Definition Grid : Type := list (list (option string)).

(** [symbolCounts]: an object from symbol to count, keys in insertion
    order. *)
Definition SymbolCounts : Type := list (string * Z).

(** The first argument of [reconstructGrid]: an array of integers, or any
    value for which [Array.isArray] is false. *)
Inductive StopArg : Type :=
| NotAnArray
| StopArray (positions : list Z).

(** The payload of an audit event, one constructor per event the class
    emits (the [generator: 'ReelStripGenerator'] key is common to all). *)
Inductive AuditData : Type :=
| GeneratorInitialized (stripVersion : string) (stripLength : Z) (gridDimensions : string)
| StopPositionsGenerated (positions : list Z) (seeded : bool) (stripLength : Z)
| GridGeneratedFromStrips (stopPositions : list Z) (stripVersion : string)
    (freeSpinsMode : bool) (symbolCounts : SymbolCounts) (generationTimeMs : Z)
| ReplacementSymbolGenerated (column stripPosition : Z) (symbol : option string)
    (freeSpinsMode : bool) (stripVersion : string)
| ReplacementSymbolsBatchGenerated (count : Z) (freeSpinsMode : bool) (stripVersion : string)
| GridReconstructed (stopPositions : StopArg) (stripVersion : string) (freeSpinsMode : bool)
| StatsReset.

Record AuditEvent : Type := {
  timestamp : Z;
  event : string;
  data : AuditData
}.

(** One use of the entropy provider by the generator. *)
Inductive EntropyCall : Type :=
| CallRandomInt (lo hi result : Z)
| CallCreateSeededRNG (seed : string)
| CallSeededRNG (u : unit_double).

(** A call that draws a value (creating a stream draws nothing). *)
Definition is_draw (c : EntropyCall) : bool :=
  match c with
  | CallRandomInt _ _ _ => true
  | CallCreateSeededRNG _ => false
  | CallSeededRNG _ => true
  end.

Section Engine.

Variable rng : EntropyProvider.

(** Everything a method can read or change: the statistics of the
    instance, the state of the live entropy source, the calls made to the
    provider so far (oldest first), the events emitted so far (oldest
    first), and the clock: [Date.now()] returns [clock ticks] and moves
    [ticks] on. *)
Record World : Type := {
  statistics : Statistics;
  source : live rng;
  entropyCalls : list EntropyCall;
  auditTrail : list AuditEvent;
  clock : nat -> Z;
  ticks : nat
}.

Definition M (A : Type) : Type := World -> Outcome A * World.

Definition ret {A : Type} (a : A) : M A := fun w => (Returns a, w).

Definition throw {A : Type} (e : Error) : M A := fun w => (Throws e, w).

Definition bind {A B : Type} (m : M A) (k : A -> M B) : M B :=
  fun w =>
    match m w with
    | (Returns a, w') => k a w'
    | (Throws e, w') => (Throws e, w')
    end.

Definition lift {A : Type} (o : Outcome A) : M A := fun w => (o, w).

End Engine.

Arguments ret {rng A} a.
Arguments throw {rng A} e.
Arguments bind {rng A B} m k.
Arguments lift {rng A} o.
Arguments statistics {rng} w.
Arguments source {rng} w.
Arguments entropyCalls {rng} w.
Arguments auditTrail {rng} w.
Arguments clock {rng} w.
Arguments ticks {rng} w.

Declare Scope engine_scope.
Delimit Scope engine_scope with engine.
Notation "x <- m ;; k" := (bind m (fun x => k))
  (at level 61, m at next level, right associativity) : engine_scope.
Notation "m ;; k" := (bind m (fun _ => k))
  (at level 61, right associativity) : engine_scope.
Notation "' pat <- m ;; k" := (bind m (fun x => match x with pat => k end))
  (at level 61, pat pattern, m at next level, right associativity) : engine_scope.

(** [if (seed)]: the seed when it is truthy, that is neither [null] nor the
    empty string. *)
Definition when_truthy (s : option string) : option string :=
  match s with
  | Some s => if (s =? "")%string then None else Some s
  | None => None
  end.

(** Loops [for (let i = start; i < start + n; i++)] over an accumulator, in
    code that can only throw ([for_pure]) and in code with effects
    ([for_M]). *)
Fixpoint for_pure {S : Type} (n : nat) (i : Z) (body : Z -> S -> Outcome S) (acc : S)
  : Outcome S :=
  match n with
  | O => Returns acc
  | S n' =>
      match body i acc with
      | Returns acc' => for_pure n' (i + 1) body acc'
      | Throws e => Throws e
      end
  end.

Fixpoint for_M {rng : EntropyProvider} {S : Type} (n : nat) (i : Z)
    (body : Z -> S -> M rng S) (acc : S) : M rng S :=
  match n with
  | O => ret acc
  | S n' => (acc' <- body i acc ;; for_M n' (i + 1) body acc')%engine
  end.

(** [symbolCounts[symbol] = (symbolCounts[symbol] || 0) + 1] *)
Fixpoint count_symbol (key : string) (symbolCounts : SymbolCounts) : SymbolCounts :=
  match symbolCounts with
  | [] => [(key, 1)]
  | (k, n) :: rest =>
      if (k =? key)%string then (k, n + 1) :: rest
      else (k, n) :: count_symbol key rest
  end.

(** The options of [generateInitialGrid], once defaulted. *)
Record GridOptions : Type := {
  freeSpinsMode : bool;
  seed : option string
}.

Record Metadata : Type := {
  generationMethod : string;
  meta_freeSpinsMode : bool;
  generationTimeMs : Z;
  rngCalls : Z;
  meta_seeded : bool
}.

Record GridResult : Type := {
  grid : Grid;
  stopPositions : list Z;
  stripVersion : string;
  symbolCounts : SymbolCounts;
  metadata : Metadata
}.

(** What [generateReplacementSymbol] returns. *)
Record Replacement : Type := {
  symbol : option string;
  stripPosition : Z;
  column : Z;
  rep_stripVersion : string;
  rep_freeSpinsMode : bool
}.

(** A position to refill, [{col, row}]. *)
Record Cell : Type := {
  col : Z;
  row : Z
}.

(** One element of what [generateReplacementSymbols] returns. *)
Record CellReplacement : Type := {
  cell_col : Z;
  cell_row : Z;
  cell_symbol : option string;
  cell_stripPosition : Z;
  cell_stripVersion : string
}.

(** What [getStatistics()] returns. *)
Record StatisticsReport : Type := {
  report : Statistics;
  report_stripVersion : string;
  report_stripLength : Z;
  uptime : Z
}.

(** [byColumn]: the cells grouped under the key of their column.
    [Object.entries] lists the keys that are array indices in ascending
    order, then the other keys in the order they were added; the list is
    kept in that order. *)
Definition ByColumn : Type := list (Z * list Cell).

Definition is_array_index (k : Z) : bool := (0 <=? k) && (k <? 2 ^ 32 - 1).

(** [if (!byColumn[pos.col]) byColumn[pos.col] = []; byColumn[pos.col].push(pos)] *)
Fixpoint group_cell (pos : Cell) (byColumn : ByColumn) : ByColumn :=
  match byColumn with
  | [] => [(col pos, [pos])]
  | (k, cells) :: rest =>
      if k =? col pos then (k, cells ++ [pos]) :: rest
      else if is_array_index (col pos) && (negb (is_array_index k) || (col pos <? k))
      then (col pos, [pos]) :: (k, cells) :: rest
      else (k, cells) :: group_cell pos rest
  end.

(** The grouping loop of [generateReplacementSymbols]. *)
Definition group_by_column (positions : list Cell) : ByColumn :=
  fold_left (fun byColumn pos => group_cell pos byColumn) positions [].

Section Methods.

Variable rng : EntropyProvider.

Local Open Scope engine_scope.

(** *** The effects a method is built from *)

Definition read_statistics : M rng Statistics :=
  fun w => (Returns (statistics w), w).

Definition modify_statistics (f : Statistics -> Statistics) : M rng unit :=
  fun w =>
    (Returns tt,
     {| statistics := f (statistics w); source := source w;
        entropyCalls := entropyCalls w; auditTrail := auditTrail w;
        clock := clock w; ticks := ticks w |}).

(** [Date.now()] *)
Definition Date_now : M rng Z :=
  fun w =>
    (Returns (clock w (ticks w)),
     {| statistics := statistics w; source := source w;
        entropyCalls := entropyCalls w; auditTrail := auditTrail w;
        clock := clock w; ticks := S (ticks w) |}).

(** [this.rng.randomInt(lo, hi)] *)
Definition rng_randomInt (lo hi : Z) : M rng Z :=
  fun w =>
    let (result, source') := randomInt rng lo hi (source w) in
    (Returns result,
     {| statistics := statistics w; source := source';
        entropyCalls := entropyCalls w ++ [CallRandomInt lo hi result];
        auditTrail := auditTrail w; clock := clock w; ticks := ticks w |}).

(** [this.rng.createSeededRNG(seed)] *)
Definition rng_createSeededRNG (seed : string) : M rng (stream rng) :=
  fun w =>
    (Returns (createSeededRNG rng seed),
     {| statistics := statistics w; source := source w;
        entropyCalls := entropyCalls w ++ [CallCreateSeededRNG seed];
        auditTrail := auditTrail w; clock := clock w; ticks := ticks w |}).

(** [seededRNG()], for the stream whose state is [st]: the value drawn and
    the state of the stream after the call. *)
Definition call_seededRNG (st : stream rng) : M rng (unit_double * stream rng) :=
  fun w =>
    let (u, st') := seededRNG rng st in
    (Returns (u, st'),
     {| statistics := statistics w; source := source w;
        entropyCalls := entropyCalls w ++ [CallSeededRNG u];
        auditTrail := auditTrail w; clock := clock w; ticks := ticks w |}).

(** [this.rng.emit('audit_event', e)] *)
Definition rng_emit (e : AuditEvent) : M rng unit :=
  fun w =>
    (Returns tt,
     {| statistics := statistics w; source := source w;
        entropyCalls := entropyCalls w; auditTrail := auditTrail w ++ [e];
        clock := clock w; ticks := ticks w |}).

(** *** [logAuditEvent(event, data)] *)
Definition logAuditEvent (g : Generator) (event : string) (data : AuditData)
  : M rng unit :=
  if negb (auditLogging g) then ret tt
  else
    now <- Date_now ;;
    rng_emit {| timestamp := now; event := event; data := data |}.

(** *** [constructor(options)] *)
Definition constructor (options : Options) : M rng Generator :=
  let g := {| rows := JS.or_default (opt_rows options) 5;
              cols := JS.or_default (opt_cols options) 6;
              auditLogging := match opt_auditLogging options with
                              | Some false => false
                              | _ => true
                              end |} in
  now <- Date_now ;;
  modify_statistics (fun _ =>
    {| gridsGenerated := 0; symbolsGenerated := 0;
       replacementSymbolsGenerated := 0; lastStopPositions := None;
       initialized := now |}) ;;
  logAuditEvent g "REEL_STRIP_GENERATOR_INITIALIZED"
    (GeneratorInitialized STRIP_VERSION STRIP_LENGTH
       (JS.show (cols g) ++ "x" ++ JS.show (rows g))) ;;
  ret g.

(** *** [generateStopPositions(seed)] *)
Definition generateStopPositions (g : Generator) (seed : option string)
  : M rng (list Z) :=
  stopPositions <-
    match when_truthy seed with
    | Some seed =>
        seededRNG <- rng_createSeededRNG seed ;;
        drawn <- for_M (Z.to_nat (cols g)) 0
          (fun _ '(seededRNG, stopPositions) =>
             '(u, seededRNG) <- call_seededRNG seededRNG ;;
             let position := Math_floor_mul u STRIP_LENGTH in
             ret (seededRNG, stopPositions ++ [position]))
          (seededRNG, []) ;;
        ret (snd drawn)
    | None =>
        for_M (Z.to_nat (cols g)) 0
          (fun _ stopPositions =>
             position <- rng_randomInt 0 (STRIP_LENGTH - 1) ;;
             ret (stopPositions ++ [position]))
          []
    end ;;
  logAuditEvent g "STOP_POSITIONS_GENERATED"
    (StopPositionsGenerated stopPositions (JS.truthy seed) STRIP_LENGTH) ;;
  ret stopPositions.

(** The cell the two grid loops read for a column and a row:
    [strip[(stopPos + row) % strip.length]]. *)
Definition read_cell (strip : list string) (stopPos : option Z) (row : Z)
  : option string :=
  let stripIndex :=
    match stopPos with
    | Some stopPos => JS.rem (stopPos + row) (JS.length strip)
    | None => None
    end in
  JS.index_num strip stripIndex.

(** *** [generateInitialGrid(options)] *)

(** The loop over the rows of one column (lines 83-89). *)
Definition generateInitialGrid_rows (g : Generator) (strip : option (list string))
    (stopPos : option Z) (symbolCounts : SymbolCounts)
  : Outcome (list (option string) * SymbolCounts) :=
  for_pure (Z.to_nat (rows g)) 0
    (fun row '(column, symbolCounts) =>
       match strip with
       | None => Throws TypeError
       | Some strip =>
           let symbol := read_cell strip stopPos row in
           Returns (column ++ [symbol],
                    count_symbol (JS.show_opt symbol) symbolCounts)
       end)
    ([], symbolCounts).

(** The loop over the columns (lines 78-92). *)
Definition generateInitialGrid_columns (g : Generator) (strips : list (list string))
    (stopPositions : list Z) : Outcome (Grid * SymbolCounts) :=
  for_pure (Z.to_nat (cols g)) 0
    (fun col '(grid, symbolCounts) =>
       let strip := JS.index strips col in
       let stopPos := JS.index stopPositions col in
       match generateInitialGrid_rows g strip stopPos symbolCounts with
       | Returns (column, symbolCounts) => Returns (grid ++ [column], symbolCounts)
       | Throws e => Throws e
       end)
    ([], []).

Definition generateInitialGrid (g : Generator) (options : GridOptions)
  : M rng GridResult :=
  let freeSpinsMode := freeSpinsMode options in
  let seed := seed options in
  startTime <- Date_now ;;
  let strips := getStrips freeSpinsMode in
  stopPositions <- generateStopPositions g seed ;;
  '(grid, symbolCounts) <- lift (generateInitialGrid_columns g strips stopPositions) ;;
  endTime <- Date_now ;;
  modify_statistics (fun s =>
    {| gridsGenerated := gridsGenerated s + 1;
       symbolsGenerated := symbolsGenerated s + cols g * rows g;
       replacementSymbolsGenerated := replacementSymbolsGenerated s;
       lastStopPositions := Some stopPositions;
       initialized := initialized s |}) ;;
  let result :=
    {| grid := grid;
       stopPositions := stopPositions;
       stripVersion := STRIP_VERSION;
       symbolCounts := symbolCounts;
       metadata := {| generationMethod := "reel_strips";
                      meta_freeSpinsMode := freeSpinsMode;
                      generationTimeMs := endTime - startTime;
                      rngCalls := cols g;
                      meta_seeded := JS.truthy seed |} |} in
  logAuditEvent g "GRID_GENERATED_FROM_STRIPS"
    (GridGeneratedFromStrips stopPositions STRIP_VERSION freeSpinsMode
       symbolCounts (endTime - startTime)) ;;
  ret result.

(** [stripPosition]: the one draw of a replacement, from a stream made for
    [seed] when there is one and from the live source otherwise. *)
Definition draw_stripPosition (seed : option string) (strip : list string)
  : M rng Z :=
  match when_truthy seed with
  | Some seed =>
      seededRNG <- rng_createSeededRNG seed ;;
      '(u, _) <- call_seededRNG seededRNG ;;
      ret (Math_floor_mul u (JS.length strip))
  | None => rng_randomInt 0 (JS.length strip - 1)
  end.

Definition count_replacement (s : Statistics) : Statistics :=
  {| gridsGenerated := gridsGenerated s;
     symbolsGenerated := symbolsGenerated s;
     replacementSymbolsGenerated := replacementSymbolsGenerated s + 1;
     lastStopPositions := lastStopPositions s;
     initialized := initialized s |}.

(** *** [generateReplacementSymbol(column, freeSpinsMode, seed)] *)
Definition generateReplacementSymbol (g : Generator) (column : Z)
    (freeSpinsMode : bool) (seed : option string) : M rng Replacement :=
  if (column <? 0) || (column >=? cols g) then
    throw (InvalidColumnIndex column)
  else
    strip <- lift (getStrip column freeSpinsMode) ;;
    stripPosition <- draw_stripPosition seed strip ;;
    let symbol := JS.index strip stripPosition in
    modify_statistics count_replacement ;;
    logAuditEvent g "REPLACEMENT_SYMBOL_GENERATED"
      (ReplacementSymbolGenerated column stripPosition symbol freeSpinsMode
         STRIP_VERSION) ;;
    ret {| symbol := symbol;
           stripPosition := stripPosition;
           column := column;
           rep_stripVersion := STRIP_VERSION;
           rep_freeSpinsMode := freeSpinsMode |}.

(** *** [generateReplacementSymbols(positions, freeSpinsMode, cascadeSeed)] *)

(** [cascadeSeed ? `${cascadeSeed}_${col}_${pos.row}` : null], where [col]
    is the number [colNum] parsed from the key of the group. *)
Definition positionSeed (cascadeSeed : option string) (colNum : Z) (pos : Cell)
  : option string :=
  match when_truthy cascadeSeed with
  | Some cascadeSeed =>
      Some (cascadeSeed ++ "_" ++ JS.show colNum ++ "_" ++ JS.show (row pos))%string
  | None => None
  end.

(** The loop over the cells of one column (lines 227-252); [colNum] is
    [parseInt(colStr, 10)]. *)
Fixpoint replace_cells (cascadeSeed : option string) (colNum : Z) (strip : list string)
    (colPositions : list Cell) (replacements : list CellReplacement)
  : M rng (list CellReplacement) :=
  match colPositions with
  | [] => ret replacements
  | pos :: colPositions' =>
      stripPosition <- draw_stripPosition (positionSeed cascadeSeed colNum pos) strip ;;
      let symbol := JS.index strip stripPosition in
      let replacements :=
        replacements ++ [ {| cell_col := col pos;
                             cell_row := row pos;
                             cell_symbol := symbol;
                             cell_stripPosition := stripPosition;
                             cell_stripVersion := STRIP_VERSION |} ] in
      modify_statistics count_replacement ;;
      replace_cells cascadeSeed colNum strip colPositions' replacements
  end.

(** The loop over the entries of [byColumn] (lines 223-253). *)
Fixpoint replace_columns (freeSpinsMode : bool) (cascadeSeed : option string)
    (entries : ByColumn) (replacements : list CellReplacement)
  : M rng (list CellReplacement) :=
  match entries with
  | [] => ret replacements
  | (colNum, colPositions) :: entries' =>
      strip <- lift (getStrip colNum freeSpinsMode) ;;
      replacements <- replace_cells cascadeSeed colNum strip colPositions replacements ;;
      replace_columns freeSpinsMode cascadeSeed entries' replacements
  end.

Definition generateReplacementSymbols (g : Generator) (positions : list Cell)
    (freeSpinsMode : bool) (cascadeSeed : option string)
  : M rng (list CellReplacement) :=
  let byColumn := group_by_column positions in
  replacements <- replace_columns freeSpinsMode cascadeSeed byColumn [] ;;
  logAuditEvent g "REPLACEMENT_SYMBOLS_BATCH_GENERATED"
    (ReplacementSymbolsBatchGenerated (JS.length replacements) freeSpinsMode
       STRIP_VERSION) ;;
  ret replacements.

(** *** [reconstructGrid(stopPositions, freeSpinsMode, stripVersion)]

    [stripVersion] is [None] when the caller leaves the argument out. *)

(** The loop over the rows of one column (lines 288-291). *)
Definition reconstructGrid_rows (g : Generator) (strip : option (list string))
    (stopPos : option Z) : Outcome (list (option string)) :=
  for_pure (Z.to_nat (rows g)) 0
    (fun row column =>
       match strip with
       | None => Throws TypeError
       | Some strip => Returns (column ++ [read_cell strip stopPos row])
       end)
    [].

(** The loop over the columns (lines 283-294). *)
Definition reconstructGrid_columns (g : Generator) (strips : list (list string))
    (stopPositions : list Z) : Outcome Grid :=
  for_pure (Z.to_nat (cols g)) 0
    (fun col grid =>
       let strip := JS.index strips col in
       let stopPos := JS.index stopPositions col in
       match reconstructGrid_rows g strip stopPos with
       | Returns column => Returns (grid ++ [column])
       | Throws e => Throws e
       end)
    [].

Definition reconstructGrid (g : Generator) (stopPositions : StopArg)
    (freeSpinsMode : bool) (stripVersion : option string) : M rng Grid :=
  let stripVersion :=
    match stripVersion with
    | Some v => v
    | None => STRIP_VERSION
    end in
  if negb (stripVersion =? STRIP_VERSION)%string then
    throw (StripVersionMismatch STRIP_VERSION stripVersion)
  else
    match stopPositions with
    | NotAnArray => throw (InvalidStopPositions (cols g))
    | StopArray positions =>
        if negb (JS.length positions =? cols g) then
          throw (InvalidStopPositions (cols g))
        else
          let strips := getStrips freeSpinsMode in
          grid <- lift (reconstructGrid_columns g strips positions) ;;
          logAuditEvent g "GRID_RECONSTRUCTED"
            (GridReconstructed stopPositions stripVersion freeSpinsMode) ;;
          ret grid
    end.

(** *** [getStatistics()] *)
Definition getStatistics : M rng StatisticsReport :=
  statistics <- read_statistics ;;
  now <- Date_now ;;
  ret {| report := statistics;
         report_stripVersion := STRIP_VERSION;
         report_stripLength := STRIP_LENGTH;
         uptime := now - initialized statistics |}.

(** *** [resetStatistics()] *)
Definition resetStatistics (g : Generator) : M rng unit :=
  now <- Date_now ;;
  modify_statistics (fun _ =>
    {| gridsGenerated := 0; symbolsGenerated := 0;
       replacementSymbolsGenerated := 0; lastStopPositions := None;
       initialized := now |}) ;;
  logAuditEvent g "REEL_STRIP_GENERATOR_STATS_RESET" StatsReset.

End Methods.

(** ** The statistics of the strips ([reelStrips.js]) *)

(** *** [getStripStatistics(freeSpinsMode)] (lines 457-488)

    The percentages are computed on doubles:
    [((count / strip.length) * 100).toFixed(2) + '%']. *)
















(** * Notions the properties are stated with *)

(** ** Outcomes and loop counters *)

(** An outcome seen through a function of the returned value. *)
Definition outcome_map {A B : Type} (f : A -> B) (o : Outcome A) : Outcome B :=
  match o with
  | Returns a => Returns (f a)
  | Throws e => Throws e
  end.

(** The values a loop counter takes: [n] integers from [i] on. *)
Fixpoint zseq (i : Z) (n : nat) : list Z :=
  match n with
  | O => []
  | S n' => i :: zseq (i + 1) n'
  end.

(** ** The checks of [validateStrips], as lists *)

(** The errors [validateStrips] files for the symbols of a strip, from
    position [pos] on. *)
Fixpoint position_errors (mode : string) (col pos : Z) (rest : list string)
  : list string :=
  match rest with
  | [] => []
  | s :: rest' =>
      (if validSymbols_has s then []
       else [mode ++ " column " ++ JS.show col ++ " position " ++ JS.show pos
               ++ ": Invalid symbol '" ++ s ++ "'"]%string)
        ++ position_errors mode col (pos + 1) rest'
  end.

(** The errors filed for one strip. *)
Definition strip_errors (mode : string) (col : Z) (strip : list string)
  : list string :=
  (if JS.length strip =? STRIP_LENGTH then []
   else [mode ++ " column " ++ JS.show col ++ ": Expected "
           ++ JS.show STRIP_LENGTH ++ " symbols, got "
           ++ JS.show (JS.length strip)]%string)
    ++ position_errors mode col 0 strip.

(** The scatter count of a strip is in the audited band. *)
Definition in_scatter_band (strip : list string) : bool :=
  (4 <=? scatterCount strip) && (scatterCount strip <=? 7).

(** The warning filed for one strip, if any. *)
Definition strip_warnings (mode : string) (col : Z) (strip : list string)
  : list string :=
  if in_scatter_band strip then []
  else [mode ++ " column " ++ JS.show col ++ ": Scatter count "
          ++ JS.show (scatterCount strip) ++ " may affect trigger rate"]%string.

(** The errors filed for the strips of a mode, from column [col] on. *)
Fixpoint column_errors (mode : string) (col : Z) (rest : list (list string))
  : list string :=
  match rest with
  | [] => []
  | strip :: rest' => strip_errors mode col strip ++ column_errors mode (col + 1) rest'
  end.

(** The warnings filed for the strips of a mode, from column [col] on. *)
Fixpoint column_warnings (mode : string) (col : Z) (rest : list (list string))
  : list string :=
  match rest with
  | [] => []
  | strip :: rest' =>
      strip_warnings mode col strip ++ column_warnings mode (col + 1) rest'
  end.

(** The errors filed for a mode. *)
Definition mode_errors (mode : string) (strips : list (list string)) : list string :=
  (if JS.length strips =? 6 then []
   else [mode ++ ": Expected 6 strips, got " ++ JS.show (JS.length strips)]%string)
    ++ column_errors mode 0 strips.

(** A strip table that passes every structural check: 6 strips, each of
    [STRIP_LENGTH] symbols of the alphabet. *)
Definition well_formed (strips : list (list string)) : Prop :=
  JS.length strips = 6 /\
  Forall (fun strip =>
            JS.length strip = STRIP_LENGTH /\
            Forall (fun s => In s validSymbols) strip) strips.

(** What the checks did to the results so far: [valid] stays true only
    while no error is filed. *)
Definition filed (errs warns : list string) (results : ValidationResults)
  : ValidationResults :=
  {| valid := valid results && (match errs with [] => true | _ => false end);
     errors := errors results ++ errs;
     warnings := warnings results ++ warns |}.

(** The boolean form of the three checks on one strip, to decide them on
    the shipped tables by evaluation. *)
Definition strip_checks (strip : list string) : bool :=
  (JS.length strip =? 120) && forallb validSymbols_has strip
  && (4 <=? scatterCount strip) && (scatterCount strip <=? 7).

(** ** Windows, draws and refusals *)

(** The window of one column: [rows] cells down from the stop position. *)
Definition window (g : Generator) (strip : list string) (stopPos : option Z) : list (option string) :=
  map (read_cell strip stopPos) (zseq 0 (Z.to_nat (rows g))).

(** The stop position a call to the provider draws, if it draws one. *)
Definition position_drawn (c : EntropyCall) : list Z :=
  match c with
  | CallRandomInt _ _ result => [result]
  | CallCreateSeededRNG _ => []
  | CallSeededRNG u => [Math_floor_mul u STRIP_LENGTH]
  end.

(** A [stopPositions] argument that [reconstructGrid] refuses: not an
    array, or not as long as the generator has columns. *)
Definition malformed (g : Generator) (stopPositions : StopArg) : Prop :=
  match stopPositions with
  | NotAnArray => True
  | StopArray positions => JS.length positions <> cols g
  end.

(** The seed of a cell under a cascade seed: [`${cascadeSeed}_${col}_${row}`]. *)
Definition cell_seed (cascadeSeed : string) (c r : Z) : string :=
  (cascadeSeed ++ "_" ++ JS.show c ++ "_" ++ JS.show r)%string.

Section Notions.

Variable rng : EntropyProvider.

(** [n] successive values of [randomInt(lo, hi)] from the live source in
    state [e], and the state of the source after them. *)
Fixpoint live_draws (lo hi : Z) (n : nat) (e : live rng) : list Z * live rng :=
  match n with
  | O => ([], e)
  | S n' =>
      let (r, e') := randomInt rng lo hi e in
      let (rs, e'') := live_draws lo hi n' e' in
      (r :: rs, e'')
  end.

(** [n] successive values of a seeded stream in state [st], and the state
    of the stream after them. *)
Fixpoint stream_draws (n : nat) (st : stream rng) : list unit_double * stream rng :=
  match n with
  | O => ([], st)
  | S n' =>
      let (u, st') := seededRNG rng st in
      let (us, st'') := stream_draws n' st' in
      (u :: us, st'')
  end.

(** The world after calls to the provider that left the live source in
    state [e]. *)
Definition drawn (w : World rng) (e : live rng) (calls : list EntropyCall) : World rng :=
  {| statistics := statistics w; source := e;
     entropyCalls := entropyCalls w ++ calls; auditTrail := auditTrail w;
     clock := clock w; ticks := ticks w |}.

(** The part of the world that audit events and clock readings leave
    alone. *)
Definition quiet (w w' : World rng) : Prop :=
  statistics w' = statistics w /\
  source w' = source w /\
  entropyCalls w' = entropyCalls w.

(** The stop positions of a grid and the calls that draw them, for a
    generator of [n] columns. *)
Definition stop_positions (n : nat) (seed : option string) (e : live rng) : list Z :=
  match when_truthy seed with
  | Some seed =>
      map (fun u => Math_floor_mul u STRIP_LENGTH)
          (fst (stream_draws n (createSeededRNG rng seed)))
  | None => fst (live_draws 0 (STRIP_LENGTH - 1) n e)
  end.

Definition stop_calls (n : nat) (seed : option string) (e : live rng)
  : list EntropyCall :=
  match when_truthy seed with
  | Some seed =>
      CallCreateSeededRNG seed
        :: map CallSeededRNG (fst (stream_draws n (createSeededRNG rng seed)))
  | None =>
      map (CallRandomInt 0 (STRIP_LENGTH - 1))
          (fst (live_draws 0 (STRIP_LENGTH - 1) n e))
  end.

(** The position the first value of the stream of [seed] gives in a
    strip. *)
Definition seeded_stripPosition (seed : string) (strip : list string) : Z :=
  Math_floor_mul (fst (seededRNG rng (createSeededRNG rng seed))) (JS.length strip).

(** The replacement of a cell under a cascade seed. *)
Definition seeded_replacement (cascadeSeed : string) (colNum : Z) (strip : list string)
    (pos : Cell) : CellReplacement :=
  let stripPosition :=
    seeded_stripPosition (cell_seed cascadeSeed colNum (row pos)) strip in
  {| cell_col := col pos;
     cell_row := row pos;
     cell_symbol := JS.index strip stripPosition;
     cell_stripPosition := stripPosition;
     cell_stripVersion := STRIP_VERSION |}.

(** The replacements of the groups of [byColumn] under a cascade seed. *)
Fixpoint seeded_columns (freeSpinsMode : bool) (cascadeSeed : string)
    (entries : ByColumn) (replacements : list CellReplacement)
  : Outcome (list CellReplacement) :=
  match entries with
  | [] => Returns replacements
  | (colNum, colPositions) :: entries' =>
      match getStrip colNum freeSpinsMode with
      | Returns strip =>
          seeded_columns freeSpinsMode cascadeSeed entries'
            (replacements ++ map (seeded_replacement cascadeSeed colNum strip) colPositions)
      | Throws e => Throws e
      end
  end.

End Notions.

(** ** A generator and a provider to run the model on *)

(** The generator that [createReelStripGenerator({})] builds: 5 rows,
    6 columns, audit logging on. *)
Definition defaultGenerator : Generator :=
  {| rows := 5; cols := 6; auditLogging := true |}.

(** The double [mant / 2 ^ scale] when the pair stands for one in [0, 1),
    and zero otherwise. *)
Definition make_unit (mant scale : Z) : unit_double :=
  (if unit_double_ok mant scale as ok
     return unit_double_ok mant scale = ok -> unit_double
   then fun H => mkUnit mant scale H
   else fun _ => mkUnit 0 0 eq_refl) eq_refl.

(** The double [(z mod 2 ^ 53) / 2 ^ 53]. *)
Definition unit_of_Z (z : Z) : unit_double := make_unit (z mod 2 ^ 53) 53.

(** A seed string as a number: base-31 digits from the character codes. *)
Fixpoint seed_number (s : string) (h : Z) : Z :=
  match s with
  | EmptyString => h
  | String c s' => seed_number s' (h * 31 + Z.of_nat (nat_of_ascii c))
  end.

Definition sample_randomInt (lo hi e : Z) : Z * Z :=
  (lo + e mod (hi - lo + 1), e + 1).

(** A provider that meets the contract: the live source is a counter taken
    modulo the width of the range; a seeded stream is a linear congruential
    sequence started from the number of the seed. *)
Definition sampleRNG : EntropyProvider :=
  {| live := Z;
     randomInt := sample_randomInt;
     randomInt_inclusive :=
       ltac:(intros lo hi e H; unfold sample_randomInt; cbn [fst];
             pose proof (Z.mod_pos_bound e (hi - lo + 1)); lia);
     stream := Z;
     createSeededRNG := fun seed => seed_number seed 7;
     seededRNG := fun st =>
       let st' := (st * 6364136223846793005 + 1442695040888963407) mod 2 ^ 64 in
       (unit_of_Z (st' / 2 ^ 11), st') |}.

(** A world for [sampleRNG]: fresh statistics, the counter at [e], nothing
    drawn or emitted yet, a clock that advances one millisecond a
    reading. *)
Definition sampleWorld (e : Z) : World sampleRNG :=
  Build_World sampleRNG
    {| gridsGenerated := 0; symbolsGenerated := 0;
       replacementSymbolsGenerated := 0;
       lastStopPositions := None; initialized := 0 |}
    e [] [] (fun n => 1700000000000 + Z.of_nat n) 0%nat.

(** ** Cells of a grid *)


(** ** Symbol counts *)

(** [symbolCounts[key] || 0] *)
Definition count_of (key : string) (counts : SymbolCounts) : Z :=
  match find (fun entry => (fst entry =? key)%string) counts with
  | Some (_, n) => n
  | None => 0
  end.

(** The sum of the counts of an object of counts. *)
Fixpoint total_count (counts : SymbolCounts) : Z :=
  match counts with
  | [] => 0
  | (_, n) :: rest => n + total_count rest
  end.

(** The number of cells that hold a key. *)
Definition occurrences (key : string) (cells : list string) : Z :=
  JS.length (filter (fun cell => (cell =? key)%string) cells).

(** The keys under which the cells of a grid are counted, column after
    column. *)
Definition counted_cells (grid : Grid) : list string :=
  map JS.show_opt (List.concat grid).

(** ** The audit trail *)

(** A computation that leaves the audit trail as it was, in every world. *)
Definition keeps_auditTrail {rng : EntropyProvider} {A : Type} (m : M rng A) : Prop :=
  forall w : World rng, auditTrail (snd (m w)) = auditTrail w.

(** ** Batches of replacements *)


(** The cells grouped under the key [c]. *)
Definition cells_of (c : Z) (byColumn : ByColumn) : list Cell :=
  match find (fun entry => fst entry =? c) byColumn with
  | Some entry => snd entry
  | None => []
  end.

(** Keys in increasing order, all in [lo, hi). *)
Fixpoint ascending (lo hi : Z) (byColumn : ByColumn) : Prop :=
  match byColumn with
  | [] => True
  | (k, _) :: rest => lo <= k < hi /\ ascending (k + 1) hi rest
  end.

(** The cells of a batch in the order they are refilled: column by column,
    and within a column in the order of the argument. *)
Definition refill_order (positions : list Cell) : list Cell :=
  flat_map (fun c => filter (fun p => col p =? c) positions) (zseq 0 6).

(** The cell a replacement is for. *)
Definition cell_of (r : CellReplacement) : Cell :=
  {| col := cell_col r; row := cell_row r |}.

(** A replacement read off the strip of its column. *)
Definition refilled (freeSpinsMode : bool) (r : CellReplacement) : Prop :=
  exists (strip : list string) (s : string),
    JS.index (getStrips freeSpinsMode) (cell_col r) = Some strip /\
    0 <= cell_stripPosition r < STRIP_LENGTH /\
    cell_symbol r = Some s /\
    JS.index strip (cell_stripPosition r) = Some s /\
    In s validSymbols /\
    cell_stripVersion r = STRIP_VERSION.

(** The statistics after [n] replacements more. *)
Definition replacements_counted (n : Z) (s : Statistics) : Statistics :=
  {| gridsGenerated := gridsGenerated s;
     symbolsGenerated := symbolsGenerated s;
     replacementSymbolsGenerated := replacementSymbolsGenerated s + n;
     lastStopPositions := lastStopPositions s;
     initialized := initialized s |}.

(** ** Scatters and stop vectors *)

(** [symbol === 'infinity_glove'] on a cell of a grid. *)
Definition is_scatter (cell : option string) : bool :=
  match cell with
  | Some s => (s =? "infinity_glove")%string
  | None => false
  end.

(** The scatters of one column of a grid. *)
Definition scatters_in (column : list (option string)) : Z :=
  JS.length (filter is_scatter column).

(** The scatters of a grid, counted column by column as the validation
    script counts them. *)
Fixpoint scatters (grid : Grid) : Z :=
  match grid with
  | [] => 0
  | column :: grid' => scatters_in column + scatters grid'
  end.

(** The scatters in the window of 5 rows at a stop position. *)
Definition window_scatters (strip : list string) (p : Z) : Z :=
  scatters_in (map (read_cell strip (Some p)) (zseq 0 5)).

(** Every window of 5 rows of the strip holds at most [limit] scatters. *)
Definition windows_hold (limit : Z) (strip : list string) : bool :=
  forallb (fun p => window_scatters strip p <=? limit) (zseq 0 (Z.to_nat STRIP_LENGTH)).

(** All the vectors of [n] stop positions. *)
Fixpoint stop_vectors (n : nat) : list (list Z) :=
  match n with
  | O => [[]]
  | S n' => flat_map (fun p => map (cons p) (stop_vectors n'))
              (zseq 0 (Z.to_nat STRIP_LENGTH))
  end.

(** The grid of these stop positions shows 4 scatters or more, the
    number that starts the free spins. *)
Definition triggers (freeSpinsMode : bool) (stopPositions : list Z) : bool :=
  match reconstructGrid_columns {| rows := 5; cols := 6; auditLogging := true |}
          (getStrips freeSpinsMode) stopPositions with
  | Returns grid => 4 <=? scatters grid
  | Throws _ => false
  end.

(** The scatters of the windows of a vector of stop positions, one
    counting function per column. *)
Fixpoint total (fs : list (Z -> Z)) (v : list Z) : Z :=
  match fs, v with
  | f :: fs', p :: v' => f p + total fs' v'
  | _, _ => 0
  end.

(** The stop positions of a strip whose window holds no scatter, and
    those whose window holds one. *)
Definition histogram (f : Z -> Z) : Z * Z :=
  (JS.length (filter (fun p => f p =? 0) (zseq 0 (Z.to_nat STRIP_LENGTH))),
   JS.length (filter (fun p => f p =? 1) (zseq 0 (Z.to_nat STRIP_LENGTH)))).

(** The number of vectors with [t] scatters or more, from the histograms
    of the columns. *)
Fixpoint ways (hs : list (Z * Z)) (t : Z) : Z :=
  match hs with
  | [] => if t <=? 0 then 1 else 0
  | (a, b) :: hs' => a * ways hs' t + b * ways hs' (t - 1)
  end.

(** ** Histories of calls *)

(** A call of a method of the generator, by a caller that catches what the
    method throws. *)
Inductive Call : Type :=
| GenerateInitialGrid (options : GridOptions)
| GenerateStopPositions (seed : option string)
| GenerateReplacementSymbol (column : Z) (freeSpinsMode : bool) (seed : option string)
| GenerateReplacementSymbols (positions : list Cell) (freeSpinsMode : bool)
    (cascadeSeed : option string)
| ReconstructGrid (stopPositions : StopArg) (freeSpinsMode : bool)
    (stripVersion : option string)
| GetStatistics
| ResetStatistics.

(** The world after a call. *)
Definition perform (rng : EntropyProvider) (g : Generator) (c : Call) (w : World rng)
  : World rng :=
  match c with
  | GenerateInitialGrid options => snd (generateInitialGrid rng g options w)
  | GenerateStopPositions seed => snd (generateStopPositions rng g seed w)
  | GenerateReplacementSymbol column freeSpinsMode seed =>
      snd (generateReplacementSymbol rng g column freeSpinsMode seed w)
  | GenerateReplacementSymbols positions freeSpinsMode cascadeSeed =>
      snd (generateReplacementSymbols rng g positions freeSpinsMode cascadeSeed w)
  | ReconstructGrid stopPositions freeSpinsMode stripVersion =>
      snd (reconstructGrid rng g stopPositions freeSpinsMode stripVersion w)
  | GetStatistics => snd (getStatistics rng w)
  | ResetStatistics => snd (resetStatistics rng g w)
  end.

(** The world after a sequence of calls. *)
Definition history (rng : EntropyProvider) (g : Generator) (calls : list Call)
    (w : World rng) : World rng :=
  fold_left (fun w c => perform rng g c w) calls w.

(** The values drawn from the provider so far. *)
Definition draws {rng : EntropyProvider} (w : World rng) : Z :=
  JS.length (filter is_draw (entropyCalls w)).

(** Statistics that agree with one another. *)
Definition accounted (g : Generator) (s : Statistics) : Prop :=
  0 <= gridsGenerated s /\
  0 <= replacementSymbolsGenerated s /\
  symbolsGenerated s = gridsGenerated s * (cols g * rows g) /\
  match lastStopPositions s with
  | None => gridsGenerated s = 0
  | Some stopPositions =>
      0 < gridsGenerated s /\
      JS.length stopPositions = Z.max 0 (cols g) /\
      Forall (fun p => 0 <= p < STRIP_LENGTH) stopPositions
  end.

(** The calls whose draws the statistics count: all but a reset, which
    forgets the count, and a direct call of [generateStopPositions]. *)
Definition counts_draws (c : Call) : bool :=
  match c with
  | GenerateStopPositions _ | ResetStatistics => false
  | _ => true
  end.

(** ** Corrupted strip tables *)

(** [a] with the element at index [i] replaced by [x], for [i] inside [a]. *)
Definition replace_at {A : Type} (i : Z) (x : A) (a : list A) : list A :=
  firstn (Z.to_nat i) a ++ x :: skipn (S (Z.to_nat i)) a.

(** A strip table with the symbol at position [p] of column [c] replaced
    by [s]. *)
Definition corrupted (strips : list (list string)) (c p : Z) (s : string)
  : list (list string) :=
  replace_at c (replace_at p s (nth (Z.to_nat c) strips [])) strips.

(** ** The clock *)

(** Statistics started at a reading of the clock that is not in the
    future. *)
Definition started {rng : EntropyProvider} (w : World rng) : Prop :=
  exists t0 : nat, (t0 <= ticks w)%nat /\ initialized (statistics w) = clock w t0.

(** A computation that keeps the clock and the start time, and lets the
    clock run forward only. *)
Definition runs_forward {rng : EntropyProvider} {A : Type} (m : M rng A) : Prop :=
  forall w : World rng,
    clock (snd (m w)) = clock w /\
    (ticks w <= ticks (snd (m w)))%nat /\
    initialized (statistics (snd (m w))) = initialized (statistics w).

(** ** Strip statistics *)



(** * Properties *)

(** ** Doubles in the unit interval *)

Lemma unit_double_bounds (u : unit_double) :
  0 <= mant u < 2 ^ 53 /\ 0 <= scale u <= 1074 /\ mant u < 2 ^ scale u.
Proof.
  destruct u as [m s ok]; simpl. unfold unit_double_ok in ok.
  repeat (apply andb_prop in ok; destruct ok as [ok ?]).
  repeat match goal with
         | H : (_ <=? _) = true |- _ => apply Z.leb_le in H
         | H : (_ <? _) = true |- _ => apply Z.ltb_lt in H
         end.
  lia.
Qed.

(** Rounding to nearest moves a nonnegative quotient up by half a unit at
    most. *)
Lemma round_half_even_bounds (p k : Z) :
  0 <= p -> 0 <= round_half_even p k /\ round_half_even p k * 2 ^ k <= p + 2 ^ (k - 1).
Proof.
  intros Hp. unfold round_half_even.
  destruct (Z.leb_spec k 0) as [Hk | Hk].
  - split; [assumption|].
    assert (0 <= 2 ^ (k - 1)) by (apply Z.pow_nonneg; lia).
    assert (Hz : k = 0 \/ k < 0) by lia. destruct Hz as [-> | Hz].
    + simpl. lia.
    + rewrite (Z.pow_neg_r 2 k) by lia. lia.
  - rewrite Z.shiftr_div_pow2 by lia. rewrite Z.land_ones by lia.
    assert (H2k : 0 < 2 ^ k) by (apply Z.pow_pos_nonneg; lia).
    assert (Hhalf : 2 ^ k = 2 * 2 ^ (k - 1)).
    { replace k with (Z.succ (k - 1)) at 1 by lia. apply Z.pow_succ_r. lia. }
    pose proof (Z.div_mod p (2 ^ k) ltac:(lia)) as Hdm.
    pose proof (Z.mod_pos_bound p (2 ^ k) H2k) as Hr.
    assert (0 <= p / 2 ^ k) by (apply Z.div_pos; lia).
    set (q := p / 2 ^ k) in *. set (r := p mod 2 ^ k) in *. set (h := 2 ^ (k - 1)) in *.
    destruct (Z.ltb_spec r h); [split; nia|].
    destruct (Z.ltb_spec h r); [split; nia|].
    destruct (Z.even q); split; nia.
Qed.

(** [Math.floor(u * n)] is an index of an array of length [n]: the double
    product of a draw below 1 and [n] rounds to a double below [n]. *)
Lemma Math_floor_mul_range (u : unit_double) (n : Z) :
  0 < n -> 0 <= Math_floor_mul u n < n.
Proof.
  intros Hn. destruct (unit_double_bounds u) as [[Hm0 Hm1] [[Hs0 Hs1] Hms]].
  unfold Math_floor_mul.
  set (p := mant u * n). set (k := Z.max 0 (Z.log2 p + 1 - 53)).
  assert (Hp : 0 <= p) by (unfold p; nia).
  destruct (round_half_even_bounds p k Hp) as [Hq0 Hq1].
  set (q := round_half_even p k) in *.
  assert (Hk0 : 0 <= k) by (unfold k; lia).
  assert (Hs : 0 < 2 ^ scale u) by (apply Z.pow_pos_nonneg; lia).
  assert (Hk : 0 < 2 ^ k) by (apply Z.pow_pos_nonneg; lia).
  (* the rounded product stays below n *)
  assert (Hlt : q * 2 ^ k < n * 2 ^ scale u).
  { assert (Hpn : p <= n * 2 ^ scale u - n) by (unfold p; nia).
    destruct (Z.eq_dec k 0) as [E | E].
    - rewrite E in Hq1 |- *. change (2 ^ (0 - 1)) with 0 in Hq1. change (2 ^ 0) with 1 in Hq1 |- *. lia.
    - assert (Hkpos : 0 < k) by lia.
      assert (Hlog : k = Z.log2 p + 1 - 53) by (unfold k in *; lia).
      assert (Hppos : 0 < p).
      { destruct (Z.eq_dec p 0) as [E0|]; [|lia]. rewrite E0 in Hlog. simpl in Hlog. lia. }
      pose proof (Z.log2_spec p Hppos) as [Hlo _].
      replace (Z.log2 p) with (53 + (k - 1)) in Hlo by lia.
      rewrite Z.pow_add_r in Hlo by lia.
      assert (Hh : 0 < 2 ^ (k - 1)) by (apply Z.pow_pos_nonneg; lia).
      assert (2 ^ (k - 1) < n) by (unfold p in Hlo; nia).
      lia. }
  destruct (Z.le_gt_cases (scale u) k) as [Hge | Hlt'].
  - rewrite Z.shiftl_mul_pow2 by lia.
    assert (Hd : 0 < 2 ^ (k - scale u)) by (apply Z.pow_pos_nonneg; lia).
    assert (E : 2 ^ k = 2 ^ (k - scale u) * 2 ^ scale u).
    { rewrite <- Z.pow_add_r by lia. f_equal. lia. }
    rewrite E in Hlt. split; nia.
  - rewrite Z.shiftl_div_pow2 by lia.
    assert (Hd : 0 < 2 ^ (- (k - scale u))) by (apply Z.pow_pos_nonneg; lia).
    assert (E : 2 ^ scale u = 2 ^ (- (k - scale u)) * 2 ^ k).
    { rewrite <- Z.pow_add_r by lia. f_equal. lia. }
    rewrite E in Hlt.
    split.
    + apply Z.div_pos; lia.
    + apply Z.div_lt_upper_bound; nia.
Qed.

(** ** The strip registry *)

Lemma filed_nil (results : ValidationResults) : filed [] [] results = results.
Proof.
  destruct results as [v e w]. unfold filed; simpl.
  now rewrite andb_true_r, !app_nil_r.
Qed.

Lemma filed_filed (e1 w1 e2 w2 : list string) (results : ValidationResults) :
  filed e2 w2 (filed e1 w1 results) = filed (e1 ++ e2) (w1 ++ w2) results.
Proof.
  unfold filed; simpl. rewrite <- !app_assoc. f_equal.
  destruct e1, e2; simpl; now rewrite ?andb_true_r, ?andb_false_r.
Qed.

Lemma push_error_filed (msg : string) (results : ValidationResults) :
  push_error msg results = filed [msg] [] results.
Proof.
  unfold push_error, filed; simpl. now rewrite andb_false_r, app_nil_r.
Qed.

Lemma push_warning_filed (msg : string) (results : ValidationResults) :
  push_warning msg results = filed [] [msg] results.
Proof.
  unfold push_warning, filed; simpl. now rewrite andb_true_r, app_nil_r.
Qed.

Lemma validate_positions_filed (mode : string) (col : Z) (rest : list string) :
  forall (pos : Z) (results : ValidationResults),
    validate_positions mode col pos rest results
    = filed (position_errors mode col pos rest) [] results.
Proof.
  induction rest as [| s rest IH]; intros pos results; simpl.
  - now rewrite filed_nil.
  - rewrite IH. destruct (validSymbols_has s); simpl.
    + reflexivity.
    + rewrite push_error_filed, filed_filed. reflexivity.
Qed.

Lemma validate_strip_filed (mode : string) (col : Z) (strip : list string)
    (results : ValidationResults) :
  validate_strip mode col strip results
  = filed (strip_errors mode col strip) (strip_warnings mode col strip) results.
Proof.
  unfold validate_strip, strip_errors, strip_warnings, in_scatter_band.
  rewrite validate_positions_filed.
  assert (E : (scatterCount strip <? 4) || (scatterCount strip >? 7)
              = negb ((4 <=? scatterCount strip) && (scatterCount strip <=? 7))).
  { rewrite negb_andb, Z.gtb_ltb, !Z.leb_antisym, !negb_involutive. reflexivity. }
  rewrite E.
  destruct (JS.length strip =? STRIP_LENGTH);
    destruct ((4 <=? scatterCount strip) && (scatterCount strip <=? 7)); simpl;
    rewrite ?push_error_filed, ?push_warning_filed, ?filed_filed, ?app_nil_r;
    reflexivity.
Qed.

Lemma validate_columns_filed (mode : string) (rest : list (list string)) :
  forall (col : Z) (results : ValidationResults),
    validate_columns mode col rest results
    = filed (column_errors mode col rest) (column_warnings mode col rest) results.
Proof.
  induction rest as [| strip rest IH]; intros col results; simpl.
  - now rewrite filed_nil.
  - now rewrite IH, validate_strip_filed, filed_filed.
Qed.

Lemma validate_mode_filed (mode : string) (strips : list (list string))
    (results : ValidationResults) :
  validate_mode mode strips results
  = filed (mode_errors mode strips) (column_warnings mode 0 strips) results.
Proof.
  unfold validate_mode, mode_errors. rewrite validate_columns_filed.
  destruct (JS.length strips =? 6); simpl.
  - reflexivity.
  - now rewrite push_error_filed, filed_filed.
Qed.

Lemma validSymbols_has_In (s : string) : validSymbols_has s = true <-> In s validSymbols.
Proof.
  unfold validSymbols_has. rewrite existsb_exists. split.
  - intros [x [Hin Heq]]. apply String.eqb_eq in Heq. now subst.
  - intros Hin. exists s. split; [assumption | apply String.eqb_refl].
Qed.

Lemma position_errors_nil (mode : string) (col : Z) (rest : list string) :
  forall pos : Z,
    position_errors mode col pos rest = [] <-> Forall (fun s => In s validSymbols) rest.
Proof.
  induction rest as [| s rest IH]; intros pos; simpl.
  - split; [constructor | reflexivity].
  - destruct (validSymbols_has s) eqn:E; simpl.
    + rewrite IH. split.
      * intros H. constructor; [now apply validSymbols_has_In | assumption].
      * intros H. now inversion H.
    + split; [discriminate |].
      intros H. inversion H as [| ? ? Hin _]; subst.
      apply validSymbols_has_In in Hin. congruence.
Qed.

Lemma strip_errors_nil (mode : string) (col : Z) (strip : list string) :
  strip_errors mode col strip = []
  <-> JS.length strip = STRIP_LENGTH /\ Forall (fun s => In s validSymbols) strip.
Proof.
  unfold strip_errors. destruct (Z.eqb_spec (JS.length strip) STRIP_LENGTH) as [E | E]; simpl.
  - rewrite position_errors_nil. tauto.
  - split; [discriminate | tauto].
Qed.

Lemma column_errors_nil (mode : string) (rest : list (list string)) :
  forall col : Z,
    column_errors mode col rest = []
    <-> Forall (fun strip =>
                  JS.length strip = STRIP_LENGTH /\
                  Forall (fun s => In s validSymbols) strip) rest.
Proof.
  induction rest as [| strip rest IH]; intros col; simpl.
  - split; [constructor | reflexivity].
  - split.
    + intros H. apply app_eq_nil in H. destruct H as [H1 H2].
      constructor; [now apply strip_errors_nil in H1 | now apply IH in H2].
    + intros H. inversion H as [| ? ? H1 H2]; subst.
      apply (strip_errors_nil mode col) in H1. apply (IH (col + 1)) in H2.
      now rewrite H1, H2.
Qed.

Lemma mode_errors_nil (mode : string) (strips : list (list string)) :
  mode_errors mode strips = [] <-> well_formed strips.
Proof.
  unfold mode_errors, well_formed.
  destruct (Z.eqb_spec (JS.length strips) 6) as [E | E]; simpl.
  - rewrite column_errors_nil. tauto.
  - split; [discriminate | tauto].
Qed.

Lemma column_warnings_nil (mode : string) (rest : list (list string)) :
  forall col : Z,
    column_warnings mode col rest = []
    <-> Forall (fun strip => 4 <= scatterCount strip <= 7) rest.
Proof.
  induction rest as [| strip rest IH]; intros col; simpl.
  - split; [constructor | reflexivity].
  - unfold strip_warnings, in_scatter_band at 1.
    destruct (Z.leb_spec 4 (scatterCount strip)) as [Hlo | Hlo];
      destruct (Z.leb_spec (scatterCount strip) 7) as [Hhi | Hhi]; simpl;
      try (split; [discriminate | intros HF; inversion HF; lia]).
    rewrite IH. split.
    + intros HF. constructor; [lia | assumption].
    + intros HF. now inversion HF.
Qed.

Lemma validateStrips_of_filed (base free_spins : list (list string)) :
  validateStrips_of base free_spins
  = {| valid := match mode_errors "base" base ++ mode_errors "free_spins" free_spins with
                | [] => true
                | _ => false
                end;
       errors := mode_errors "base" base ++ mode_errors "free_spins" free_spins;
       warnings := column_warnings "base" 0 base
                     ++ column_warnings "free_spins" 0 free_spins |}.
Proof.
  unfold validateStrips_of. rewrite !validate_mode_filed, filed_filed.
  reflexivity.
Qed.

Lemma strip_checks_sound (strips : list (list string)) :
  forallb strip_checks strips = true ->
  Forall (fun strip =>
            JS.length strip = 120 /\
            Forall (fun s => In s validSymbols) strip /\
            4 <= scatterCount strip <= 7) strips.
Proof.
  intros H. apply Forall_forall. intros strip Hin.
  rewrite forallb_forall in H. specialize (H strip Hin).
  unfold strip_checks in H.
  repeat (apply andb_prop in H; destruct H as [H ?]).
  apply Z.eqb_eq in H.
  repeat match goal with
         | H : (_ <=? _) = true |- _ => apply Z.leb_le in H
         end.
  repeat split; try assumption.
  apply Forall_forall. intros s Hs. apply validSymbols_has_In.
  match goal with
  | H : forallb validSymbols_has strip = true |- _ =>
      rewrite forallb_forall in H; now apply H
  end.
Qed.

(** C7. Every one of the 12 shipped strips has exactly 120 symbols, all of
    the 10-symbol alphabet, and between 4 and 7 scatters (infinity_glove),
    so [validateStrips()] returns [valid = true] with no error (and no
    warning).  On any strip tables, [valid] is true exactly when there is
    no error, which is exactly when both tables pass the structural checks
    (6 strips, 120 symbols each, known symbols only): the scatter count
    plays no part in it.  There is no warning exactly when every strip has
    between 4 and 7 scatters. *)
Theorem shipped_strips_structurally_valid :
  (JS.length BASE_GAME_STRIPS = 6 /\ JS.length FREE_SPINS_STRIPS = 6 /\
   Forall (fun strip =>
             JS.length strip = 120 /\
             Forall (fun s => In s validSymbols) strip /\
             4 <= scatterCount strip <= 7)
          (BASE_GAME_STRIPS ++ FREE_SPINS_STRIPS)) /\
  (List.length validSymbols = 10%nat /\ NoDup validSymbols) /\
  validateStrips = {| valid := true; errors := []; warnings := [] |} /\
  (forall base free_spins : list (list string),
      let results := validateStrips_of base free_spins in
      (valid results = true <-> errors results = []) /\
      (errors results = [] <-> well_formed base /\ well_formed free_spins) /\
      (warnings results = []
       <-> Forall (fun strip => 4 <= scatterCount strip <= 7) (base ++ free_spins))).
Proof.
  split; [| split; [| split]].
  - split; [reflexivity | split; [reflexivity |]].
    apply strip_checks_sound. vm_compute. reflexivity.
  - split; [reflexivity |].
    repeat (constructor;
            [cbn; intros H; repeat (destruct H as [H | H]; [discriminate H |]); exact H |]).
    constructor.
  - vm_compute. reflexivity.
  - intros base free_spins results. subst results.
    rewrite validateStrips_of_filed; simpl.
    split; [| split].
    + destruct (mode_errors "base" base ++ mode_errors "free_spins" free_spins);
        split; congruence.
    + split.
      * intros H. apply app_eq_nil in H. destruct H as [H1 H2].
        split; [now apply mode_errors_nil in H1 | now apply mode_errors_nil in H2].
      * intros [H1 H2]. apply (mode_errors_nil "base") in H1.
        apply (mode_errors_nil "free_spins") in H2.
        now rewrite H1, H2.
    + rewrite Forall_app. split.
      * intros H. apply app_eq_nil in H. destruct H as [H1 H2].
        split; [now apply column_warnings_nil in H1 | now apply column_warnings_nil in H2].
      * intros [H1 H2]. apply (column_warnings_nil "base" base 0) in H1.
        apply (column_warnings_nil "free_spins" free_spins 0) in H2.
        now rewrite H1, H2.
Qed.

(** ** Loops and array reads *)

Lemma zseq_length (n : nat) : forall i : Z, List.length (zseq i n) = n.
Proof. induction n as [| n IH]; intros i; simpl; [reflexivity | now rewrite IH]. Qed.

Lemma zseq_nth_error (n : nat) :
  forall (i : Z) (k : nat), (k < n)%nat -> nth_error (zseq i n) k = Some (i + Z.of_nat k).
Proof.
  induction n as [| n IH]; intros i k Hk; [lia |].
  destruct k as [| k]; simpl.
  - f_equal. lia.
  - rewrite IH by lia. f_equal. lia.
Qed.

Lemma index_in_range {A : Type} (a : list A) (i : Z) :
  0 <= i < JS.length a -> exists x, JS.index a i = Some x.
Proof.
  unfold JS.index, JS.length. intros [H0 H1].
  destruct (Z.ltb_spec i 0) as [? | _]; [lia |].
  destruct (nth_error a (Z.to_nat i)) as [x |] eqn:E; [now exists x |].
  apply nth_error_None in E. lia.
Qed.

Lemma index_Some_range {A : Type} (a : list A) (i : Z) (x : A) :
  JS.index a i = Some x -> 0 <= i < JS.length a.
Proof.
  unfold JS.index, JS.length.
  destruct (Z.ltb_spec i 0) as [? | H0]; [discriminate |].
  intros E. assert (Z.to_nat i < List.length a)%nat by (apply nth_error_Some; congruence).
  lia.
Qed.

Lemma index_map {A B : Type} (f : A -> B) (a : list A) (i : Z) :
  JS.index (map f a) i = option_map f (JS.index a i).
Proof.
  unfold JS.index. destruct (i <? 0); [reflexivity | apply nth_error_map].
Qed.

Lemma index_zseq (n : nat) (i : Z) :
  0 <= i < Z.of_nat n -> JS.index (zseq 0 n) i = Some i.
Proof.
  intros [H0 H1]. unfold JS.index.
  destruct (Z.ltb_spec i 0) as [? | _]; [lia |].
  rewrite zseq_nth_error by lia. f_equal. lia.
Qed.

(** A loop whose body appends one value per round collects the values. *)
Lemma for_pure_collect {A : Type} (f : Z -> A) (body : Z -> list A -> Outcome (list A))
    (n : nat) :
  forall (i : Z) (acc : list A),
    (forall (j : Z) (acc' : list A),
        i <= j < i + Z.of_nat n -> body j acc' = Returns (acc' ++ [f j])) ->
    for_pure n i body acc = Returns (acc ++ map f (zseq i n)).
Proof.
  induction n as [| n IH]; intros i acc Hbody; simpl.
  - now rewrite app_nil_r.
  - rewrite Hbody by lia. rewrite IH.
    + now rewrite <- app_assoc.
    + intros j acc' Hj. apply Hbody. lia.
Qed.

(** Two loops in step: one carries a pair, the other its first component. *)
Lemma for_pure_fst {S T : Type} (bodyST : Z -> S * T -> Outcome (S * T))
    (bodyS : Z -> S -> Outcome S) :
  (forall (i : Z) (s : S) (t : T), outcome_map fst (bodyST i (s, t)) = bodyS i s) ->
  forall (n : nat) (i : Z) (s : S) (t : T),
    outcome_map fst (for_pure n i bodyST (s, t)) = for_pure n i bodyS s.
Proof.
  intros Hstep. induction n as [| n IH]; intros i s t; simpl; [reflexivity |].
  rewrite <- (Hstep i s t).
  destruct (bodyST i (s, t)) as [[s' t'] | e]; simpl; [apply IH | reflexivity].
Qed.

(** A loop throws only what its body throws. *)
Lemma for_pure_throws {S : Type} (body : Z -> S -> Outcome S) (P : Error -> Prop) :
  (forall (i : Z) (s : S) (e : Error), body i s = Throws e -> P e) ->
  forall (n : nat) (i : Z) (s : S) (e : Error),
    for_pure n i body s = Throws e -> P e.
Proof.
  intros Hbody. induction n as [| n IH]; intros i s e; simpl; [discriminate |].
  destruct (body i s) as [s' |e'] eqn:E.
  - apply IH.
  - intros H. injection H as <-. eapply Hbody, E.
Qed.

(** ** The two grid loops *)

Section GridLoops.

Variable g : Generator.

Lemma reconstructGrid_rows_window (strip : list string) (stopPos : option Z) :
  reconstructGrid_rows g (Some strip) stopPos = Returns (window g strip stopPos).
Proof.
  unfold reconstructGrid_rows, window.
  now rewrite (for_pure_collect (read_cell strip stopPos)).
Qed.

(** The rows of a column are the same in generation and in
    reconstruction. *)
Lemma generateInitialGrid_rows_fst (strip : option (list string)) (stopPos : option Z)
    (symbolCounts : SymbolCounts) :
  outcome_map fst (generateInitialGrid_rows g strip stopPos symbolCounts)
  = reconstructGrid_rows g strip stopPos.
Proof.
  unfold generateInitialGrid_rows, reconstructGrid_rows.
  apply for_pure_fst. intros i column counts. now destruct strip.
Qed.

(** So are the columns of the grid. *)
Lemma generateInitialGrid_columns_fst (strips : list (list string))
    (stopPositions : list Z) :
  outcome_map fst (generateInitialGrid_columns g strips stopPositions)
  = reconstructGrid_columns g strips stopPositions.
Proof.
  unfold generateInitialGrid_columns, reconstructGrid_columns.
  apply for_pure_fst. intros i grid counts.
  rewrite <- (generateInitialGrid_rows_fst _ _ counts).
  now destruct (generateInitialGrid_rows g (JS.index strips i)
                  (JS.index stopPositions i) counts) as [[column counts'] | e].
Qed.

(** When every column has a strip, reconstruction returns the windows. *)
Lemma reconstructGrid_columns_windows (strips : list (list string))
    (stopPositions : list Z) :
  cols g <= JS.length strips ->
  reconstructGrid_columns g strips stopPositions
  = Returns (map (fun c => window g (nth (Z.to_nat c) strips [])
                             (JS.index stopPositions c))
                 (zseq 0 (Z.to_nat (cols g)))).
Proof.
  intros Hcols. unfold reconstructGrid_columns.
  rewrite (for_pure_collect
             (fun c => window g (nth (Z.to_nat c) strips []) (JS.index stopPositions c)));
    [reflexivity |].
  intros j acc Hj.
  assert (Hlt : (Z.to_nat j < List.length strips)%nat) by (unfold JS.length in Hcols; lia).
  unfold JS.index at 1. destruct (Z.ltb_spec j 0) as [? | _]; [lia |].
  rewrite (nth_error_nth' strips [] Hlt).
  now rewrite reconstructGrid_rows_window.
Qed.

(** The grid loops throw nothing but the engine's [TypeError]. *)
Lemma reconstructGrid_columns_throws (strips : list (list string))
    (stopPositions : list Z) (e : Error) :
  reconstructGrid_columns g strips stopPositions = Throws e -> e = TypeError.
Proof.
  unfold reconstructGrid_columns.
  apply (for_pure_throws _ (fun e => e = TypeError)).
  intros i grid e'.
  destruct (reconstructGrid_rows g (JS.index strips i) (JS.index stopPositions i))
    as [column | e''] eqn:E; [discriminate |].
  intros H. injection H as <-. revert E. unfold reconstructGrid_rows.
  apply (for_pure_throws _ (fun e => e = TypeError)).
  intros r column e3. destruct (JS.index strips i); [discriminate |].
  intros H. now injection H as <-.
Qed.

End GridLoops.

(** A cell read at a stop position and a row that are not negative, in a
    strip that is not empty, is the symbol at the wrapped position. *)
Lemma read_cell_wrap (strip : list string) (stopPos r : Z) :
  0 < JS.length strip -> 0 <= stopPos -> 0 <= r ->
  exists s,
    read_cell strip (Some stopPos) r = Some s /\
    JS.index strip ((stopPos + r) mod JS.length strip) = Some s.
Proof.
  intros Hlen Hp Hr. unfold read_cell, JS.rem.
  destruct (Z.eqb_spec (JS.length strip) 0) as [? | _]; [lia |].
  rewrite Z.rem_mod_nonneg by lia. simpl.
  destruct (index_in_range strip ((stopPos + r) mod JS.length strip)) as [s Hs].
  - apply Z.mod_pos_bound. lia.
  - exists s. now rewrite Hs.
Qed.

(** The shipped tables: 6 strips a mode, 120 symbols a strip. *)
Lemma getStrips_length (freeSpinsMode : bool) : JS.length (getStrips freeSpinsMode) = 6.
Proof. now destruct freeSpinsMode. Qed.

Lemma getStrips_index (freeSpinsMode : bool) (c : Z) :
  0 <= c < 6 ->
  exists strip,
    JS.index (getStrips freeSpinsMode) c = Some strip /\
    nth (Z.to_nat c) (getStrips freeSpinsMode) [] = strip /\
    JS.length strip = STRIP_LENGTH.
Proof.
  intros Hc.
  assert (Hall : Forall (fun strip => JS.length strip = STRIP_LENGTH)
                        (getStrips freeSpinsMode)).
  { destruct freeSpinsMode; repeat constructor. }
  destruct (index_in_range (getStrips freeSpinsMode) c) as [strip Hs].
  { now rewrite getStrips_length. }
  exists strip. split; [assumption |].
  unfold JS.index in Hs. destruct (Z.ltb_spec c 0) as [? | _]; [lia |].
  split.
  - now apply nth_error_nth.
  - rewrite Forall_forall in Hall. apply Hall. eapply nth_error_In, Hs.
Qed.

(** [getStrip] throws for a column outside [0, 6) and returns the strip of
    the column otherwise: the read past its guard is never [undefined]. *)
Lemma getStrip_in_range (column : Z) (freeSpinsMode : bool) :
  getStrip column freeSpinsMode
  = if (column <? 0) || (column >=? 6) then Throws (InvalidColumnIndex column)
    else Returns (nth (Z.to_nat column) (getStrips freeSpinsMode) []).
Proof.
  unfold getStrip. rewrite getStrips_length.
  destruct (Z.ltb_spec column 0) as [Hneg | Hpos]; [reflexivity |].
  destruct (Z.geb_spec column 6) as [Hbig | Hsmall]; [reflexivity |].
  cbn [orb].
  destruct (getStrips_index freeSpinsMode column (conj Hpos Hsmall))
    as (strip & Hstrip & Hnth & _).
  now rewrite Hstrip, Hnth.
Qed.

Lemma getStrip_length (column : Z) (freeSpinsMode : bool) (strip : list string) :
  getStrip column freeSpinsMode = Returns strip -> JS.length strip = STRIP_LENGTH.
Proof.
  rewrite getStrip_in_range.
  destruct (Z.ltb_spec column 0) as [Hneg | Hpos]; [discriminate |].
  destruct (Z.geb_spec column 6) as [Hbig | Hsmall]; [discriminate |].
  cbn [orb]. intros H. injection H as <-.
  destruct (getStrips_index freeSpinsMode column (conj Hpos Hsmall))
    as (strip & _ & Hnth & Hlen).
  now rewrite Hnth.
Qed.

(** ** Running the methods *)

Section Runs.

Variable rng : EntropyProvider.

Local Open Scope engine_scope.

Lemma live_draws_length (lo hi : Z) (n : nat) :
  forall e : live rng, List.length (fst (live_draws rng lo hi n e)) = n.
Proof.
  induction n as [| n IH]; intros e; simpl; [reflexivity |].
  destruct (randomInt rng lo hi e) as [r e'].
  specialize (IH e'). destruct (live_draws rng lo hi n e') as [rs e'']. simpl in *.
  now rewrite IH.
Qed.

Lemma live_draws_range (lo hi : Z) (n : nat) :
  lo <= hi ->
  forall e : live rng, Forall (fun r => lo <= r <= hi) (fst (live_draws rng lo hi n e)).
Proof.
  intros Hlohi. induction n as [| n IH]; intros e; simpl; [constructor |].
  pose proof (randomInt_inclusive rng lo hi e Hlohi) as Hr.
  destruct (randomInt rng lo hi e) as [r e'].
  specialize (IH e'). destruct (live_draws rng lo hi n e') as [rs e'']. simpl in *.
  now constructor.
Qed.

Lemma stream_draws_length (n : nat) :
  forall st : stream rng, List.length (fst (stream_draws rng n st)) = n.
Proof.
  induction n as [| n IH]; intros st; simpl; [reflexivity |].
  destruct (seededRNG rng st) as [u st'].
  specialize (IH st'). destruct (stream_draws rng n st') as [us st'']. simpl in *.
  now rewrite IH.
Qed.

Lemma drawn_nil (w : World rng) : drawn rng w (source w) [] = w.
Proof. destruct w. unfold drawn; simpl. now rewrite app_nil_r. Qed.

Lemma drawn_drawn (w : World rng) (e1 e2 : live rng) (c1 c2 : list EntropyCall) :
  drawn rng (drawn rng w e1 c1) e2 c2 = drawn rng w e2 (c1 ++ c2).
Proof. unfold drawn; simpl. now rewrite app_assoc. Qed.

(** The loop of the live branch of [generateStopPositions]. *)
Lemma for_M_live (lo hi : Z) (n : nat) :
  forall (i : Z) (acc : list Z) (w : World rng),
    for_M n i
      (fun _ stopPositions =>
         position <- rng_randomInt rng lo hi ;;
         ret (stopPositions ++ [position]))
      acc w
    = (Returns (acc ++ fst (live_draws rng lo hi n (source w))),
       drawn rng w (snd (live_draws rng lo hi n (source w)))
         (map (CallRandomInt lo hi) (fst (live_draws rng lo hi n (source w))))).
Proof.
  induction n as [| n IH]; intros i acc w; cbn [for_M live_draws].
  - cbn. now rewrite app_nil_r, drawn_nil.
  - unfold bind at 1. unfold bind at 1. unfold rng_randomInt at 1.
    destruct (randomInt rng lo hi (source w)) as [r e'] eqn:Er.
    unfold ret at 1. rewrite IH. cbn [source].
    destruct (live_draws rng lo hi n e') as [rs e'']. cbn [fst snd map].
    rewrite <- app_assoc. f_equal.
    unfold drawn; cbn. now rewrite <- app_assoc.
Qed.

(** The loop of the seeded branch. *)
Lemma for_M_seeded (len : Z) (n : nat) :
  forall (i : Z) (st : stream rng) (acc : list Z) (w : World rng),
    for_M n i
      (fun _ '(seededRNG, stopPositions) =>
         '(u, seededRNG) <- call_seededRNG rng seededRNG ;;
         let position := Math_floor_mul u len in
         ret (seededRNG, stopPositions ++ [position]))
      (st, acc) w
    = (Returns (snd (stream_draws rng n st),
                acc ++ map (fun u => Math_floor_mul u len) (fst (stream_draws rng n st))),
       drawn rng w (source w) (map CallSeededRNG (fst (stream_draws rng n st)))).
Proof.
  induction n as [| n IH]; intros i st acc w; cbn [for_M stream_draws].
  - cbn. now rewrite app_nil_r, drawn_nil.
  - unfold bind at 1. unfold bind at 1. unfold call_seededRNG at 1.
    destruct (seededRNG rng st) as [u st'] eqn:Eu.
    unfold ret at 1. rewrite IH. cbn [source].
    destruct (stream_draws rng n st') as [us st'']. cbn [fst snd map].
    rewrite <- app_assoc. f_equal.
    unfold drawn; cbn. now rewrite <- app_assoc.
Qed.

Lemma quiet_refl (w : World rng) : quiet rng w w.
Proof. now repeat split. Qed.

Lemma quiet_trans (w1 w2 w3 : World rng) : quiet rng w1 w2 -> quiet rng w2 w3 -> quiet rng w1 w3.
Proof. unfold quiet. intros (?&?&?) (?&?&?). repeat split; congruence. Qed.

Lemma Date_now_run (w : World rng) :
  exists w', Date_now rng w = (Returns (clock w (ticks w)), w') /\ quiet rng w w'.
Proof. eexists. split; [reflexivity | now repeat split]. Qed.

Lemma logAuditEvent_run (g : Generator) (ev : string) (d : AuditData) (w : World rng) :
  exists w', logAuditEvent rng g ev d w = (Returns tt, w') /\ quiet rng w w'.
Proof.
  unfold logAuditEvent. destruct (auditLogging g); simpl.
  - eexists. split; [reflexivity | now repeat split].
  - exists w. split; [reflexivity | apply quiet_refl].
Qed.

Lemma bind_returns {A B : Type} (m : M rng A) (k : A -> M rng B)
    (w w' : World rng) (a : A) :
  m w = (Returns a, w') -> bind m k w = k a w'.
Proof. unfold bind. now intros ->. Qed.

Lemma bind_throws {A B : Type} (m : M rng A) (k : A -> M rng B)
    (w w' : World rng) (e : Error) :
  m w = (Throws e, w') -> bind m k w = (Throws e, w').
Proof. unfold bind. now intros ->. Qed.

Lemma generateStopPositions_run (g : Generator) (seed : option string) (w : World rng) :
  exists w',
    generateStopPositions rng g seed w
    = (Returns (stop_positions rng (Z.to_nat (cols g)) seed (source w)), w') /\
    statistics w' = statistics w /\
    entropyCalls w'
    = entropyCalls w ++ stop_calls rng (Z.to_nat (cols g)) seed (source w).
Proof.
  unfold generateStopPositions, stop_positions, stop_calls.
  destruct (when_truthy seed) as [s |].
  - set (us := fst (stream_draws rng (Z.to_nat (cols g)) (createSeededRNG rng s))).
    set (sp := map (fun u => Math_floor_mul u STRIP_LENGTH) us).
    set (w1 := drawn rng w (source w) (CallCreateSeededRNG s :: map CallSeededRNG us)).
    destruct (logAuditEvent_run g "STOP_POSITIONS_GENERATED"
                (StopPositionsGenerated sp (JS.truthy seed) STRIP_LENGTH) w1)
      as (w' & E & Qs & Qe & Qc).
    exists w'. split; [| split].
    + erewrite bind_returns; [erewrite bind_returns; [reflexivity | exact E] |].
      erewrite bind_returns; [| reflexivity].
      erewrite bind_returns; [| apply for_M_seeded].
      unfold ret. cbn [snd app]. f_equal.
      unfold w1, drawn. cbn. now rewrite <- app_assoc.
    + now rewrite Qs.
    + now rewrite Qc.
  - set (rs := fst (live_draws rng 0 (STRIP_LENGTH - 1) (Z.to_nat (cols g)) (source w))).
    set (w1 := drawn rng w (snd (live_draws rng 0 (STRIP_LENGTH - 1) (Z.to_nat (cols g)) (source w)))
                 (map (CallRandomInt 0 (STRIP_LENGTH - 1)) rs)).
    destruct (logAuditEvent_run g "STOP_POSITIONS_GENERATED"
                (StopPositionsGenerated rs (JS.truthy seed) STRIP_LENGTH) w1)
      as (w' & E & Qs & Qe & Qc).
    exists w'. split; [| split].
    + erewrite bind_returns; [erewrite bind_returns; [reflexivity | exact E] |].
      apply for_M_live.
    + now rewrite Qs.
    + now rewrite Qc.
Qed.

End Runs.

Section GridRuns.

Variable rng : EntropyProvider.

Local Open Scope engine_scope.

(** [generateInitialGrid] draws the stop positions, then runs the column
    loop on them: it returns the grid of the loop with these positions,
    or throws what the loop throws; the only calls to the provider are
    those that draw the stop positions. *)
Lemma generateInitialGrid_run (g : Generator) (options : GridOptions) (w : World rng) :
  let sp := stop_positions rng (Z.to_nat (cols g)) (seed options) (source w) in
  exists w',
    entropyCalls w'
    = entropyCalls w ++ stop_calls rng (Z.to_nat (cols g)) (seed options) (source w) /\
    match generateInitialGrid_columns g (getStrips (freeSpinsMode options)) sp with
    | Returns (gr, counts) =>
        exists md,
          generateInitialGrid rng g options w
          = (Returns {| grid := gr; stopPositions := sp;
                        stripVersion := STRIP_VERSION;
                        symbolCounts := counts; metadata := md |}, w')
    | Throws e => generateInitialGrid rng g options w = (Throws e, w')
    end.
Proof.
  intros sp.
  destruct (generateInitialGrid rng g options w) as [o w'] eqn:Egen.
  exists w'. unfold generateInitialGrid in Egen.
  destruct (Date_now_run rng w) as (w1 & E1 & Q1s & Q1e & Q1c).
  destruct (generateStopPositions_run rng g (seed options) w1) as (w2 & E2 & S2 & C2).
  rewrite Q1e in E2, C2. rewrite Q1c in C2. fold sp in E2.
  erewrite bind_returns in Egen by exact E1.
  erewrite bind_returns in Egen by exact E2.
  destruct (generateInitialGrid_columns g (getStrips (freeSpinsMode options)) sp)
    as [[gr counts] | e] eqn:Ecols.
  - erewrite bind_returns in Egen by reflexivity.
    cbv beta iota in Egen.
    destruct (Date_now_run rng w2) as (w3 & E3 & Q3s & Q3e & Q3c).
    erewrite bind_returns in Egen by exact E3.
    erewrite bind_returns in Egen by reflexivity.
    match type of Egen with
    | bind (logAuditEvent rng g ?ev ?d) _ ?w4 = _ =>
        destruct (logAuditEvent_run rng g ev d w4) as (w5 & E5 & Q5s & Q5e & Q5c)
    end.
    erewrite bind_returns in Egen by exact E5.
    unfold ret in Egen. injection Egen as <- <-.
    split.
    + rewrite Q5c. cbn. now rewrite Q3c.
    + eexists. reflexivity.
  - erewrite bind_throws in Egen by reflexivity.
    injection Egen as <- <-. split; [assumption | reflexivity].
Qed.

End GridRuns.

(** ** Stop positions *)

Section StopPositions.

Variable rng : EntropyProvider.

Lemma stop_positions_length (n : nat) (seed : option string) (e : live rng) :
  List.length (stop_positions rng n seed e) = n.
Proof.
  unfold stop_positions. destruct (when_truthy seed).
  - now rewrite length_map, stream_draws_length.
  - apply live_draws_length.
Qed.

Lemma stop_positions_range (n : nat) (seed : option string) (e : live rng) :
  Forall (fun p => 0 <= p < STRIP_LENGTH) (stop_positions rng n seed e).
Proof.
  unfold stop_positions. destruct (when_truthy seed).
  - apply Forall_map, Forall_forall. intros u _.
    apply Math_floor_mul_range. reflexivity.
  - eapply Forall_impl; [| apply live_draws_range].
    + intros p Hp. cbv beta in Hp. unfold STRIP_LENGTH in *. lia.
    + unfold STRIP_LENGTH. lia.
Qed.

Lemma stop_calls_draws (n : nat) (seed : option string) (e : live rng) :
  List.length (filter is_draw (stop_calls rng n seed e)) = n /\
  flat_map position_drawn (stop_calls rng n seed e) = stop_positions rng n seed e.
Proof.
  unfold stop_calls, stop_positions. destruct (when_truthy seed) as [s |].
  - generalize (stream_draws_length rng n (createSeededRNG rng s)).
    generalize (fst (stream_draws rng n (createSeededRNG rng s))) as us.
    intros us <-. cbn [filter is_draw flat_map position_drawn app].
    induction us as [| u us [IH1 IH2]]; [now split |].
    cbn. now rewrite IH1, IH2.
  - generalize (live_draws_length rng 0 (STRIP_LENGTH - 1) n e).
    generalize (fst (live_draws rng 0 (STRIP_LENGTH - 1) n e)) as rs.
    intros rs <-.
    induction rs as [| r rs [IH1 IH2]]; [now split |].
    cbn [map filter is_draw flat_map position_drawn app List.length].
    now rewrite IH1, IH2.
Qed.

(** With a strip for every column the column loop of generation
    returns. *)
Lemma generateInitialGrid_columns_returns (g : Generator) (strips : list (list string))
    (stopPositions : list Z) :
  cols g <= JS.length strips ->
  exists counts,
    generateInitialGrid_columns g strips stopPositions
    = Returns (map (fun c => window g (nth (Z.to_nat c) strips [])
                               (JS.index stopPositions c))
                   (zseq 0 (Z.to_nat (cols g))), counts).
Proof.
  intros Hcols.
  pose proof (generateInitialGrid_columns_fst g strips stopPositions) as H.
  rewrite (reconstructGrid_columns_windows g strips stopPositions Hcols) in H.
  destruct (generateInitialGrid_columns g strips stopPositions) as [[gr counts] | e];
    [| discriminate].
  exists counts. cbn in H. now injection H as ->.
Qed.

(** What [reconstructGrid] does once the version and the length are
    accepted. *)
Lemma reconstructGrid_accepted (g : Generator) (positions : list Z)
    (freeSpinsMode : bool) (v : option string) (w : World rng) :
  v = None \/ v = Some STRIP_VERSION ->
  JS.length positions = cols g ->
  fst (reconstructGrid rng g (StopArray positions) freeSpinsMode v w)
  = reconstructGrid_columns g (getStrips freeSpinsMode) positions.
Proof.
  intros Hv Hlen. unfold reconstructGrid.
  assert (E : negb ((match v with Some v => v | None => STRIP_VERSION end)
                    =? STRIP_VERSION)%string = false).
  { destruct Hv as [-> | ->]; reflexivity. }
  rewrite E. rewrite Hlen, Z.eqb_refl. cbn [negb].
  destruct (reconstructGrid_columns g (getStrips freeSpinsMode) positions)
    as [gr | e] eqn:Ecols.
  - erewrite bind_returns by reflexivity.
    match goal with
    | |- fst (bind (logAuditEvent rng g ?ev ?d) _ ?w0) = _ =>
        destruct (logAuditEvent_run rng g ev d w0) as (w' & E' & _)
    end.
    erewrite bind_returns by exact E'. reflexivity.
  - erewrite bind_throws by reflexivity. reflexivity.
Qed.

Lemma reconstructGrid_version_mismatch (g : Generator) (stopPositions : StopArg)
    (freeSpinsMode : bool) (v : string) (w : World rng) :
  v <> STRIP_VERSION ->
  reconstructGrid rng g stopPositions freeSpinsMode (Some v) w
  = (Throws (StripVersionMismatch STRIP_VERSION v), w).
Proof.
  intros Hv. unfold reconstructGrid.
  destruct (String.eqb_spec v STRIP_VERSION) as [? | _]; [contradiction |].
  reflexivity.
Qed.

End StopPositions.

(** [createReelStripGenerator({})] builds [defaultGenerator]. *)
Lemma constructor_default (rng : EntropyProvider) (w : World rng) :
  fst (constructor rng {| opt_rows := None; opt_cols := None; opt_auditLogging := None |} w)
  = Returns defaultGenerator.
Proof. reflexivity. Qed.

(** ** Reconstruction *)

(** C1. Round trip: on a generator whose column count is not negative (6
    by default), whenever [generateInitialGrid] returns, in either mode and
    with any seed or none, the strip version it reports is [STRIP_VERSION],
    and [reconstructGrid] called with the returned stop positions, the same
    mode and [STRIP_VERSION], in any world, returns the returned grid. *)
Theorem round_trip_identity (rng : EntropyProvider) (g : Generator)
    (options : GridOptions) (w w0 : World rng) (result : GridResult) :
  0 <= cols g ->
  fst (generateInitialGrid rng g options w) = Returns result ->
  stripVersion result = STRIP_VERSION /\
  fst (reconstructGrid rng g (StopArray (stopPositions result))
         (freeSpinsMode options) (Some STRIP_VERSION) w0)
  = Returns (grid result).
Proof.
  intros Hcols Hgen.
  destruct (generateInitialGrid_run rng g options w) as (w' & _ & Hrun).
  destruct (generateInitialGrid_columns g (getStrips (freeSpinsMode options))
              (stop_positions rng (Z.to_nat (cols g)) (seed options) (source w)))
    as [[gr counts] | e] eqn:Ecols.
  - destruct Hrun as [md Hrun]. rewrite Hrun in Hgen. cbn [fst] in Hgen.
    injection Hgen as <-. cbn [stopPositions grid stripVersion].
    split; [reflexivity |].
    rewrite reconstructGrid_accepted.
    + rewrite <- generateInitialGrid_columns_fst, Ecols. reflexivity.
    + now right.
    + unfold JS.length. rewrite stop_positions_length. lia.
  - rewrite Hrun in Hgen. discriminate.
Qed.

Lemma round_trip_identity_witness :
  exists result,
    fst (generateInitialGrid sampleRNG defaultGenerator
           {| freeSpinsMode := false; seed := Some "test-seed-12345" |} (sampleWorld 0))
    = Returns result /\
    fst (reconstructGrid sampleRNG defaultGenerator (StopArray (stopPositions result))
           false (Some STRIP_VERSION) (sampleWorld 7))
    = Returns (grid result).
Proof.
  eexists. split.
  - vm_compute. reflexivity.
  - apply (round_trip_identity sampleRNG defaultGenerator
             {| freeSpinsMode := false; seed := Some "test-seed-12345" |}
             (sampleWorld 0) (sampleWorld 7) _).
    + vm_compute. discriminate.
    + vm_compute. reflexivity.
Defined.

(** A malformed argument is refused at once, the version being accepted. *)
Lemma reconstructGrid_malformed (rng : EntropyProvider) (g : Generator)
    (stopPositions : StopArg) (freeSpinsMode : bool) (v : option string)
    (w : World rng) :
  v = None \/ v = Some STRIP_VERSION ->
  malformed g stopPositions ->
  reconstructGrid rng g stopPositions freeSpinsMode v w
  = (Throws (InvalidStopPositions (cols g)), w).
Proof.
  intros Hv Hbad. unfold reconstructGrid.
  assert (E : negb ((match v with Some v => v | None => STRIP_VERSION end)
                    =? STRIP_VERSION)%string = false).
  { destruct Hv as [-> | ->]; reflexivity. }
  rewrite E. destruct stopPositions as [| positions]; [reflexivity |].
  cbn in Hbad. destruct (Z.eqb_spec (JS.length positions) (cols g)); [contradiction |].
  reflexivity.
Qed.

(** C2, as the code has it. Called with the current strip version, or with
    none, [reconstructGrid] throws the invalid-stop-positions error exactly
    when the argument is not an array or its length is not the column count
    of the generator (6 by default), and then it leaves the world as it
    was: nothing is looked up, nothing is logged.  The range of the
    positions is not checked. *)
Theorem reconstructGrid_rejects_malformed (rng : EntropyProvider) (g : Generator)
    (stopPositions : StopArg) (freeSpinsMode : bool) (v : option string)
    (w : World rng) :
  v = None \/ v = Some STRIP_VERSION ->
  (malformed g stopPositions ->
   reconstructGrid rng g stopPositions freeSpinsMode v w
   = (Throws (InvalidStopPositions (cols g)), w)) /\
  (fst (reconstructGrid rng g stopPositions freeSpinsMode v w)
   = Throws (InvalidStopPositions (cols g)) ->
   malformed g stopPositions).
Proof.
  intros Hv. split.
  - now apply reconstructGrid_malformed.
  - destruct stopPositions as [| positions]; [easy |].
    intros Hthrow. cbn. intros Hlen.
    rewrite reconstructGrid_accepted in Hthrow by assumption.
    apply reconstructGrid_columns_throws in Hthrow. discriminate.
Qed.

Lemma reconstructGrid_rejects_malformed_witness :
  reconstructGrid sampleRNG defaultGenerator (StopArray [1; 2; 3; 4; 5]) false
    (Some STRIP_VERSION) (sampleWorld 0)
  = (Throws (InvalidStopPositions 6), sampleWorld 0).
Proof.
  apply (reconstructGrid_rejects_malformed sampleRNG defaultGenerator
           (StopArray [1; 2; 3; 4; 5]) false (Some STRIP_VERSION) (sampleWorld 0)).
  - right. reflexivity.
  - cbn. discriminate.
Defined.

(** C2, as the claim states it, fails: positions 120 and -1 are outside
    [0, 120), and [reconstructGrid] returns a grid all the same; column 0
    wraps to the head of its strip and the first cell of column 5 is
    [undefined]. *)
Lemma reconstructGrid_accepts_out_of_range :
  fst (reconstructGrid sampleRNG defaultGenerator (StopArray [120; 0; 0; 0; 0; -1])
         false (Some STRIP_VERSION) (sampleWorld 0))
  = Returns
      [ [Some "time_gem"; Some "time_gem"; Some "space_gem"; Some "space_gem";
         Some "mind_gem"];
        [Some "space_gem"; Some "space_gem"; Some "time_gem"; Some "time_gem";
         Some "mind_gem"];
        [Some "mind_gem"; Some "mind_gem"; Some "time_gem"; Some "time_gem";
         Some "space_gem"];
        [Some "power_gem"; Some "power_gem"; Some "time_gem"; Some "time_gem";
         Some "space_gem"];
        [Some "reality_gem"; Some "reality_gem"; Some "time_gem"; Some "time_gem";
         Some "space_gem"];
        [None; Some "soul_gem"; Some "soul_gem"; Some "time_gem"; Some "time_gem"] ].
Proof. vm_compute. reflexivity. Qed.

(** C3. Version gating: whatever the stop positions and the mode, a
    supplied version other than [STRIP_VERSION] makes [reconstructGrid]
    throw the version-mismatch error, before anything else and with the
    world as it was; so does "0.0.1", the live version being "2.0.0". *)
Theorem version_gating (rng : EntropyProvider) (g : Generator)
    (stopPositions : StopArg) (freeSpinsMode : bool) (v : string) (w : World rng) :
  v <> STRIP_VERSION ->
  reconstructGrid rng g stopPositions freeSpinsMode (Some v) w
  = (Throws (StripVersionMismatch STRIP_VERSION v), w) /\
  reconstructGrid rng g stopPositions freeSpinsMode (Some "0.0.1") w
  = (Throws (StripVersionMismatch "2.0.0" "0.0.1"), w).
Proof.
  intros Hv. split.
  - now apply reconstructGrid_version_mismatch.
  - reflexivity.
Qed.

Lemma version_gating_witness :
  reconstructGrid sampleRNG defaultGenerator (StopArray [0; 0; 0; 0; 0; 0]) false
    (Some "1.9.9") (sampleWorld 0)
  = (Throws (StripVersionMismatch STRIP_VERSION "1.9.9"), sampleWorld 0).
Proof.
  apply (version_gating sampleRNG defaultGenerator (StopArray [0; 0; 0; 0; 0; 0])
           false "1.9.9" (sampleWorld 0)).
  discriminate.
Defined.

(** C9. [reconstructGrid] leaves the statistics of the generator as they
    were, whatever its arguments and whether it returns or throws. *)
Theorem reconstructGrid_preserves_statistics (rng : EntropyProvider) (g : Generator)
    (stopPositions : StopArg) (freeSpinsMode : bool) (v : option string)
    (w : World rng) :
  statistics (snd (reconstructGrid rng g stopPositions freeSpinsMode v w))
  = statistics w.
Proof.
  unfold reconstructGrid.
  destruct (negb _); [reflexivity |].
  destruct stopPositions as [| positions]; [reflexivity |].
  destruct (negb _); [reflexivity |].
  destruct (reconstructGrid_columns g (getStrips freeSpinsMode) positions)
    as [gr | e] eqn:Ecols.
  - erewrite bind_returns by reflexivity.
    match goal with
    | |- statistics (snd (bind (logAuditEvent rng g ?ev ?d) _ ?w0)) = _ =>
        destruct (logAuditEvent_run rng g ev d w0) as (w' & E' & Qs & _)
    end.
    erewrite bind_returns by exact E'. exact Qs.
  - erewrite bind_throws by reflexivity. reflexivity.
Qed.

(** C10. A call that leaves [stripVersion] out runs as a call that passes
    [STRIP_VERSION]: the version check cannot fail, whatever the other
    arguments, and reconstruction goes on with no version from the
    caller. *)
Theorem omitted_version_passes_gate (rng : EntropyProvider) (g : Generator)
    (stopPositions : StopArg) (freeSpinsMode : bool) (w : World rng) :
  reconstructGrid rng g stopPositions freeSpinsMode None w
  = reconstructGrid rng g stopPositions freeSpinsMode (Some STRIP_VERSION) w /\
  forall expected got : string,
    fst (reconstructGrid rng g stopPositions freeSpinsMode None w)
    <> Throws (StripVersionMismatch expected got).
Proof.
  split; [reflexivity |].
  intros expected got H.
  destruct stopPositions as [| positions]; [discriminate |].
  destruct (Z.eq_dec (JS.length positions) (cols g)) as [Hlen | Hlen].
  - rewrite reconstructGrid_accepted in H by (assumption || now left).
    apply reconstructGrid_columns_throws in H. discriminate.
  - rewrite (reconstructGrid_malformed rng g (StopArray positions) freeSpinsMode
               None w (or_introl eq_refl) Hlen) in H.
    discriminate.
Qed.

(** ** Generation *)

(** C4. Entropy budget and range of the stop positions: on a generator of
    6 columns, whatever its number of rows, the mode and the seed (or its
    absence), [generateInitialGrid] returns, the calls it makes to the
    provider hold exactly 6 draws, one per column and in the order of the
    columns, each giving the stop position of its column, and the 6 stop
    positions are integers in [0, STRIP_LENGTH) = [0, 120). *)
Theorem entropy_budget_and_range (rng : EntropyProvider) (g : Generator)
    (options : GridOptions) (w : World rng) :
  cols g = 6 ->
  exists (result : GridResult) (w' : World rng) (calls : list EntropyCall),
    generateInitialGrid rng g options w = (Returns result, w') /\
    entropyCalls w' = entropyCalls w ++ calls /\
    List.length (filter is_draw calls) = 6%nat /\
    flat_map position_drawn calls = stopPositions result /\
    List.length (stopPositions result) = 6%nat /\
    Forall (fun p => 0 <= p < STRIP_LENGTH) (stopPositions result) /\
    STRIP_LENGTH = 120.
Proof.
  intros Hcols.
  destruct (generateInitialGrid_run rng g options w) as (w' & Hcalls & Hrun).
  destruct (generateInitialGrid_columns_returns g (getStrips (freeSpinsMode options))
              (stop_positions rng (Z.to_nat (cols g)) (seed options) (source w)))
    as [counts Ecols].
  { rewrite getStrips_length. lia. }
  rewrite Ecols in Hrun. destruct Hrun as [md Hrun].
  destruct (stop_calls_draws rng (Z.to_nat (cols g)) (seed options) (source w))
    as [Hdraws Hvalues].
  eexists. exists w'. eexists.
  split; [exact Hrun |]. split; [exact Hcalls |]. cbn [stopPositions].
  rewrite Hcols in *.
  split; [exact Hdraws |]. split; [exact Hvalues |].
  split; [apply stop_positions_length |].
  split; [apply stop_positions_range | reflexivity].
Qed.

Lemma entropy_budget_and_range_witness :
  exists (result : GridResult) (w' : World sampleRNG) (calls : list EntropyCall),
    generateInitialGrid sampleRNG {| rows := 3; cols := 6; auditLogging := false |}
      {| freeSpinsMode := true; seed := Some "seed-X" |} (sampleWorld 0)
    = (Returns result, w') /\
    entropyCalls w' = entropyCalls (sampleWorld 0) ++ calls /\
    List.length (filter is_draw calls) = 6%nat /\
    flat_map position_drawn calls = stopPositions result /\
    List.length (stopPositions result) = 6%nat /\
    Forall (fun p => 0 <= p < STRIP_LENGTH) (stopPositions result) /\
    STRIP_LENGTH = 120.
Proof.
  apply (entropy_budget_and_range sampleRNG
           {| rows := 3; cols := 6; auditLogging := false |}
           {| freeSpinsMode := true; seed := Some "seed-X" |} (sampleWorld 0)).
  reflexivity.
Defined.

(** C5. The indexing rule: on the generator of 6 columns and 5 rows, in
    either mode and whatever the stop positions drawn, the grid
    [generateInitialGrid] returns has, at column [c] < 6 and row [r] < 5,
    the symbol of the strip of column [c] at position
    [(stopPositions[c] + r) mod STRIP_LENGTH], the stop position being in
    [0, 120); and in base mode, a stop position 0 in column 0 gives the
    column time_gem, time_gem, space_gem, space_gem, mind_gem. *)
Theorem grid_indexing_rule (rng : EntropyProvider) (g : Generator)
    (options : GridOptions) (w : World rng) :
  cols g = 6 -> rows g = 5 ->
  exists (result : GridResult) (w' : World rng),
    generateInitialGrid rng g options w = (Returns result, w') /\
    (forall c r : Z,
        0 <= c < 6 -> 0 <= r < 5 ->
        exists (strip : list string) (stopPos : Z) (column : list (option string))
               (s : string),
          JS.index (getStrips (freeSpinsMode options)) c = Some strip /\
          JS.index (stopPositions result) c = Some stopPos /\
          0 <= stopPos < 120 /\
          JS.index (grid result) c = Some column /\
          JS.index column r = Some (Some s) /\
          JS.index strip ((stopPos + r) mod STRIP_LENGTH) = Some s) /\
    (freeSpinsMode options = false ->
     JS.index (stopPositions result) 0 = Some 0 ->
     JS.index (grid result) 0
     = Some [Some "time_gem"; Some "time_gem"; Some "space_gem"; Some "space_gem";
             Some "mind_gem"]).
Proof.
  intros Hcols Hrows.
  destruct (generateInitialGrid_run rng g options w) as (w' & _ & Hrun).
  set (sp := stop_positions rng (Z.to_nat (cols g)) (seed options) (source w)) in *.
  destruct (generateInitialGrid_columns_returns g (getStrips (freeSpinsMode options)) sp)
    as [counts Ecols].
  { rewrite getStrips_length. lia. }
  rewrite Ecols in Hrun. destruct Hrun as [md Hrun].
  eexists. exists w'. split; [exact Hrun |]. cbn [stopPositions grid].
  assert (Hgrid : forall c : Z,
             0 <= c < 6 ->
             JS.index (map (fun c => window g (nth (Z.to_nat c)
                                                  (getStrips (freeSpinsMode options)) [])
                                       (JS.index sp c))
                           (zseq 0 (Z.to_nat (cols g)))) c
             = Some (window g (nth (Z.to_nat c) (getStrips (freeSpinsMode options)) [])
                       (JS.index sp c))).
  { intros c Hc. rewrite index_map, index_zseq by lia. reflexivity. }
  split.
  - intros c r Hc Hr.
    destruct (getStrips_index (freeSpinsMode options) c Hc) as (strip & Hstrip & Hnth & Hlen).
    destruct (index_in_range sp c) as [stopPos HstopPos].
    { unfold JS.length, sp. rewrite stop_positions_length. lia. }
    assert (Hrange : 0 <= stopPos < STRIP_LENGTH).
    { pose proof (stop_positions_range rng (Z.to_nat (cols g)) (seed options) (source w))
        as Hall.
      rewrite Forall_forall in Hall. apply Hall.
      unfold JS.index in HstopPos. destruct (c <? 0); [discriminate |].
      eapply nth_error_In, HstopPos. }
    assert (Hpos : 0 < JS.length strip) by (rewrite Hlen; reflexivity).
    destruct (read_cell_wrap strip stopPos r Hpos) as (s & Hcell & Hs); try lia.
    exists strip, stopPos, (window g strip (Some stopPos)), s.
    split; [exact Hstrip |]. split; [exact HstopPos |].
    split; [unfold STRIP_LENGTH in Hrange; lia |].
    split; [rewrite Hgrid, Hnth, HstopPos by assumption; reflexivity |].
    split.
    + unfold window. rewrite index_map, index_zseq by lia. cbn. now rewrite Hcell.
    + now rewrite <- Hlen.
  - intros Hmode Hzero. rewrite Hgrid by lia. rewrite Hzero, Hmode.
    unfold window. rewrite Hrows. reflexivity.
Qed.

Lemma grid_indexing_rule_witness :
  exists (result : GridResult) (w' : World sampleRNG),
    generateInitialGrid sampleRNG defaultGenerator
      {| freeSpinsMode := false; seed := None |} (sampleWorld 0)
    = (Returns result, w') /\
    JS.index (stopPositions result) 0 = Some 0 /\
    JS.index (grid result) 0
    = Some [Some "time_gem"; Some "time_gem"; Some "space_gem"; Some "space_gem";
            Some "mind_gem"].
Proof.
  destruct (grid_indexing_rule sampleRNG defaultGenerator
              {| freeSpinsMode := false; seed := None |} (sampleWorld 0)
              eq_refl eq_refl)
    as (result & w' & Hrun & _ & Hexample).
  exists result, w'. split; [exact Hrun |].
  assert (Hzero : JS.index (stopPositions result) 0 = Some 0).
  { apply (f_equal fst) in Hrun. cbn [fst] in Hrun.
    assert (E : outcome_map (fun r => JS.index (stopPositions r) 0)
                  (fst (generateInitialGrid sampleRNG defaultGenerator
                          {| freeSpinsMode := false; seed := None |} (sampleWorld 0)))
                = Returns (Some 0)) by (vm_compute; reflexivity).
    rewrite Hrun in E. cbn in E. now injection E. }
  split; [exact Hzero | exact (Hexample eq_refl Hzero)].
Defined.

(** C6, as the code has it. Seeded determinism: for a seed string that is
    not empty, in either mode and on any generator, two calls of
    [generateInitialGrid] with this seed, in any two worlds, that return
    return the same stop positions and the same grid; the stop positions
    are those the stream of the seed gives, one draw a column; and on a
    generator of 6 columns both calls return.  (The empty string is no
    seed: [if (seed)] sends it to the live source.) *)
Theorem seeded_determinism (rng : EntropyProvider) (g : Generator)
    (mode : bool) (s : string) (w1 w2 : World rng) :
  s <> ""%string ->
  let options := {| freeSpinsMode := mode; seed := Some s |} in
  (forall r1 r2 : GridResult,
      fst (generateInitialGrid rng g options w1) = Returns r1 ->
      fst (generateInitialGrid rng g options w2) = Returns r2 ->
      stopPositions r1 = stopPositions r2 /\
      grid r1 = grid r2 /\
      stopPositions r1
      = map (fun u => Math_floor_mul u STRIP_LENGTH)
            (fst (stream_draws rng (Z.to_nat (cols g)) (createSeededRNG rng s)))) /\
  (cols g = 6 ->
   exists r1 r2 : GridResult,
     fst (generateInitialGrid rng g options w1) = Returns r1 /\
     fst (generateInitialGrid rng g options w2) = Returns r2).
Proof.
  intros Hs options.
  assert (Hseed : when_truthy (Some s) = Some s).
  { cbn. destruct (String.eqb_spec s ""); [contradiction | reflexivity]. }
  assert (Hsp : forall w : World rng,
             stop_positions rng (Z.to_nat (cols g)) (seed options) (source w)
             = map (fun u => Math_floor_mul u STRIP_LENGTH)
                   (fst (stream_draws rng (Z.to_nat (cols g)) (createSeededRNG rng s)))).
  { intros w. unfold stop_positions. cbn [seed options]. now rewrite Hseed. }
  destruct (generateInitialGrid_run rng g options w1) as (w1' & _ & Hrun1).
  destruct (generateInitialGrid_run rng g options w2) as (w2' & _ & Hrun2).
  rewrite Hsp in Hrun1, Hrun2.
  split.
  - intros r1 r2 H1 H2.
    destruct (generateInitialGrid_columns g (getStrips (freeSpinsMode options)) _)
      as [[gr counts] | e].
    + destruct Hrun1 as [md1 Hrun1]. destruct Hrun2 as [md2 Hrun2].
      rewrite Hrun1 in H1. rewrite Hrun2 in H2. cbn [fst] in H1, H2.
      injection H1 as <-. injection H2 as <-. now repeat split.
    + rewrite Hrun1 in H1. discriminate.
  - intros Hcols.
    destruct (generateInitialGrid_columns_returns g
                (getStrips (freeSpinsMode options))
                (map (fun u => Math_floor_mul u STRIP_LENGTH)
                   (fst (stream_draws rng (Z.to_nat (cols g)) (createSeededRNG rng s)))))
      as [counts Ecols].
    { rewrite getStrips_length. lia. }
    rewrite Ecols in Hrun1, Hrun2.
    destruct Hrun1 as [md1 Hrun1]. destruct Hrun2 as [md2 Hrun2].
    rewrite Hrun1, Hrun2. eexists. eexists. split; reflexivity.
Qed.

Lemma seeded_determinism_witness :
  let options := {| freeSpinsMode := false; seed := Some "seed-X" |} in
  let first := generateInitialGrid sampleRNG defaultGenerator options (sampleWorld 0) in
  let second := generateInitialGrid sampleRNG defaultGenerator options (snd first) in
  exists r1 r2 : GridResult,
    fst first = Returns r1 /\ fst second = Returns r2 /\
    stopPositions r1 = stopPositions r2 /\ grid r1 = grid r2.
Proof.
  intros options first second.
  assert (Hs : "seed-X"%string <> ""%string) by discriminate.
  destruct (seeded_determinism sampleRNG defaultGenerator false "seed-X"
              (sampleWorld 0) (snd first) Hs) as [Hsame Hreturns].
  destruct (Hreturns eq_refl) as (r1 & r2 & H1 & H2).
  exists r1, r2.
  destruct (Hsame r1 r2 H1 H2) as (Hsp & Hgrid & _).
  now repeat split.
Defined.

(** C6, as the claim states it, fails at the empty seed, a seed string that
    is not [null]: the two calls draw from the live source and differ. *)
Lemma empty_seed_is_not_deterministic :
  let options := {| freeSpinsMode := false; seed := Some "" |} in
  let first := generateInitialGrid sampleRNG defaultGenerator options (sampleWorld 0) in
  let second := generateInitialGrid sampleRNG defaultGenerator options (snd first) in
  outcome_map stopPositions (fst first) = Returns [0; 1; 2; 3; 4; 5] /\
  outcome_map stopPositions (fst second) = Returns [6; 7; 8; 9; 10; 11] /\
  outcome_map grid (fst first) <> outcome_map grid (fst second).
Proof.
  intros options first second.
  split; [vm_compute; reflexivity |].
  split; [vm_compute; reflexivity |].
  vm_compute. discriminate.
Qed.

(** ** Replacement symbols *)

Section Replacements.

Variable rng : EntropyProvider.

Lemma when_truthy_nonempty (s : string) : s <> ""%string -> when_truthy (Some s) = Some s.
Proof.
  intros Hs. cbn. destruct (String.eqb_spec s ""); [contradiction | reflexivity].
Qed.

Lemma cell_seed_nonempty (s : string) (c r : Z) : s <> ""%string -> cell_seed s c r <> ""%string.
Proof. unfold cell_seed. destruct s; [congruence | discriminate]. Qed.

Lemma positionSeed_seeded (s : string) (colNum : Z) (pos : Cell) :
  s <> ""%string ->
  positionSeed (Some s) colNum pos = Some (cell_seed s colNum (row pos)).
Proof.
  intros Hs. unfold positionSeed. now rewrite when_truthy_nonempty.
Qed.

Lemma call_seededRNG_run (st : stream rng) (w : World rng) :
  exists w', call_seededRNG rng st w = (Returns (seededRNG rng st), w').
Proof.
  unfold call_seededRNG. destruct (seededRNG rng st) as [u st'].
  eexists. reflexivity.
Qed.

(** With a seed the draw of a replacement is the position of the seed,
    whatever the world. *)
Lemma draw_stripPosition_seeded (seed : string) (strip : list string) (w : World rng) :
  seed <> ""%string ->
  exists w',
    draw_stripPosition rng (Some seed) strip w
    = (Returns (seeded_stripPosition rng seed strip), w').
Proof.
  intros Hs. unfold draw_stripPosition. rewrite (when_truthy_nonempty seed Hs).
  erewrite bind_returns by reflexivity.
  match goal with
  | |- exists _, bind (call_seededRNG rng ?st) _ ?w0 = _ =>
      destruct (call_seededRNG_run st w0) as [w' E]
  end.
  erewrite bind_returns by exact E.
  unfold seeded_stripPosition.
  destruct (seededRNG rng (createSeededRNG rng seed)) as [u st'].
  exists w'. reflexivity.
Qed.

Lemma replace_cells_seeded (s : string) (colNum : Z) (strip : list string)
    (colPositions : list Cell) :
  s <> ""%string ->
  forall (replacements : list CellReplacement) (w : World rng),
  exists w',
    replace_cells rng (Some s) colNum strip colPositions replacements w
    = (Returns (replacements ++ map (seeded_replacement rng s colNum strip) colPositions),
       w').
Proof.
  intros Hs. induction colPositions as [| pos rest IH]; intros replacements w.
  - exists w. cbn. now rewrite app_nil_r.
  - cbn [replace_cells]. rewrite (positionSeed_seeded s colNum pos Hs).
    destruct (draw_stripPosition_seeded (cell_seed s colNum (row pos)) strip w
                (cell_seed_nonempty s colNum (row pos) Hs)) as [w1 E1].
    erewrite bind_returns by exact E1.
    erewrite bind_returns by reflexivity.
    match goal with
    | |- exists _, replace_cells rng _ _ _ _ ?acc ?w0 = _ =>
        destruct (IH acc w0) as [w' E']
    end.
    exists w'. rewrite E'. cbn [map]. now rewrite <- app_assoc.
Qed.

Lemma replace_columns_seeded (freeSpinsMode : bool) (s : string) (entries : ByColumn) :
  s <> ""%string ->
  forall (replacements : list CellReplacement) (w : World rng),
  exists w',
    replace_columns rng freeSpinsMode (Some s) entries replacements w
    = (seeded_columns rng freeSpinsMode s entries replacements, w').
Proof.
  intros Hs. induction entries as [| [colNum colPositions] rest IH];
    intros replacements w.
  - exists w. reflexivity.
  - cbn [replace_columns seeded_columns].
    destruct (getStrip colNum freeSpinsMode) as [strip | e].
    + erewrite bind_returns by reflexivity.
      destruct (replace_cells_seeded s colNum strip colPositions Hs replacements w)
        as [w1 E1].
      erewrite bind_returns by exact E1.
      apply IH.
    + exists w. reflexivity.
Qed.

(** Under a cascade seed the batch is a function of the positions, the
    mode and the seed. *)
Lemma generateReplacementSymbols_seeded (g : Generator) (positions : list Cell)
    (freeSpinsMode : bool) (s : string) (w : World rng) :
  s <> ""%string ->
  fst (generateReplacementSymbols rng g positions freeSpinsMode (Some s) w)
  = seeded_columns rng freeSpinsMode s (group_by_column positions) [].
Proof.
  intros Hs. unfold generateReplacementSymbols.
  destruct (replace_columns_seeded freeSpinsMode s (group_by_column positions) Hs [] w)
    as [w1 E1].
  destruct (seeded_columns rng freeSpinsMode s (group_by_column positions) [])
    as [replacements | e].
  - erewrite bind_returns by exact E1.
    match goal with
    | |- fst (bind (logAuditEvent rng g ?ev ?d) _ ?w0) = _ =>
        destruct (logAuditEvent_run rng g ev d w0) as (w' & E' & _)
    end.
    erewrite bind_returns by exact E'. reflexivity.
  - erewrite bind_throws by exact E1. reflexivity.
Qed.

(** With a seed the single replacement is a function of the column, the
    mode and the seed. *)
Lemma generateReplacementSymbol_seeded (g : Generator) (column : Z)
    (freeSpinsMode : bool) (s : string) (w : World rng) :
  s <> ""%string ->
  fst (generateReplacementSymbol rng g column freeSpinsMode (Some s) w)
  = if (column <? 0) || (column >=? cols g) then Throws (InvalidColumnIndex column)
    else
      match getStrip column freeSpinsMode with
      | Returns strip =>
          Returns {| symbol := JS.index strip (seeded_stripPosition rng s strip);
                     stripPosition := seeded_stripPosition rng s strip;
                     column := column;
                     rep_stripVersion := STRIP_VERSION;
                     rep_freeSpinsMode := freeSpinsMode |}
      | Throws e => Throws e
      end.
Proof.
  intros Hs. unfold generateReplacementSymbol.
  destruct ((column <? 0) || (column >=? cols g)); [reflexivity |].
  destruct (getStrip column freeSpinsMode) as [strip | e].
  - erewrite bind_returns by reflexivity.
    destruct (draw_stripPosition_seeded s strip w Hs) as [w1 E1].
    erewrite bind_returns by exact E1.
    erewrite bind_returns by reflexivity.
    match goal with
    | |- fst (bind (logAuditEvent rng g ?ev ?d) _ ?w0) = _ =>
        destruct (logAuditEvent_run rng g ev d w0) as (w' & E' & _)
    end.
    erewrite bind_returns by exact E'. reflexivity.
  - erewrite bind_throws by reflexivity. reflexivity.
Qed.

(** Every replacement of the groups comes from a cell of a group, through
    the strip of the key of the group. *)
Lemma seeded_columns_In (freeSpinsMode : bool) (s : string) (entries : ByColumn) :
  forall (acc rs : list CellReplacement) (r : CellReplacement),
    seeded_columns rng freeSpinsMode s entries acc = Returns rs ->
    In r rs ->
    In r acc \/
    exists colNum colPositions strip pos,
      In (colNum, colPositions) entries /\ In pos colPositions /\
      getStrip colNum freeSpinsMode = Returns strip /\
      r = seeded_replacement rng s colNum strip pos.
Proof.
  induction entries as [| [colNum colPositions] rest IH]; intros acc rs r Hrun Hin.
  - cbn in Hrun. injection Hrun as <-. now left.
  - cbn [seeded_columns] in Hrun.
    destruct (getStrip colNum freeSpinsMode) as [strip | e] eqn:Estrip; [| discriminate].
    destruct (IH _ _ r Hrun Hin) as [Hacc | (c & cells & st & pos & H1 & H2 & H3 & H4)].
    + apply in_app_or in Hacc. destruct Hacc as [Hacc | Hnew]; [now left |].
      apply in_map_iff in Hnew. destruct Hnew as (pos & <- & Hpos).
      right. exists colNum, colPositions, strip, pos.
      repeat split; try assumption. now left.
    + right. exists c, cells, st, pos. repeat split; try assumption. now right.
Qed.

(** Every cell of a group is replaced, when every key has a strip. *)
Lemma seeded_columns_total (freeSpinsMode : bool) (s : string) (entries : ByColumn) :
  Forall (fun entry => 0 <= fst entry < 6) entries ->
  forall acc : list CellReplacement,
  exists rs,
    seeded_columns rng freeSpinsMode s entries acc = Returns rs /\
    (forall r, In r acc -> In r rs) /\
    (forall colNum colPositions pos,
        In (colNum, colPositions) entries -> In pos colPositions ->
        exists r, In r rs /\ cell_col r = col pos /\ cell_row r = row pos).
Proof.
  induction entries as [| [colNum colPositions] rest IH]; intros Hall acc.
  - exists acc. cbn. repeat split; [auto | intros ? ? ? []].
  - inversion Hall as [| ? ? Hkey Hrest]; subst. cbn [fst] in Hkey.
    cbn [seeded_columns].
    destruct (getStrips_index freeSpinsMode colNum Hkey) as (strip & Hstrip & _ & _).
    assert (Eg : getStrip colNum freeSpinsMode = Returns strip).
    { unfold getStrip. rewrite getStrips_length.
      destruct (Z.ltb_spec colNum 0); [lia |].
      destruct (Z.geb_spec colNum 6); [lia |]. cbn. now rewrite Hstrip. }
    rewrite Eg.
    destruct (IH Hrest (acc ++ map (seeded_replacement rng s colNum strip) colPositions))
      as (rs & Hrun & Hacc & Hcells).
    exists rs. split; [exact Hrun |]. split.
    + intros r Hr. apply Hacc, in_or_app. now left.
    + intros c cells pos [Heq | Hin] Hpos.
      * injection Heq as <- <-.
        exists (seeded_replacement rng s colNum strip pos). split; [| now split].
        apply Hacc, in_or_app. right. now apply in_map.
      * eapply Hcells; eassumption.
Qed.

End Replacements.

(** *** The grouping by column *)

Lemma group_cell_keys (P : Z -> Prop) (pos : Cell) (byColumn : ByColumn) :
  P (col pos) ->
  Forall (fun entry => P (fst entry)) byColumn ->
  Forall (fun entry => P (fst entry)) (group_cell pos byColumn).
Proof.
  intros Hpos. induction byColumn as [| [k cells] rest IH]; intros Hall; cbn.
  - now repeat constructor.
  - inversion Hall as [| ? ? Hk Hrest]; subst.
    destruct (k =? col pos); [now constructor |].
    destruct (is_array_index (col pos) && (negb (is_array_index k) || (col pos <? k))).
    + now repeat constructor.
    + constructor; [assumption | now apply IH].
Qed.

(** The cells of a group have the key of the group as their column. *)
Lemma group_cell_sound (pos : Cell) (byColumn : ByColumn) :
  Forall (fun entry => Forall (fun p => col p = fst entry) (snd entry)) byColumn ->
  Forall (fun entry => Forall (fun p => col p = fst entry) (snd entry))
         (group_cell pos byColumn).
Proof.
  induction byColumn as [| [k cells] rest IH]; intros Hall; cbn.
  - now repeat constructor.
  - inversion Hall as [| ? ? Hk Hrest]; subst. cbn [fst snd] in Hk.
    destruct (Z.eqb_spec k (col pos)) as [E | E].
    + constructor; [| assumption]. cbn [fst snd].
      apply Forall_app. split; [assumption | now repeat constructor].
    + destruct (is_array_index (col pos) && (negb (is_array_index k) || (col pos <? k))).
      * now repeat constructor.
      * constructor; [assumption | now apply IH].
Qed.

(** A cell is in the group of its column once it is added, and stays in
    it. *)
Lemma group_cell_new (pos : Cell) (byColumn : ByColumn) :
  exists cells, In (col pos, cells) (group_cell pos byColumn) /\ In pos cells.
Proof.
  induction byColumn as [| [k cells] rest (cells' & Hin & Hpos)]; cbn.
  - exists [pos]. split; now left.
  - destruct (Z.eqb_spec k (col pos)) as [E | E].
    + exists (cells ++ [pos])%list. split; [left; now rewrite E |].
      apply in_or_app. right. now left.
    + destruct (is_array_index (col pos) && (negb (is_array_index k) || (col pos <? k))).
      * exists [pos]. split; now left.
      * exists cells'. split; [now right | assumption].
Qed.

Lemma group_cell_old (pos p : Cell) (k : Z) (cells : list Cell) (byColumn : ByColumn) :
  In (k, cells) byColumn -> In p cells ->
  exists cells', In (k, cells') (group_cell pos byColumn) /\ In p cells'.
Proof.
  induction byColumn as [| [k0 cells0] rest IH]; intros Hin Hp; [destruct Hin |].
  cbn. destruct Hin as [Heq | Hin].
  - injection Heq as -> ->.
    destruct (Z.eqb_spec k (col pos)) as [E | E].
    + exists (cells ++ [pos])%list. split; [now left | apply in_or_app; now left].
    + destruct (is_array_index (col pos) && (negb (is_array_index k) || (col pos <? k))).
      * exists cells. split; [right; now left | assumption].
      * exists cells. split; [now left | assumption].
  - destruct (IH Hin Hp) as (cells' & Hin' & Hp').
    destruct (Z.eqb_spec k0 (col pos)) as [E | E].
    + exists cells. split; [now right | assumption].
    + destruct (is_array_index (col pos) && (negb (is_array_index k0) || (col pos <? k0))).
      * exists cells. split; [right; now right | assumption].
      * exists cells'. split; [now right | assumption].
Qed.

Lemma group_by_column_spec (positions : list Cell) :
  Forall (fun entry => Forall (fun p => col p = fst entry) (snd entry))
         (group_by_column positions) /\
  (forall pos, In pos positions ->
               exists cells, In (col pos, cells) (group_by_column positions) /\ In pos cells) /\
  (forall P : Z -> Prop,
      Forall (fun pos => P (col pos)) positions ->
      Forall (fun entry => P (fst entry)) (group_by_column positions)).
Proof.
  unfold group_by_column.
  assert (Hgen : forall (byColumn : ByColumn),
             Forall (fun entry => Forall (fun p => col p = fst entry) (snd entry)) byColumn ->
             let grouped := fold_left (fun byColumn pos => group_cell pos byColumn)
                                      positions byColumn in
             Forall (fun entry => Forall (fun p => col p = fst entry) (snd entry)) grouped /\
             (forall pos, In pos positions ->
                          exists cells, In (col pos, cells) grouped /\ In pos cells) /\
             (forall k cells p, In (k, cells) byColumn -> In p cells ->
                                exists cells', In (k, cells') grouped /\ In p cells') /\
             (forall P : Z -> Prop,
                 Forall (fun pos => P (col pos)) positions ->
                 Forall (fun entry => P (fst entry)) byColumn ->
                 Forall (fun entry => P (fst entry)) grouped)).
  { induction positions as [| pos rest IH]; intros byColumn Hsound; cbn.
    - split; [assumption |]. split; [intros ? [] |].
      split; [intros k cells p Hin Hp; now exists cells | auto].
    - destruct (IH (group_cell pos byColumn) (group_cell_sound pos byColumn Hsound))
        as (H1 & H2 & H3 & H4).
      split; [exact H1 |]. split; [| split].
      + intros p [<- | Hin].
        * destruct (group_cell_new pos byColumn) as (cells & Hc & Hp).
          exact (H3 _ _ _ Hc Hp).
        * now apply H2.
      + intros k cells p Hin Hp.
        destruct (group_cell_old pos p k cells byColumn Hin Hp) as (cells' & Hc' & Hp').
        exact (H3 _ _ _ Hc' Hp').
      + intros P HP Hkeys. inversion HP as [| ? ? Hpos Hrest]; subst.
        apply H4; [assumption | now apply group_cell_keys]. }
  destruct (Hgen [] (Forall_nil _)) as (H1 & H2 & _ & H4).
  split; [exact H1 |]. split; [exact H2 |].
  intros P HP. apply H4; [assumption | constructor].
Qed.

(** C8, as the code has it. Replacement determinism under a cascade seed
    that is not empty, in either mode and on any generator:
    - every replacement a batch returns is drawn for its cell alone: its
      strip position is [Math.floor(u * strip.length)] for the first value
      [u] of the stream made for the seed [cascadeSeed_col_row], it is in
      [0, STRIP_LENGTH), and its symbol is the symbol of the strip of its
      column at that position;
    - so two replacements of the same cell, in one batch or in two, in any
      worlds, have the same symbol and the same strip position;
    - a batch whose cells all have a column in [0, 6) returns, with a
      replacement for every cell asked for;
    - [generateReplacementSymbol] with this seed gives the same outcome in
      any two worlds;
    - with no seed two draws for one cell can differ.
    (The empty string is no cascade seed: the draws are live.) *)
Theorem replacement_determinism (rng : EntropyProvider) (g : Generator)
    (mode : bool) (s : string) :
  s <> ""%string ->
  (forall (positions : list Cell) (w : World rng) (rs : list CellReplacement)
          (r : CellReplacement),
      fst (generateReplacementSymbols rng g positions mode (Some s) w) = Returns rs ->
      In r rs ->
      exists strip : list string,
        getStrip (cell_col r) mode = Returns strip /\
        cell_stripPosition r
        = Math_floor_mul
            (fst (seededRNG rng
                    (createSeededRNG rng
                       (s ++ "_" ++ JS.show (cell_col r) ++ "_"
                          ++ JS.show (cell_row r))%string)))
            (JS.length strip) /\
        0 <= cell_stripPosition r < STRIP_LENGTH /\
        cell_symbol r = JS.index strip (cell_stripPosition r)) /\
  (forall (positions1 positions2 : list Cell) (w1 w2 : World rng)
          (rs1 rs2 : list CellReplacement) (r1 r2 : CellReplacement),
      fst (generateReplacementSymbols rng g positions1 mode (Some s) w1) = Returns rs1 ->
      fst (generateReplacementSymbols rng g positions2 mode (Some s) w2) = Returns rs2 ->
      In r1 rs1 -> In r2 rs2 ->
      cell_col r1 = cell_col r2 -> cell_row r1 = cell_row r2 ->
      cell_symbol r1 = cell_symbol r2 /\
      cell_stripPosition r1 = cell_stripPosition r2) /\
  (forall (positions : list Cell) (w : World rng),
      Forall (fun pos => 0 <= col pos < 6) positions ->
      exists rs : list CellReplacement,
        fst (generateReplacementSymbols rng g positions mode (Some s) w) = Returns rs /\
        forall pos : Cell,
          In pos positions ->
          exists r, In r rs /\ cell_col r = col pos /\ cell_row r = row pos) /\
  (forall (column : Z) (w1 w2 : World rng),
      fst (generateReplacementSymbol rng g column mode (Some s) w1)
      = fst (generateReplacementSymbol rng g column mode (Some s) w2)) /\
  (exists (rng' : EntropyProvider) (w : World rng'),
      let cell := {| col := 0; row := 0 |} in
      let first := generateReplacementSymbols rng' g [cell] mode None w in
      let second := generateReplacementSymbols rng' g [cell] mode None (snd first) in
      outcome_map (map cell_symbol) (fst first)
      <> outcome_map (map cell_symbol) (fst second)).
Proof.
  intros Hs.
  assert (Hcell : forall (positions : list Cell) (w : World rng)
                         (rs : list CellReplacement) (r : CellReplacement),
             fst (generateReplacementSymbols rng g positions mode (Some s) w) = Returns rs ->
             In r rs ->
             exists strip : list string,
               getStrip (cell_col r) mode = Returns strip /\
               cell_stripPosition r
               = seeded_stripPosition rng (cell_seed s (cell_col r) (cell_row r)) strip /\
               0 <= cell_stripPosition r < STRIP_LENGTH /\
               cell_symbol r = JS.index strip (cell_stripPosition r)).
  { intros positions w rs r Hrun Hin.
    rewrite generateReplacementSymbols_seeded in Hrun by assumption.
    destruct (seeded_columns_In rng mode s _ _ _ r Hrun Hin)
      as [[] | (colNum & cells & strip & pos & Hentry & Hpos & Hstrip & ->)].
    destruct (group_by_column_spec positions) as (Hsound & _ & _).
    rewrite Forall_forall in Hsound. specialize (Hsound _ Hentry). cbn [fst snd] in Hsound.
    rewrite Forall_forall in Hsound. specialize (Hsound _ Hpos).
    exists strip. cbn [seeded_replacement cell_col cell_row cell_stripPosition cell_symbol].
    rewrite Hsound. split; [assumption |]. split; [reflexivity |].
    split; [| reflexivity].
    unfold seeded_stripPosition. rewrite (getStrip_length _ _ _ Hstrip).
    apply Math_floor_mul_range. reflexivity. }
  split; [exact Hcell |]. split; [| split; [| split]].
  - intros positions1 positions2 w1 w2 rs1 rs2 r1 r2 H1 H2 Hin1 Hin2 Hcol Hrow.
    destruct (Hcell _ _ _ _ H1 Hin1) as (strip1 & Hs1 & Hp1 & _ & Hsym1).
    destruct (Hcell _ _ _ _ H2 Hin2) as (strip2 & Hs2 & Hp2 & _ & Hsym2).
    rewrite Hcol in Hs1, Hp1. rewrite Hrow in Hp1.
    rewrite Hs1 in Hs2. injection Hs2 as <-.
    assert (Hp : cell_stripPosition r1 = cell_stripPosition r2) by congruence.
    split; [| exact Hp]. now rewrite Hsym1, Hsym2, Hp.
  - intros positions w Hall.
    rewrite generateReplacementSymbols_seeded by assumption.
    destruct (group_by_column_spec positions) as (_ & Hcomplete & Hkeys).
    destruct (seeded_columns_total rng mode s (group_by_column positions)
                (Hkeys (fun k => 0 <= k < 6) Hall) [])
      as (rs & Hrun & _ & Hcells).
    exists rs. split; [exact Hrun |].
    intros pos Hin. destruct (Hcomplete pos Hin) as (cells & Hentry & Hpos).
    exact (Hcells _ _ _ Hentry Hpos).
  - intros column w1 w2. now rewrite !generateReplacementSymbol_seeded.
  - exists sampleRNG, (sampleWorld 1). cbv zeta.
    destruct g as [rows cols [|]]; destruct mode; vm_compute; discriminate.
Qed.

Lemma replacement_determinism_witness :
  let cell := {| col := 1; row := 1 |} in
  let first :=
    generateReplacementSymbols sampleRNG defaultGenerator
      [ {| col := 3; row := 1 |}; cell ] false (Some "cascade-7") (sampleWorld 0) in
  let second :=
    generateReplacementSymbols sampleRNG defaultGenerator [cell] false
      (Some "cascade-7") (snd first) in
  exists (rs1 rs2 : list CellReplacement) (r1 r2 : CellReplacement),
    fst first = Returns rs1 /\ fst second = Returns rs2 /\
    In r1 rs1 /\ In r2 rs2 /\
    (cell_col r1 = 1 /\ cell_row r1 = 1) /\ (cell_col r2 = 1 /\ cell_row r2 = 1) /\
    cell_symbol r1 = cell_symbol r2 /\
    cell_stripPosition r1 = cell_stripPosition r2.
Proof.
  intros cell first second.
  assert (Hs : "cascade-7"%string <> ""%string) by discriminate.
  destruct (replacement_determinism sampleRNG defaultGenerator false "cascade-7" Hs)
    as (_ & Hsame & Htotal & _).
  destruct (Htotal [ {| col := 3; row := 1 |}; cell ] (sampleWorld 0)) as (rs1 & E1 & Hin1).
  { repeat constructor; cbn; lia. }
  destruct (Htotal [cell] (snd first)) as (rs2 & E2 & Hin2).
  { repeat constructor; cbn; lia. }
  destruct (Hin1 cell (or_intror (or_introl eq_refl))) as (r1 & Hr1 & Hc1 & Hrow1).
  destruct (Hin2 cell (or_introl eq_refl)) as (r2 & Hr2 & Hc2 & Hrow2).
  exists rs1, rs2, r1, r2.
  split; [exact E1 |]. split; [exact E2 |].
  split; [exact Hr1 |]. split; [exact Hr2 |].
  split; [now split |]. split; [now split |].
  apply (Hsame _ _ _ _ _ _ r1 r2 E1 E2 Hr1 Hr2); congruence.
Defined.

(** C8, as the claim states it, fails at the empty cascade seed, a seed
    that is not [null]: the two draws for the cell are live and differ. *)
Lemma empty_cascade_seed_is_not_deterministic :
  let cell := {| col := 0; row := 0 |} in
  let first :=
    generateReplacementSymbols sampleRNG defaultGenerator [cell] false (Some "")
      (sampleWorld 1) in
  let second :=
    generateReplacementSymbols sampleRNG defaultGenerator [cell] false (Some "")
      (snd first) in
  outcome_map (map (fun r => (cell_col r, cell_row r, cell_symbol r, cell_stripPosition r)))
              (fst first)
  = Returns [(0, 0, Some "time_gem", 1)] /\
  outcome_map (map (fun r => (cell_col r, cell_row r, cell_symbol r, cell_stripPosition r)))
              (fst second)
  = Returns [(0, 0, Some "space_gem", 2)].
Proof.
  intros cell first second. split; vm_compute; reflexivity.
Qed.

(** * Further properties *)

(** * Further properties *)

(** ** Lookups in the registry *)

(** Every symbol of the shipped strips is of the alphabet. *)
Lemma getStrips_symbols (freeSpinsMode : bool) :
  Forall (fun strip => Forall (fun s => In s validSymbols) strip) (getStrips freeSpinsMode).
Proof.
  assert (H : Forall (fun strip =>
                        JS.length strip = 120 /\
                        Forall (fun s => In s validSymbols) strip /\
                        4 <= scatterCount strip <= 7) (getStrips freeSpinsMode)).
  { apply strip_checks_sound. destruct freeSpinsMode; vm_compute; reflexivity. }
  eapply Forall_impl; [| exact H]. intros strip (_ & Hs & _). exact Hs.
Qed.

Lemma getStrip_symbols (column : Z) (freeSpinsMode : bool) (strip : list string) :
  getStrip column freeSpinsMode = Returns strip ->
  Forall (fun s => In s validSymbols) strip.
Proof.
  rewrite getStrip_in_range.
  destruct ((column <? 0) || (column >=? 6)) eqn:E; [discriminate |].
  apply orb_false_elim in E. destruct E as [E1 E2].
  apply Z.ltb_ge in E1. rewrite Z.geb_leb in E2. apply Z.leb_gt in E2.
  intros H. injection H as <-.
  pose proof (getStrips_symbols freeSpinsMode) as Hall.
  rewrite Forall_forall in Hall. apply Hall.
  apply nth_In. pose proof (getStrips_length freeSpinsMode) as Hlen.
  unfold JS.length in Hlen. lia.
Qed.

(** A read inside a strip of the alphabet gives a symbol of the alphabet. *)
Lemma index_valid (strip : list string) (i : Z) :
  Forall (fun s => In s validSymbols) strip ->
  0 <= i < JS.length strip ->
  exists s, JS.index strip i = Some s /\ In s validSymbols.
Proof.
  intros Hall Hi. destruct (index_in_range strip i Hi) as [s Hs].
  exists s. split; [assumption |].
  rewrite Forall_forall in Hall. apply Hall.
  unfold JS.index in Hs. destruct (i <? 0); [discriminate |].
  eapply nth_error_In, Hs.
Qed.

(** The double remainder of [getSymbolAt] is the mathematical modulo. *)
Lemma wrapped_position (position len : Z) :
  0 < len ->
  match JS.rem position len with
  | Some r => JS.rem (r + len) len
  | None => None
  end = Some (position mod len).
Proof.
  intros Hlen. unfold JS.rem.
  destruct (Z.eqb_spec len 0) as [? | _]; [lia |].
  f_equal.
  pose proof (Z.quot_rem' position len) as Hqr.
  assert (Hbound : - len < Z.rem position len < len).
  { pose proof (Z.rem_bound_abs position len ltac:(lia)). lia. }
  rewrite Z.rem_mod_nonneg by lia.
  replace (Z.rem position len + len) with (position + (1 - position ÷ len) * len) by lia.
  apply Z_mod_plus_full.
Qed.

(** X1. [getStrip] throws the invalid-column error exactly for the columns
    outside [0, 6), in either mode; for the others it returns a strip of
    [STRIP_LENGTH] symbols, all of the alphabet. *)
Theorem getStrip_bounds (column : Z) (freeSpinsMode : bool) :
  (column < 0 \/ 6 <= column ->
   getStrip column freeSpinsMode = Throws (InvalidColumnIndex column)) /\
  (0 <= column < 6 ->
   exists strip : list string,
     getStrip column freeSpinsMode = Returns strip /\
     JS.index (getStrips freeSpinsMode) column = Some strip /\
     JS.length strip = STRIP_LENGTH /\
     Forall (fun s => In s validSymbols) strip).
Proof.
  split.
  - intros Hout. rewrite getStrip_in_range.
    destruct (Z.ltb_spec column 0); [reflexivity |].
    destruct (Z.geb_spec column 6); [reflexivity | lia].
  - intros Hin.
    destruct (getStrips_index freeSpinsMode column Hin) as (strip & Hidx & Hnth & Hlen).
    assert (E : getStrip column freeSpinsMode = Returns strip).
    { rewrite getStrip_in_range.
      destruct (Z.ltb_spec column 0); [lia |].
      destruct (Z.geb_spec column 6); [lia |]. cbn. now rewrite Hnth. }
    exists strip. repeat split; try assumption.
    exact (getStrip_symbols _ _ _ E).
Qed.

(** X2. [getSymbolAt] wraps any integer position, negative ones included:
    for a column in [0, 6) it returns the symbol of the strip at the
    position modulo [STRIP_LENGTH], a symbol of the alphabet, so it has
    period [STRIP_LENGTH] in the position; for a column outside [0, 6) it
    throws the invalid-column error. *)
Theorem getSymbolAt_wraps (column position : Z) (freeSpinsMode : bool) :
  (0 <= column < 6 ->
   exists (strip : list string) (s : string),
     JS.index (getStrips freeSpinsMode) column = Some strip /\
     getSymbolAt column position freeSpinsMode = Returns (Some s) /\
     JS.index strip (position mod STRIP_LENGTH) = Some s /\
     In s validSymbols /\
     forall k : Z,
       getSymbolAt column (position + k * STRIP_LENGTH) freeSpinsMode
       = getSymbolAt column position freeSpinsMode) /\
  (column < 0 \/ 6 <= column ->
   getSymbolAt column position freeSpinsMode = Throws (InvalidColumnIndex column)).
Proof.
  split.
  - intros Hin.
    destruct (getStrips_index freeSpinsMode column Hin) as (strip & Hidx & Hnth & Hlen).
    assert (E : getStrip column freeSpinsMode = Returns strip).
    { rewrite getStrip_in_range.
      destruct (Z.ltb_spec column 0); [lia |].
      destruct (Z.geb_spec column 6); [lia |]. cbn. now rewrite Hnth. }
    assert (Hat : forall p, getSymbolAt column p freeSpinsMode
                            = Returns (JS.index strip (p mod STRIP_LENGTH))).
    { intros p. unfold getSymbolAt. rewrite E, wrapped_position by (rewrite Hlen; reflexivity).
      now rewrite Hlen. }
    destruct (index_valid strip (position mod STRIP_LENGTH)) as (s & Hs & Hvalid).
    { exact (getStrip_symbols _ _ _ E). }
    { rewrite Hlen. apply Z.mod_pos_bound. reflexivity. }
    exists strip, s. split; [assumption |]. split; [now rewrite Hat, Hs |].
    split; [assumption |]. split; [assumption |].
    intros k. rewrite !Hat. now rewrite Z_mod_plus_full.
  - intros Hout. unfold getSymbolAt. rewrite getStrip_in_range.
    destruct (Z.ltb_spec column 0); [reflexivity |].
    destruct (Z.geb_spec column 6); [reflexivity | lia].
Qed.

Lemma getSymbolAt_wraps_witness :
  getSymbolAt 0 (-1) false = Returns (Some "infinity_glove") /\
  getSymbolAt 6 0 false = Throws (InvalidColumnIndex 6).
Proof.
  destruct (getSymbolAt_wraps 0 (-1) false) as [Hin _].
  destruct (getSymbolAt_wraps 6 0 false) as [_ Hout].
  destruct (Hin ltac:(lia)) as (strip & s & _ & Hat & _).
  split; [| apply Hout; lia].
  pose proof Hat as Hc. vm_compute in Hc. injection Hc as <-. exact Hat.
Defined.

(** ** Cells of a reconstructed grid *)

Lemma In_zseq (n : nat) :
  forall i j : Z, In j (zseq i n) <-> i <= j < i + Z.of_nat n.
Proof.
  induction n as [| n IH]; intros i j; cbn [zseq In].
  - lia.
  - rewrite IH. lia.
Qed.



(** What the loops read at a position that may be negative. *)
Lemma read_cell_integer (strip : list string) (q0 r : Z) :
  JS.length strip = STRIP_LENGTH ->
  read_cell strip (Some q0) r
  = if (0 <=? q0 + r) || ((q0 + r) mod STRIP_LENGTH =? 0)
    then JS.index strip ((q0 + r) mod STRIP_LENGTH)
    else None.
Proof.
  intros Hlen. unfold read_cell, JS.rem. rewrite Hlen.
  change (STRIP_LENGTH =? 0) with false. cbn [JS.index_num].
  set (q := q0 + r).
  destruct (Z.leb_spec 0 q) as [Hq | Hq]; cbn [orb].
  - now rewrite Z.rem_mod_nonneg by (unfold STRIP_LENGTH; lia).
  - pose proof (Z.rem_bound_abs q STRIP_LENGTH ltac:(discriminate)) as Habs.
    pose proof (Z.rem_nonpos q STRIP_LENGTH ltac:(lia)) as Hneg.
    pose proof (Z.quot_rem' q STRIP_LENGTH) as Hqr.
    assert (Hmod : q mod STRIP_LENGTH = (Z.rem q STRIP_LENGTH) mod STRIP_LENGTH).
    { rewrite Hqr at 1. rewrite Z.add_comm, Z.mul_comm. apply Z_mod_plus_full. }
    destruct (Z.eqb_spec (q mod STRIP_LENGTH) 0) as [E | E].
    + assert (Hz : Z.rem q STRIP_LENGTH = 0).
      { destruct (Z.eq_dec (Z.rem q STRIP_LENGTH) 0) as [? | Hnz]; [assumption |].
        exfalso. rewrite Hmod in E.
        replace (Z.rem q STRIP_LENGTH) with (Z.rem q STRIP_LENGTH + STRIP_LENGTH + (-1) * STRIP_LENGTH) in E by lia.
        rewrite Z_mod_plus_full in E.
        rewrite Z.mod_small in E by (unfold STRIP_LENGTH in *; lia). lia. }
      now rewrite Hz, E.
    + assert (Hlt : Z.rem q STRIP_LENGTH < 0).
      { destruct (Z.eq_dec (Z.rem q STRIP_LENGTH) 0) as [Hz | Hnz]; [| lia].
        rewrite Hz in Hmod. now rewrite Hmod in E. }
      unfold JS.index. destruct (Z.ltb_spec (Z.rem q STRIP_LENGTH) 0); [reflexivity | lia].
Qed.





(** ** The grid and the symbol counts of a generated grid *)

Lemma for_pure_invariant {S : Type} (Inv : S -> Prop) (body : Z -> S -> Outcome S) :
  (forall (i : Z) (s s' : S), Inv s -> body i s = Returns s' -> Inv s') ->
  forall (n : nat) (i : Z) (s s' : S),
    Inv s -> for_pure n i body s = Returns s' -> Inv s'.
Proof.
  intros Hstep. induction n as [| n IH]; intros i s s' Hs Hrun; cbn in Hrun.
  - now injection Hrun as <-.
  - destruct (body i s) as [s1 | e] eqn:E; [| discriminate].
    eapply IH; [eapply Hstep; eassumption | exact Hrun].
Qed.

Lemma count_of_count_symbol (key key' : string) (counts : SymbolCounts) :
  count_of key' (count_symbol key counts)
  = count_of key' counts + (if (key =? key')%string then 1 else 0).
Proof.
  unfold count_of. induction counts as [| [k n] rest IH]; cbn.
  - destruct (String.eqb_spec key key'); lia.
  - destruct (String.eqb_spec k key) as [-> | Hk]; cbn.
    + destruct (String.eqb_spec key key'); lia.
    + destruct (String.eqb_spec k key') as [-> | Hk'].
      * destruct (String.eqb_spec key key'); [congruence | lia].
      * exact IH.
Qed.

Lemma total_count_count_symbol (key : string) (counts : SymbolCounts) :
  total_count (count_symbol key counts) = total_count counts + 1.
Proof.
  induction counts as [| [k n] rest IH]; cbn [count_symbol total_count]; [reflexivity |].
  destruct (k =? key)%string; cbn [total_count]; lia.
Qed.

Lemma keys_count_symbol (key : string) (counts : SymbolCounts) :
  map fst (count_symbol key counts)
  = if existsb (fun k => (k =? key)%string) (map fst counts)
    then map fst counts else map fst counts ++ [key].
Proof.
  induction counts as [| [k n] rest IH]; cbn; [reflexivity |].
  destruct (k =? key)%string; cbn; [reflexivity |].
  rewrite IH. now destruct (existsb _ (map fst rest)).
Qed.

Lemma NoDup_count_symbol (key : string) (counts : SymbolCounts) :
  NoDup (map fst counts) -> NoDup (map fst (count_symbol key counts)).
Proof.
  intros Hnd. rewrite keys_count_symbol.
  destruct (existsb (fun k => (k =? key)%string) (map fst counts)) eqn:E; [assumption |].
  apply NoDup_app; [assumption | repeat constructor; intros [] |].
  intros k Hin [-> | []].
  assert (Ht : existsb (fun k' => (k' =? k)%string) (map fst counts) = true).
  { apply existsb_exists. exists k. split; [assumption | apply String.eqb_refl]. }
  congruence.
Qed.

Lemma positive_count_symbol (key : string) (counts : SymbolCounts) :
  Forall (fun entry => 0 < snd entry) counts ->
  Forall (fun entry => 0 < snd entry) (count_symbol key counts).
Proof.
  induction counts as [| [k n] rest IH]; intros Hall; cbn.
  - repeat constructor.
  - inversion Hall as [| ? ? Hn Hrest]; subst. cbn in Hn.
    destruct (k =? key)%string; constructor; cbn; try lia; auto.
Qed.

(** The counts after a run of cells. *)
Lemma count_cells (cells : list string) :
  forall counts : SymbolCounts,
    let counts' := fold_left (fun counts key => count_symbol key counts) cells counts in
    (forall key, count_of key counts' = count_of key counts + occurrences key cells) /\
    total_count counts' = total_count counts + JS.length cells /\
    (NoDup (map fst counts) -> NoDup (map fst counts')) /\
    (Forall (fun entry => 0 < snd entry) counts ->
     Forall (fun entry => 0 < snd entry) counts').
Proof.
  induction cells as [| cell rest IH]; intros counts; cbn.
  - unfold occurrences, JS.length. cbn. repeat split; auto; intros; lia.
  - destruct (IH (count_symbol cell counts)) as (H1 & H2 & H3 & H4).
    split; [| split; [| split]].
    + intros key. rewrite H1, count_of_count_symbol.
      unfold occurrences, JS.length. cbn [filter].
      destruct (String.eqb_spec cell key); cbn [List.length]; lia.
    + rewrite H2, total_count_count_symbol. unfold JS.length. cbn [List.length]. lia.
    + intros Hnd. apply H3. now apply NoDup_count_symbol.
    + intros Hpos. apply H4. now apply positive_count_symbol.
Qed.

(** The counts the two loops of [generateInitialGrid] build are the counts
    of the cells of the grid they build, in the order of the loops. *)
Lemma generateInitialGrid_rows_counts (g : Generator) (strip : option (list string))
    (stopPos : option Z) (counts counts' : SymbolCounts) (column : list (option string)) :
  generateInitialGrid_rows g strip stopPos counts = Returns (column, counts') ->
  counts' = fold_left (fun counts key => count_symbol key counts)
                      (map JS.show_opt column) counts.
Proof.
  unfold generateInitialGrid_rows.
  apply (for_pure_invariant
           (fun s => snd s = fold_left (fun counts key => count_symbol key counts)
                                       (map JS.show_opt (fst s)) counts)
           _ ) with (s' := (column, counts')); [| reflexivity].
  intros i [col1 c1] [col2 c2] Hinv Hbody. cbn [fst snd] in *.
  destruct strip as [strip |]; [| discriminate].
  injection Hbody as <- <-.
  now rewrite map_app, fold_left_app, <- Hinv.
Qed.

Lemma generateInitialGrid_columns_counts (g : Generator) (strips : list (list string))
    (stopPositions : list Z) (grid : Grid) (counts : SymbolCounts) :
  generateInitialGrid_columns g strips stopPositions = Returns (grid, counts) ->
  counts = fold_left (fun counts key => count_symbol key counts) (counted_cells grid) [].
Proof.
  unfold generateInitialGrid_columns, counted_cells.
  apply (for_pure_invariant
           (fun s => snd s = fold_left (fun counts key => count_symbol key counts)
                                       (map JS.show_opt (List.concat (fst s))) [])
           _ ) with (s' := (grid, counts)); [| reflexivity].
  intros i [gr1 c1] [gr2 c2] Hinv Hbody. cbn [fst snd] in *.
  destruct (generateInitialGrid_rows g (JS.index strips i) (JS.index stopPositions i) c1)
    as [[column c1'] | e] eqn:Erows; [| discriminate].
  injection Hbody as <- <-.
  apply generateInitialGrid_rows_counts in Erows.
  rewrite List.concat_app. cbn [List.concat]. rewrite app_nil_r, map_app, fold_left_app, <- Hinv.
  exact Erows.
Qed.

(** X5. The symbol counts of a generated grid are an exact tally of its
    cells: whenever [generateInitialGrid] returns, on any generator, every
    key is counted once ([symbolCounts] has no two entries for a key), the
    count under a key is the number of cells of the grid that hold it (0
    for a key that is absent), every entry is positive, and the counts add
    up to the number of cells. *)
Theorem symbolCounts_tally (rng : EntropyProvider) (g : Generator)
    (options : GridOptions) (w : World rng) (result : GridResult) :
  fst (generateInitialGrid rng g options w) = Returns result ->
  NoDup (map fst (symbolCounts result)) /\
  (forall key : string,
      count_of key (symbolCounts result)
      = occurrences key (counted_cells (grid result))) /\
  Forall (fun entry => 0 < snd entry) (symbolCounts result) /\
  total_count (symbolCounts result) = JS.length (List.concat (grid result)).
Proof.
  intros Hgen.
  destruct (generateInitialGrid_run rng g options w) as (w' & _ & Hrun).
  destruct (generateInitialGrid_columns g (getStrips (freeSpinsMode options))
              (stop_positions rng (Z.to_nat (cols g)) (seed options) (source w)))
    as [[gr counts] | e] eqn:Ecols.
  - destruct Hrun as [md Hrun]. rewrite Hrun in Hgen. cbn [fst] in Hgen.
    injection Hgen as <-. cbn [symbolCounts grid].
    apply generateInitialGrid_columns_counts in Ecols.
    destruct (count_cells (counted_cells gr) []) as (H1 & H2 & H3 & H4).
    cbv zeta in H1, H2, H3, H4. rewrite <- Ecols in H1, H2, H3, H4.
    split; [apply H3; constructor |].
    split; [intros key; rewrite H1; reflexivity |].
    split; [apply H4; constructor |].
    rewrite H2. unfold counted_cells, JS.length. rewrite length_map. reflexivity.
  - rewrite Hrun in Hgen. discriminate.
Qed.

Lemma symbolCounts_tally_witness :
  exists result : GridResult,
    fst (generateInitialGrid sampleRNG defaultGenerator
           {| freeSpinsMode := false; seed := Some "seed-X" |} (sampleWorld 0))
    = Returns result /\
    total_count (symbolCounts result) = 30 /\
    count_of "no_such_symbol" (symbolCounts result) = 0.
Proof.
  eexists. split.
  - vm_compute. reflexivity.
  - match goal with
    | |- total_count (symbolCounts ?r) = _ /\ _ =>
        destruct (symbolCounts_tally sampleRNG defaultGenerator
                    {| freeSpinsMode := false; seed := Some "seed-X" |} (sampleWorld 0) r)
          as (_ & Hcount & _ & Htotal)
    end.
    + vm_compute. reflexivity.
    + split; [rewrite Htotal | rewrite Hcount]; reflexivity.
Defined.

(** X6. Shape and alphabet of a generated grid: on a generator of 6
    columns, in either mode and with any seed or none,
    [generateInitialGrid] returns a grid of 6 columns, each of [rows] cells
    (none when [rows] is negative), and every cell is a symbol of the
    10-symbol alphabet, never [undefined]. *)
Theorem generated_grid_is_well_formed (rng : EntropyProvider) (g : Generator)
    (options : GridOptions) (w : World rng) :
  cols g = 6 ->
  exists (result : GridResult) (w' : World rng),
    generateInitialGrid rng g options w = (Returns result, w') /\
    JS.length (grid result) = 6 /\
    Forall (fun column =>
              JS.length column = Z.max 0 (rows g) /\
              Forall (fun cell => exists s, cell = Some s /\ In s validSymbols) column)
           (grid result).
Proof.
  intros Hcols.
  destruct (generateInitialGrid_run rng g options w) as (w' & _ & Hrun).
  set (sp := stop_positions rng (Z.to_nat (cols g)) (seed options) (source w)) in *.
  destruct (generateInitialGrid_columns_returns g (getStrips (freeSpinsMode options)) sp)
    as [counts Ecols].
  { rewrite getStrips_length. lia. }
  rewrite Ecols in Hrun. destruct Hrun as [md Hrun].
  eexists. exists w'. split; [exact Hrun |]. cbn [grid].
  split.
  - unfold JS.length. rewrite length_map, zseq_length. lia.
  - apply Forall_map, Forall_forall. intros c Hc. apply In_zseq in Hc.
    destruct (getStrips_index (freeSpinsMode options) c ltac:(lia))
      as (strip & Hidx & Hnth & Hlen).
    rewrite Hnth. unfold window. split.
    + unfold JS.length. rewrite length_map, zseq_length. lia.
    + apply Forall_map, Forall_forall. intros r Hr. apply In_zseq in Hr.
      destruct (index_in_range sp c) as [p Hp].
      { unfold JS.length, sp. rewrite stop_positions_length. lia. }
      assert (Hrange : 0 <= p < STRIP_LENGTH).
      { pose proof (stop_positions_range rng (Z.to_nat (cols g)) (seed options) (source w))
          as Hall.
        rewrite Forall_forall in Hall. apply Hall.
        unfold JS.index in Hp. destruct (c <? 0); [discriminate |].
        eapply nth_error_In, Hp. }
      rewrite Hp, (read_cell_integer strip p r Hlen).
      destruct (Z.leb_spec 0 (p + r)); [| lia]. cbn [orb].
      destruct (index_valid strip ((p + r) mod STRIP_LENGTH)) as (s & Hs & Hvalid).
      * assert (E : getStrip c (freeSpinsMode options) = Returns strip).
        { rewrite getStrip_in_range.
          destruct (Z.ltb_spec c 0); [lia |]. destruct (Z.geb_spec c 6); [lia |].
          cbn. now rewrite Hnth. }
        exact (getStrip_symbols _ _ _ E).
      * rewrite Hlen. apply Z.mod_pos_bound. reflexivity.
      * exists s. now split.
Qed.

Lemma generated_grid_is_well_formed_witness :
  exists (result : GridResult) (w' : World sampleRNG),
    generateInitialGrid sampleRNG {| rows := 0 - 2; cols := 6; auditLogging := true |}
      {| freeSpinsMode := true; seed := None |} (sampleWorld 5)
    = (Returns result, w') /\
    JS.length (grid result) = 6 /\
    Forall (fun column =>
              JS.length column = 0 /\
              Forall (fun cell => exists s, cell = Some s /\ In s validSymbols) column)
           (grid result).
Proof.
  apply (generated_grid_is_well_formed sampleRNG
           {| rows := 0 - 2; cols := 6; auditLogging := true |}
           {| freeSpinsMode := true; seed := None |} (sampleWorld 5)).
  reflexivity.
Defined.

(** ** What the methods do to the world *)

Section Effects.

Variable rng : EntropyProvider.

Local Open Scope engine_scope.

(** The world after [logAuditEvent]: one event more when logging is on,
    stamped with a reading of the clock, and nothing else. *)
Lemma logAuditEvent_effects (g : Generator) (ev : string) (d : AuditData) (w : World rng) :
  exists w',
    logAuditEvent rng g ev d w = (Returns tt, w') /\
    statistics w' = statistics w /\ source w' = source w /\
    entropyCalls w' = entropyCalls w /\ clock w' = clock w /\
    auditTrail w'
    = auditTrail w
        ++ (if auditLogging g
            then [ {| timestamp := clock w (ticks w); event := ev; data := d |} ]
            else []).
Proof.
  unfold logAuditEvent. destruct (auditLogging g); cbn.
  - eexists. split; [reflexivity |]. cbn. now repeat split.
  - exists w. split; [reflexivity |]. rewrite app_nil_r. now repeat split.
Qed.

Lemma Date_now_effects (w : World rng) :
  exists w',
    Date_now rng w = (Returns (clock w (ticks w)), w') /\
    statistics w' = statistics w /\ source w' = source w /\
    entropyCalls w' = entropyCalls w /\ clock w' = clock w /\
    auditTrail w' = auditTrail w.
Proof. eexists. split; [reflexivity |]. cbn. now repeat split. Qed.

Lemma generateStopPositions_effects (g : Generator) (seed : option string) (w : World rng) :
  exists (w' : World rng) (t : Z),
    generateStopPositions rng g seed w
    = (Returns (stop_positions rng (Z.to_nat (cols g)) seed (source w)), w') /\
    statistics w' = statistics w /\ clock w' = clock w /\
    entropyCalls w' = entropyCalls w ++ stop_calls rng (Z.to_nat (cols g)) seed (source w) /\
    auditTrail w'
    = auditTrail w
        ++ (if auditLogging g
            then [ {| timestamp := t; event := "STOP_POSITIONS_GENERATED";
                      data := StopPositionsGenerated
                                (stop_positions rng (Z.to_nat (cols g)) seed (source w))
                                (JS.truthy seed) STRIP_LENGTH |} ]
            else []).
Proof.
  unfold generateStopPositions, stop_positions, stop_calls.
  destruct (when_truthy seed) as [s |].
  - set (us := fst (stream_draws rng (Z.to_nat (cols g)) (createSeededRNG rng s))).
    set (sp := map (fun u => Math_floor_mul u STRIP_LENGTH) us).
    set (w1 := drawn rng w (source w) (CallCreateSeededRNG s :: map CallSeededRNG us)).
    destruct (logAuditEvent_effects g "STOP_POSITIONS_GENERATED"
                (StopPositionsGenerated sp (JS.truthy seed) STRIP_LENGTH) w1)
      as (w' & E & Qs & Qe & Qc & Qk & Qa).
    exists w', (clock w1 (ticks w1)). split; [| now repeat split].
    erewrite bind_returns; [erewrite bind_returns; [reflexivity | exact E] |].
    erewrite bind_returns; [| reflexivity].
    erewrite bind_returns; [| apply for_M_seeded].
    unfold ret. cbn [snd app]. f_equal.
    unfold w1, drawn. cbn. now rewrite <- app_assoc.
  - set (rs := fst (live_draws rng 0 (STRIP_LENGTH - 1) (Z.to_nat (cols g)) (source w))).
    set (w1 := drawn rng w
                 (snd (live_draws rng 0 (STRIP_LENGTH - 1) (Z.to_nat (cols g)) (source w)))
                 (map (CallRandomInt 0 (STRIP_LENGTH - 1)) rs)).
    destruct (logAuditEvent_effects g "STOP_POSITIONS_GENERATED"
                (StopPositionsGenerated rs (JS.truthy seed) STRIP_LENGTH) w1)
      as (w' & E & Qs & Qe & Qc & Qk & Qa).
    exists w', (clock w1 (ticks w1)). split; [| now repeat split].
    erewrite bind_returns; [erewrite bind_returns; [reflexivity | exact E] |].
    apply for_M_live.
Qed.

End Effects.

(** The world and the result after a [generateInitialGrid] that returns. *)
Lemma generateInitialGrid_world (rng : EntropyProvider) (g : Generator)
    (options : GridOptions) (w w' : World rng) (result : GridResult) :
  generateInitialGrid rng g options w = (Returns result, w') ->
  statistics w'
  = {| gridsGenerated := gridsGenerated (statistics w) + 1;
       symbolsGenerated := symbolsGenerated (statistics w) + cols g * rows g;
       replacementSymbolsGenerated := replacementSymbolsGenerated (statistics w);
       lastStopPositions := Some (stopPositions result);
       initialized := initialized (statistics w) |} /\
  (exists t1 t2 : Z,
      auditTrail w'
      = auditTrail w
          ++ (if auditLogging g
              then [ {| timestamp := t1; event := "STOP_POSITIONS_GENERATED";
                        data := StopPositionsGenerated (stopPositions result)
                                  (JS.truthy (seed options)) STRIP_LENGTH |};
                     {| timestamp := t2; event := "GRID_GENERATED_FROM_STRIPS";
                        data := GridGeneratedFromStrips (stopPositions result)
                                  STRIP_VERSION (freeSpinsMode options)
                                  (symbolCounts result)
                                  (generationTimeMs (metadata result)) |} ]
              else [])) /\
  stripVersion result = STRIP_VERSION /\
  rngCalls (metadata result) = cols g /\
  meta_seeded (metadata result) = JS.truthy (seed options) /\
  meta_freeSpinsMode (metadata result) = freeSpinsMode options.
Proof.
  intros Hgen. unfold generateInitialGrid in Hgen.
  destruct (Date_now_effects rng w) as (w1 & E1 & Q1s & Q1e & Q1c & Q1k & Q1a).
  destruct (generateStopPositions_effects rng g (seed options) w1)
    as (w2 & t1 & E2 & Q2s & Q2k & Q2c & Q2a).
  rewrite Q1e in E2, Q2a.
  erewrite bind_returns in Hgen by exact E1.
  erewrite bind_returns in Hgen by exact E2.
  destruct (generateInitialGrid_columns g (getStrips (freeSpinsMode options))
              (stop_positions rng (Z.to_nat (cols g)) (seed options) (source w)))
    as [[gr counts] | e] eqn:Ecols.
  - erewrite bind_returns in Hgen by reflexivity.
    cbv beta iota in Hgen.
    destruct (Date_now_effects rng w2) as (w3 & E3 & Q3s & Q3e & Q3c & Q3k & Q3a).
    erewrite bind_returns in Hgen by exact E3.
    erewrite bind_returns in Hgen by reflexivity.
    match type of Hgen with
    | bind (logAuditEvent rng g ?ev ?d) _ ?w4 = _ =>
        destruct (logAuditEvent_effects rng g ev d w4)
          as (w5 & E5 & Q5s & Q5e & Q5c & Q5k & Q5a)
    end.
    erewrite bind_returns in Hgen by exact E5.
    unfold ret in Hgen. injection Hgen as <- <-.
    cbn [stopPositions symbolCounts metadata generationTimeMs stripVersion rngCalls
           meta_seeded meta_freeSpinsMode].
    split.
    + rewrite Q5s. cbn. now rewrite Q3s, Q2s, Q1s.
    + split; [| now repeat split].
      eexists t1, _. rewrite Q5a. cbn [auditTrail]. rewrite Q3a, Q2a, Q1a.
      destruct (auditLogging g).
      * rewrite <- app_assoc. cbn [app]. reflexivity.
      * now rewrite !app_nil_r.
  - erewrite bind_throws in Hgen by reflexivity. discriminate.
Qed.

(** X7. What a successful [generateInitialGrid] leaves behind, on any
    generator: one grid more and [cols * rows] symbols more in the
    statistics, the returned stop positions as the last ones, the count of
    replacements and the start time untouched; with logging on, exactly
    two events, the stop positions then the grid, that carry the returned
    stop positions, symbol counts and generation time, and with logging
    off no event; and a result that reports [STRIP_VERSION], [cols] as the
    number of calls and whether the seed was truthy. *)
Theorem generateInitialGrid_effects (rng : EntropyProvider) (g : Generator)
    (options : GridOptions) (w w' : World rng) (result : GridResult) :
  generateInitialGrid rng g options w = (Returns result, w') ->
  statistics w'
  = {| gridsGenerated := gridsGenerated (statistics w) + 1;
       symbolsGenerated := symbolsGenerated (statistics w) + cols g * rows g;
       replacementSymbolsGenerated := replacementSymbolsGenerated (statistics w);
       lastStopPositions := Some (stopPositions result);
       initialized := initialized (statistics w) |} /\
  (exists t1 t2 : Z,
      auditTrail w'
      = auditTrail w
          ++ (if auditLogging g
              then [ {| timestamp := t1; event := "STOP_POSITIONS_GENERATED";
                        data := StopPositionsGenerated (stopPositions result)
                                  (JS.truthy (seed options)) STRIP_LENGTH |};
                     {| timestamp := t2; event := "GRID_GENERATED_FROM_STRIPS";
                        data := GridGeneratedFromStrips (stopPositions result)
                                  STRIP_VERSION (freeSpinsMode options)
                                  (symbolCounts result)
                                  (generationTimeMs (metadata result)) |} ]
              else [])) /\
  stripVersion result = STRIP_VERSION /\
  rngCalls (metadata result) = cols g /\
  meta_seeded (metadata result) = JS.truthy (seed options) /\
  meta_freeSpinsMode (metadata result) = freeSpinsMode options.
Proof.
  intros Hgen. unfold generateInitialGrid in Hgen.
  destruct (Date_now_effects rng w) as (w1 & E1 & Q1s & Q1e & Q1c & Q1k & Q1a).
  destruct (generateStopPositions_effects rng g (seed options) w1)
    as (w2 & t1 & E2 & Q2s & Q2k & Q2c & Q2a).
  rewrite Q1e in E2, Q2a.
  erewrite bind_returns in Hgen by exact E1.
  erewrite bind_returns in Hgen by exact E2.
  destruct (generateInitialGrid_columns g (getStrips (freeSpinsMode options))
              (stop_positions rng (Z.to_nat (cols g)) (seed options) (source w)))
    as [[gr counts] | e] eqn:Ecols.
  - erewrite bind_returns in Hgen by reflexivity.
    cbv beta iota in Hgen.
    destruct (Date_now_effects rng w2) as (w3 & E3 & Q3s & Q3e & Q3c & Q3k & Q3a).
    erewrite bind_returns in Hgen by exact E3.
    erewrite bind_returns in Hgen by reflexivity.
    match type of Hgen with
    | bind (logAuditEvent rng g ?ev ?d) _ ?w4 = _ =>
        destruct (logAuditEvent_effects rng g ev d w4)
          as (w5 & E5 & Q5s & Q5e & Q5c & Q5k & Q5a)
    end.
    erewrite bind_returns in Hgen by exact E5.
    unfold ret in Hgen. injection Hgen as <- <-.
    cbn [stopPositions symbolCounts metadata generationTimeMs stripVersion rngCalls
           meta_seeded meta_freeSpinsMode].
    split.
    + rewrite Q5s. cbn. now rewrite Q3s, Q2s, Q1s.
    + split; [| now repeat split].
      eexists t1, _. rewrite Q5a. cbn [auditTrail]. rewrite Q3a, Q2a, Q1a.
      destruct (auditLogging g).
      * rewrite <- app_assoc. cbn [app]. reflexivity.
      * now rewrite !app_nil_r.
  - erewrite bind_throws in Hgen by reflexivity. discriminate.
Qed.

Lemma generateInitialGrid_effects_witness :
  let run :=
    generateInitialGrid sampleRNG defaultGenerator
      {| freeSpinsMode := false; seed := Some "seed-X" |} (sampleWorld 0) in
  gridsGenerated (statistics (snd run)) = 1 /\
  symbolsGenerated (statistics (snd run)) = 30 /\
  map event (auditTrail (snd run))
  = ["STOP_POSITIONS_GENERATED"; "GRID_GENERATED_FROM_STRIPS"].
Proof.
  intros run.
  destruct (fst run) as [result | e] eqn:Efst; [| vm_compute in Efst; discriminate].
  destruct (generateInitialGrid_effects sampleRNG defaultGenerator
              {| freeSpinsMode := false; seed := Some "seed-X" |} (sampleWorld 0)
              (snd run) result) as (Hstats & (t1 & t2 & Haudit) & _).
  - rewrite <- Efst. apply surjective_pairing.
  - rewrite Hstats, Haudit. now repeat split.
Defined.

(** ** A generator with more columns than strips *)

Lemma for_pure_app {St : Type} (body : Z -> St -> Outcome St) (a b : nat) :
  forall (i : Z) (s : St),
    for_pure (a + b) i body s
    = match for_pure a i body s with
      | Returns s' => for_pure b (i + Z.of_nat a) body s'
      | Throws e => Throws e
      end.
Proof.
  induction a as [| a IH]; intros i s.
  - cbn. now rewrite Z.add_0_r.
  - cbn [Nat.add for_pure]. destruct (body i s) as [s1 | e]; [| reflexivity].
    rewrite IH. replace (i + 1 + Z.of_nat a) with (i + Z.of_nat (S a)) by lia.
    reflexivity.
Qed.

(** With more columns than strips and a row at least, the column loop of
    reconstruction stops at the first column that has no strip. *)
Lemma reconstructGrid_columns_beyond_strips (g : Generator) (strips : list (list string))
    (stopPositions : list Z) :
  JS.length strips < cols g -> 0 < rows g ->
  reconstructGrid_columns g strips stopPositions = Throws TypeError.
Proof.
  intros Hcols Hrows. unfold reconstructGrid_columns, JS.length in *.
  replace (Z.to_nat (cols g))
    with (List.length strips + S (Z.to_nat (cols g) - List.length strips - 1))%nat by lia.
  rewrite for_pure_app.
  rewrite (for_pure_collect
             (fun c => window g (nth (Z.to_nat c) strips []) (JS.index stopPositions c))).
  - cbn [for_pure]. rewrite Z.add_0_l.
    assert (Hnone : JS.index strips (Z.of_nat (List.length strips)) = None).
    { unfold JS.index. destruct (Z.ltb_spec (Z.of_nat (List.length strips)) 0); [reflexivity |].
      apply nth_error_None. lia. }
    rewrite Hnone. unfold reconstructGrid_rows.
    destruct (Z.to_nat (rows g)) as [| n] eqn:En; [lia | reflexivity].
  - intros j acc Hj.
    assert (Hlt : (Z.to_nat j < List.length strips)%nat) by lia.
    unfold JS.index at 1. destruct (Z.ltb_spec j 0) as [? | _]; [lia |].
    rewrite (nth_error_nth' strips [] Hlt).
    now rewrite reconstructGrid_rows_window.
Qed.

(** X8. A generator built with more than 6 columns (and a row at least)
    cannot make a grid: [generateInitialGrid] throws the engine's
    [TypeError] at the first column without a strip, after it has drawn
    one stop position for every column, and leaves the statistics as they
    were; [reconstructGrid], given one position a column and an accepted
    version, throws the same error and leaves the world as it was. *)
Theorem more_columns_than_strips (rng : EntropyProvider) (g : Generator)
    (options : GridOptions) (positions : list Z) (v : option string) (w : World rng) :
  6 < cols g -> 0 < rows g ->
  (exists (w' : World rng) (calls : list EntropyCall),
      generateInitialGrid rng g options w = (Throws TypeError, w') /\
      statistics w' = statistics w /\
      entropyCalls w' = entropyCalls w ++ calls /\
      JS.length (filter is_draw calls) = cols g) /\
  (v = None \/ v = Some STRIP_VERSION ->
   JS.length positions = cols g ->
   reconstructGrid rng g (StopArray positions) (freeSpinsMode options) v w
   = (Throws TypeError, w)).
Proof.
  intros Hcols Hrows. split.
  - destruct (generateInitialGrid rng g options w) as [o w'] eqn:Hgen.
    unfold generateInitialGrid in Hgen.
    destruct (Date_now_effects rng w) as (w1 & E1 & Q1s & Q1e & Q1c & Q1k & Q1a).
    destruct (generateStopPositions_effects rng g (seed options) w1)
      as (w2 & t1 & E2 & Q2s & Q2k & Q2c & Q2a).
    erewrite bind_returns in Hgen by exact E1.
    erewrite bind_returns in Hgen by exact E2.
    pose proof (generateInitialGrid_columns_fst g (getStrips (freeSpinsMode options))
                  (stop_positions rng (Z.to_nat (cols g)) (seed options) (source w1)))
      as Hfst.
    rewrite reconstructGrid_columns_beyond_strips in Hfst
      by (rewrite ?getStrips_length; lia).
    destruct (generateInitialGrid_columns g (getStrips (freeSpinsMode options))
                (stop_positions rng (Z.to_nat (cols g)) (seed options) (source w1)))
      as [[gr counts] | e]; [discriminate |].
    cbn in Hfst. injection Hfst as ->.
    erewrite bind_throws in Hgen by reflexivity.
    injection Hgen as <- <-.
    exists w2, (stop_calls rng (Z.to_nat (cols g)) (seed options) (source w1)).
    split; [reflexivity |]. split; [congruence |]. split; [congruence |].
    destruct (stop_calls_draws rng (Z.to_nat (cols g)) (seed options) (source w1))
      as [Hdraws _].
    unfold JS.length. rewrite Hdraws. lia.
  - intros Hv Hlen. unfold reconstructGrid.
    assert (E : negb ((match v with Some v => v | None => STRIP_VERSION end)
                      =? STRIP_VERSION)%string = false).
    { destruct Hv as [-> | ->]; reflexivity. }
    rewrite E, Hlen, Z.eqb_refl. cbn [negb].
    rewrite reconstructGrid_columns_beyond_strips by (rewrite ?getStrips_length; lia).
    reflexivity.
Qed.

Lemma more_columns_than_strips_witness :
  let g := {| rows := 5; cols := 7; auditLogging := true |} in
  fst (generateInitialGrid sampleRNG g {| freeSpinsMode := false; seed := None |}
         (sampleWorld 0))
  = Throws TypeError /\
  reconstructGrid sampleRNG g (StopArray [0; 0; 0; 0; 0; 0; 0]) false None (sampleWorld 0)
  = (Throws TypeError, sampleWorld 0).
Proof.
  intros g.
  destruct (more_columns_than_strips sampleRNG g
              {| freeSpinsMode := false; seed := None |} [0; 0; 0; 0; 0; 0; 0] None
              (sampleWorld 0)) as [(w' & calls & Hgen & _) Hrec].
  - cbn. lia.
  - cbn. lia.
  - split; [now rewrite Hgen |]. apply Hrec; [now left | reflexivity].
Defined.

(** ** Reconstruction and the world *)

(** X9. [reconstructGrid] consumes no entropy and leaves a trace only when
    it succeeds: whatever its arguments, it makes no call to the provider
    and leaves the live source as it was; when it throws, the world is as
    it was; when it returns, the world differs by one
    [GRID_RECONSTRUCTED] event at most, emitted when logging is on, that
    carries the stop positions, the version and the mode of the call. *)
Theorem reconstructGrid_effects (rng : EntropyProvider) (g : Generator)
    (stopPositions : StopArg) (freeSpinsMode : bool) (v : option string)
    (w : World rng) :
  let run := reconstructGrid rng g stopPositions freeSpinsMode v w in
  entropyCalls (snd run) = entropyCalls w /\
  source (snd run) = source w /\
  (forall e : Error, fst run = Throws e -> snd run = w) /\
  (forall grid : Grid,
      fst run = Returns grid ->
      auditTrail (snd run)
      = auditTrail w
          ++ (if auditLogging g
              then [ {| timestamp := clock w (ticks w);
                        event := "GRID_RECONSTRUCTED";
                        data := GridReconstructed stopPositions
                                  (match v with Some v => v | None => STRIP_VERSION end)
                                  freeSpinsMode |} ]
              else [])).
Proof.
  cbv zeta. unfold reconstructGrid.
  destruct (negb _); [cbn; repeat split; intros; try reflexivity; discriminate |].
  destruct stopPositions as [| positions];
    [cbn; repeat split; intros; try reflexivity; discriminate |].
  destruct (negb _); [cbn; repeat split; intros; try reflexivity; discriminate |].
  destruct (reconstructGrid_columns g (getStrips freeSpinsMode) positions)
    as [gr | e] eqn:Ecols.
  - erewrite bind_returns by reflexivity.
    match goal with
    | |- context [bind (logAuditEvent rng g ?ev ?d) _ ?w0] =>
        destruct (logAuditEvent_effects rng g ev d w0)
          as (w' & E' & Qs & Qe & Qc & Qk & Qa)
    end.
    erewrite bind_returns by exact E'. cbn [fst snd ret].
    repeat split; try assumption; intros; [discriminate | exact Qa].
  - erewrite bind_throws by reflexivity. cbn.
    repeat split; intros; try reflexivity; discriminate.
Qed.

(** ** Logging switched off *)

Section Silence.

Variable rng : EntropyProvider.

Local Open Scope engine_scope.

Lemma keeps_bind {A B : Type} (m : M rng A) (k : A -> M rng B) :
  keeps_auditTrail m -> (forall a, keeps_auditTrail (k a)) -> keeps_auditTrail (bind m k).
Proof.
  intros Hm Hk w. unfold bind. specialize (Hm w).
  destruct (m w) as [[a | e] w1]; cbn in *; [| assumption].
  now rewrite Hk.
Qed.

Lemma keeps_ret {A : Type} (a : A) : keeps_auditTrail (ret (rng := rng) a).
Proof. intros w. reflexivity. Qed.

Lemma keeps_throw {A : Type} (e : Error) : keeps_auditTrail (throw (rng := rng) (A := A) e).
Proof. intros w. reflexivity. Qed.

Lemma keeps_lift {A : Type} (o : Outcome A) : keeps_auditTrail (lift (rng := rng) o).
Proof. intros w. reflexivity. Qed.

Lemma keeps_Date_now : keeps_auditTrail (Date_now rng).
Proof. intros w. reflexivity. Qed.

Lemma keeps_modify_statistics (f : Statistics -> Statistics) :
  keeps_auditTrail (modify_statistics rng f).
Proof. intros w. reflexivity. Qed.

Lemma keeps_rng_randomInt (lo hi : Z) : keeps_auditTrail (rng_randomInt rng lo hi).
Proof. intros w. unfold rng_randomInt. now destruct (randomInt rng lo hi (source w)). Qed.

Lemma keeps_rng_createSeededRNG (seed : string) :
  keeps_auditTrail (rng_createSeededRNG rng seed).
Proof. intros w. reflexivity. Qed.

Lemma keeps_call_seededRNG (st : stream rng) : keeps_auditTrail (call_seededRNG rng st).
Proof. intros w. unfold call_seededRNG. now destruct (seededRNG rng st). Qed.

Lemma keeps_for_M {St : Type} (body : Z -> St -> M rng St) (n : nat) :
  (forall i s, keeps_auditTrail (body i s)) ->
  forall (i : Z) (s : St), keeps_auditTrail (for_M n i body s).
Proof.
  intros Hbody. induction n as [| n IH]; intros i s; cbn [for_M].
  - apply keeps_ret.
  - apply keeps_bind; [apply Hbody | intros a; apply IH].
Qed.

Lemma keeps_logAuditEvent_off (g : Generator) (ev : string) (d : AuditData) :
  auditLogging g = false -> keeps_auditTrail (logAuditEvent rng g ev d).
Proof. intros Hoff w. unfold logAuditEvent. now rewrite Hoff. Qed.

Lemma keeps_draw_stripPosition (seed : option string) (strip : list string) :
  keeps_auditTrail (draw_stripPosition rng seed strip).
Proof.
  unfold draw_stripPosition. destruct (when_truthy seed).
  - apply keeps_bind; [apply keeps_rng_createSeededRNG | intros st].
    apply keeps_bind; [apply keeps_call_seededRNG | intros [u st']].
    apply keeps_ret.
  - apply keeps_rng_randomInt.
Qed.

Lemma keeps_replace_cells (cascadeSeed : option string) (colNum : Z) (strip : list string)
    (colPositions : list Cell) :
  forall replacements : list CellReplacement,
    keeps_auditTrail (replace_cells rng cascadeSeed colNum strip colPositions replacements).
Proof.
  induction colPositions as [| pos rest IH]; intros replacements; cbn [replace_cells].
  - apply keeps_ret.
  - apply keeps_bind; [apply keeps_draw_stripPosition | intros p].
    apply keeps_bind; [apply keeps_modify_statistics | intros _]. apply IH.
Qed.

Lemma keeps_replace_columns (freeSpinsMode : bool) (cascadeSeed : option string)
    (entries : ByColumn) :
  forall replacements : list CellReplacement,
    keeps_auditTrail (replace_columns rng freeSpinsMode cascadeSeed entries replacements).
Proof.
  induction entries as [| [colNum colPositions] rest IH]; intros replacements;
    cbn [replace_columns].
  - apply keeps_ret.
  - apply keeps_bind; [apply keeps_lift | intros strip].
    apply keeps_bind; [apply keeps_replace_cells | intros rs]. apply IH.
Qed.

End Silence.

(** X10. With audit logging switched off no method emits anything: on a
    generator whose [auditLogging] is false, [generateStopPositions],
    [generateInitialGrid], [generateReplacementSymbol],
    [generateReplacementSymbols], [reconstructGrid] and [resetStatistics]
    leave the audit trail as it was, whatever their arguments and whether
    they return or throw. *)
Theorem logging_off_is_silent (rng : EntropyProvider) (g : Generator) :
  auditLogging g = false ->
  (forall seed, keeps_auditTrail (generateStopPositions rng g seed)) /\
  (forall options, keeps_auditTrail (generateInitialGrid rng g options)) /\
  (forall column mode seed,
      keeps_auditTrail (generateReplacementSymbol rng g column mode seed)) /\
  (forall positions mode cascadeSeed,
      keeps_auditTrail (generateReplacementSymbols rng g positions mode cascadeSeed)) /\
  (forall stopPositions mode v,
      keeps_auditTrail (reconstructGrid rng g stopPositions mode v)) /\
  keeps_auditTrail (resetStatistics rng g).
Proof.
  intros Hoff.
  assert (Hstops : forall seed, keeps_auditTrail (generateStopPositions rng g seed)).
  { intros seed. unfold generateStopPositions.
    apply keeps_bind.
    - destruct (when_truthy seed).
      + apply keeps_bind; [apply keeps_rng_createSeededRNG | intros st].
        apply keeps_bind; [| intros a; apply keeps_ret].
        apply keeps_for_M. intros i [st' sp].
        apply keeps_bind; [apply keeps_call_seededRNG | intros [u st'']].
        apply keeps_ret.
      + apply keeps_for_M. intros i sp.
        apply keeps_bind; [apply keeps_rng_randomInt | intros p; apply keeps_ret].
    - intros sp. apply keeps_bind; [now apply keeps_logAuditEvent_off | intros _].
      apply keeps_ret. }
  split; [exact Hstops |]. split; [| split; [| split; [| split]]].
  - intros options. unfold generateInitialGrid.
    apply keeps_bind; [apply keeps_Date_now | intros t0].
    apply keeps_bind; [apply Hstops | intros sp].
    apply keeps_bind; [apply keeps_lift | intros [gr counts]].
    apply keeps_bind; [apply keeps_Date_now | intros t1].
    apply keeps_bind; [apply keeps_modify_statistics | intros _].
    apply keeps_bind; [now apply keeps_logAuditEvent_off | intros _].
    apply keeps_ret.
  - intros column mode seed. unfold generateReplacementSymbol.
    destruct ((column <? 0) || (column >=? cols g)); [apply keeps_throw |].
    apply keeps_bind; [apply keeps_lift | intros strip].
    apply keeps_bind; [apply keeps_draw_stripPosition | intros p].
    apply keeps_bind; [apply keeps_modify_statistics | intros _].
    apply keeps_bind; [now apply keeps_logAuditEvent_off | intros _].
    apply keeps_ret.
  - intros positions mode cascadeSeed. unfold generateReplacementSymbols.
    apply keeps_bind; [apply keeps_replace_columns | intros rs].
    apply keeps_bind; [now apply keeps_logAuditEvent_off | intros _].
    apply keeps_ret.
  - intros stopPositions mode v. unfold reconstructGrid.
    destruct (negb _); [apply keeps_throw |].
    destruct stopPositions as [| positions]; [apply keeps_throw |].
    destruct (negb _); [apply keeps_throw |].
    apply keeps_bind; [apply keeps_lift | intros gr].
    apply keeps_bind; [now apply keeps_logAuditEvent_off | intros _].
    apply keeps_ret.
  - unfold resetStatistics.
    apply keeps_bind; [apply keeps_Date_now | intros t].
    apply keeps_bind; [apply keeps_modify_statistics | intros _].
    now apply keeps_logAuditEvent_off.
Qed.

Lemma logging_off_is_silent_witness :
  let g := {| rows := 5; cols := 6; auditLogging := false |} in
  auditTrail (snd (generateInitialGrid sampleRNG g
                     {| freeSpinsMode := false; seed := None |} (sampleWorld 0)))
  = [].
Proof.
  intros g.
  destruct (logging_off_is_silent sampleRNG g eq_refl) as (_ & Hgrid & _).
  exact (Hgrid {| freeSpinsMode := false; seed := None |} (sampleWorld 0)).
Defined.

(** ** Single replacement symbols *)

Section SingleReplacement.

Variable rng : EntropyProvider.

Local Open Scope engine_scope.

(** The one draw of a replacement: a position of the strip, one call that
    draws, and nothing else in the world. *)
Lemma draw_stripPosition_effects (seed : option string) (strip : list string)
    (w : World rng) :
  0 < JS.length strip ->
  exists (p : Z) (w' : World rng) (calls : list EntropyCall),
    draw_stripPosition rng seed strip w = (Returns p, w') /\
    0 <= p < JS.length strip /\
    statistics w' = statistics w /\ auditTrail w' = auditTrail w /\
    clock w' = clock w /\ ticks w' = ticks w /\
    entropyCalls w' = entropyCalls w ++ calls /\
    List.length (filter is_draw calls) = 1%nat /\
    (forall s, when_truthy seed = Some s -> p = seeded_stripPosition rng s strip).
Proof.
  intros Hlen. unfold draw_stripPosition.
  destruct (when_truthy seed) as [s |].
  - erewrite bind_returns by reflexivity.
    unfold bind, call_seededRNG, seeded_stripPosition. cbn [source].
    destruct (seededRNG rng (createSeededRNG rng s)) as [u st'] eqn:Eu.
    eexists _, _, [CallCreateSeededRNG s; CallSeededRNG u].
    split; [reflexivity |]. cbn.
    split; [now apply Math_floor_mul_range |].
    rewrite <- app_assoc. repeat split; try reflexivity.
    intros s' Hs'. injection Hs' as <-. now rewrite Eu.
  - unfold rng_randomInt.
    pose proof (randomInt_inclusive rng 0 (JS.length strip - 1) (source w) ltac:(lia)) as Hr.
    destruct (randomInt rng 0 (JS.length strip - 1) (source w)) as [p e'] eqn:Ep.
    cbn [fst] in Hr.
    eexists p, _, [CallRandomInt 0 (JS.length strip - 1) p].
    split; [reflexivity |]. cbn.
    split; [lia |]. repeat split; try reflexivity. intros s' Hs'. discriminate.
Qed.

End SingleReplacement.

(** X11. The column guard of [generateReplacementSymbol]: a column that is
    negative, or not below the column count of the generator, or not below
    6 (a generator built with more columns than strips) makes it throw the
    invalid-column error with the world as it was: nothing is drawn,
    counted or logged. *)
Theorem generateReplacementSymbol_rejects_column (rng : EntropyProvider) (g : Generator)
    (column : Z) (freeSpinsMode : bool) (seed : option string) (w : World rng) :
  column < 0 \/ cols g <= column \/ 6 <= column ->
  generateReplacementSymbol rng g column freeSpinsMode seed w
  = (Throws (InvalidColumnIndex column), w).
Proof.
  intros Hbad. unfold generateReplacementSymbol.
  destruct (Z.ltb_spec column 0) as [Hneg | Hpos]; [reflexivity |].
  destruct (Z.geb_spec column (cols g)) as [Hbig | Hsmall]; [reflexivity |].
  cbn [orb]. rewrite getStrip_in_range.
  destruct (Z.ltb_spec column 0); [lia |].
  destruct (Z.geb_spec column 6); [| lia]. reflexivity.
Qed.

Lemma generateReplacementSymbol_rejects_column_witness :
  generateReplacementSymbol sampleRNG {| rows := 5; cols := 8; auditLogging := true |}
    6 false None (sampleWorld 0)
  = (Throws (InvalidColumnIndex 6), sampleWorld 0).
Proof.
  apply (generateReplacementSymbol_rejects_column sampleRNG
           {| rows := 5; cols := 8; auditLogging := true |} 6 false None (sampleWorld 0)).
  right. right. lia.
Defined.

(** X12. A replacement that is made: for a column in [0, 6) and below the
    column count of the generator, with a seed or without,
    [generateReplacementSymbol] returns; the strip position is in
    [0, STRIP_LENGTH) and the symbol is the symbol of the strip of the
    column at that position, a symbol of the alphabet; the call makes one
    draw, counts one replacement more and touches no other statistic; with
    logging on it emits one event that carries the column, the position
    and the symbol. *)
Theorem generateReplacementSymbol_draws_one (rng : EntropyProvider) (g : Generator)
    (c : Z) (mode : bool) (seed : option string) (w : World rng) :
  0 <= c < cols g -> c < 6 ->
  exists (r : Replacement) (w' : World rng) (strip : list string) (s : string)
         (calls : list EntropyCall),
    generateReplacementSymbol rng g c mode seed w = (Returns r, w') /\
    column r = c /\ rep_freeSpinsMode r = mode /\ rep_stripVersion r = STRIP_VERSION /\
    JS.index (getStrips mode) c = Some strip /\
    0 <= stripPosition r < STRIP_LENGTH /\
    symbol r = Some s /\ JS.index strip (stripPosition r) = Some s /\
    In s validSymbols /\
    statistics w'
    = {| gridsGenerated := gridsGenerated (statistics w);
         symbolsGenerated := symbolsGenerated (statistics w);
         replacementSymbolsGenerated := replacementSymbolsGenerated (statistics w) + 1;
         lastStopPositions := lastStopPositions (statistics w);
         initialized := initialized (statistics w) |} /\
    entropyCalls w' = entropyCalls w ++ calls /\
    List.length (filter is_draw calls) = 1%nat /\
    auditTrail w'
    = auditTrail w
        ++ (if auditLogging g
            then [ {| timestamp := clock w (ticks w);
                      event := "REPLACEMENT_SYMBOL_GENERATED";
                      data := ReplacementSymbolGenerated c (stripPosition r) (symbol r)
                                mode STRIP_VERSION |} ]
            else []).
Proof.
  intros Hc Hc6.
  destruct (getStrips_index mode c ltac:(lia)) as (strip & Hidx & Hnth & Hlen).
  assert (Eg : getStrip c mode = Returns strip).
  { rewrite getStrip_in_range.
    destruct (Z.ltb_spec c 0); [lia |]. destruct (Z.geb_spec c 6); [lia |].
    cbn. now rewrite Hnth. }
  destruct (draw_stripPosition_effects rng seed strip w ltac:(rewrite Hlen; reflexivity))
    as (p & w1 & calls & E1 & Hp & Q1s & Q1a & Q1k & Q1t & Q1c & Hdraw & _).
  destruct (index_valid strip p (getStrip_symbols _ _ _ Eg) Hp) as (s & Hs & Hvalid).
  destruct (generateReplacementSymbol rng g c mode seed w) as [o w'] eqn:Hrun.
  unfold generateReplacementSymbol in Hrun.
  destruct (Z.ltb_spec c 0); [lia |]. destruct (Z.geb_spec c (cols g)); [lia |].
  cbn [orb] in Hrun. rewrite Eg in Hrun.
  erewrite bind_returns in Hrun by reflexivity.
  erewrite bind_returns in Hrun by exact E1.
  erewrite bind_returns in Hrun by reflexivity.
  match type of Hrun with
  | bind (logAuditEvent rng g ?ev ?d) _ ?w2 = _ =>
      destruct (logAuditEvent_effects rng g ev d w2)
        as (w3 & E3 & Q3s & Q3e & Q3c & Q3k & Q3a)
  end.
  erewrite bind_returns in Hrun by exact E3.
  unfold ret in Hrun. injection Hrun as <- <-.
  eexists _, w3, strip, s, calls. split; [reflexivity |].
  cbn [column rep_freeSpinsMode rep_stripVersion stripPosition symbol].
  rewrite Hlen in Hp.
  repeat (split; [first [reflexivity | assumption] |]).
  split; [rewrite Q3s; cbn; unfold count_replacement; now rewrite Q1s |].
  split; [rewrite Q3c; cbn; exact Q1c |].
  split; [exact Hdraw |].
  rewrite Q3a. cbn. now rewrite Q1a, Q1k, Q1t.
Qed.

Lemma generateReplacementSymbol_draws_one_witness :
  exists (r : Replacement) (w' : World sampleRNG),
    generateReplacementSymbol sampleRNG defaultGenerator 2 true None (sampleWorld 4)
    = (Returns r, w') /\
    stripPosition r = 4 /\
    replacementSymbolsGenerated (statistics w') = 1.
Proof.
  destruct (generateReplacementSymbol_draws_one sampleRNG defaultGenerator 2 true None
              (sampleWorld 4))
    as (r & w' & strip & s & calls & Hrun & _ & _ & _ & _ & _ & _ & _ & _ & Hstats & _).
  - cbn. lia.
  - lia.
  - exists r, w'. split; [exact Hrun |]. split.
    + apply (f_equal fst) in Hrun. cbn [fst] in Hrun.
      assert (E : outcome_map stripPosition
                    (fst (generateReplacementSymbol sampleRNG defaultGenerator 2 true None
                            (sampleWorld 4))) = Returns 4) by (vm_compute; reflexivity).
      rewrite Hrun in E. cbn in E. now injection E.
    + now rewrite Hstats.
Defined.

(** X13. A seeded replacement ignores its column: with a seed that is not
    empty, on the generator of 6 columns, the strip position
    [generateReplacementSymbol] returns is the same for every column in
    [0, 6), and it is the stop position of column 0 of the grid
    [generateInitialGrid] makes with the same seed: each call starts a
    fresh stream of the seed and takes its first value. *)
Theorem seeded_replacement_ignores_column (rng : EntropyProvider) (g : Generator)
    (c : Z) (mode mode' : bool) (s : string) (w w0 : World rng) :
  s <> ""%string -> cols g = 6 -> 0 <= c < 6 ->
  exists (r : Replacement) (result : GridResult),
    fst (generateReplacementSymbol rng g c mode (Some s) w) = Returns r /\
    fst (generateInitialGrid rng g {| freeSpinsMode := mode'; seed := Some s |} w0)
    = Returns result /\
    JS.index (stopPositions result) 0 = Some (stripPosition r) /\
    stripPosition r
    = Math_floor_mul (fst (seededRNG rng (createSeededRNG rng s))) STRIP_LENGTH.
Proof.
  intros Hs Hcols Hc.
  destruct (getStrips_index mode c Hc) as (strip & Hidx & Hnth & Hlen).
  pose proof (generateReplacementSymbol_seeded rng g c mode s w Hs) as Hrep.
  destruct (Z.ltb_spec c 0); [lia |]. destruct (Z.geb_spec c (cols g)); [lia |].
  cbn [orb] in Hrep. rewrite getStrip_in_range in Hrep.
  destruct (Z.ltb_spec c 0); [lia |]. destruct (Z.geb_spec c 6); [lia |].
  cbn [orb] in Hrep. rewrite Hnth in Hrep.
  destruct (generateInitialGrid_run rng g {| freeSpinsMode := mode'; seed := Some s |} w0)
    as (w1 & _ & Hrun).
  cbn [seed freeSpinsMode] in Hrun.
  destruct (generateInitialGrid_columns_returns g (getStrips mode')
              (stop_positions rng (Z.to_nat (cols g)) (Some s) (source w0)))
    as [counts Ecols].
  { rewrite getStrips_length. lia. }
  rewrite Ecols in Hrun. destruct Hrun as [md Hrun].
  eexists _, _. split; [exact Hrep |]. split; [now rewrite Hrun |].
  cbn [stopPositions stripPosition].
  unfold stop_positions, seeded_stripPosition.
  rewrite (when_truthy_nonempty s Hs), Hcols, Hlen.
  split; [| reflexivity].
  change (Z.to_nat 6) with 6%nat. cbn [stream_draws].
  repeat match goal with
         | |- context [seededRNG rng ?st] => destruct (seededRNG rng st)
         end.
  reflexivity.
Qed.

Lemma seeded_replacement_ignores_column_witness :
  outcome_map stripPosition
    (fst (generateReplacementSymbol sampleRNG defaultGenerator 1 false (Some "seed-X")
            (sampleWorld 0)))
  = outcome_map stripPosition
      (fst (generateReplacementSymbol sampleRNG defaultGenerator 4 true (Some "seed-X")
              (sampleWorld 9))).
Proof.
  assert (Hs : "seed-X"%string <> ""%string) by discriminate.
  destruct (seeded_replacement_ignores_column sampleRNG defaultGenerator 1 false false
              "seed-X" (sampleWorld 0) (sampleWorld 0) Hs eq_refl ltac:(lia))
    as (r1 & res1 & H1 & _ & _ & Hp1).
  destruct (seeded_replacement_ignores_column sampleRNG defaultGenerator 4 true false
              "seed-X" (sampleWorld 9) (sampleWorld 0) Hs eq_refl ltac:(lia))
    as (r4 & res4 & H4 & _ & _ & Hp4).
  rewrite H1, H4. cbn [outcome_map]. now rewrite Hp1, Hp4.
Defined.

(** ** Batches of replacement symbols *)

Lemma replacements_counted_0 (s : Statistics) : replacements_counted 0 s = s.
Proof. destruct s. unfold replacements_counted. cbn. now rewrite Z.add_0_r. Qed.

Lemma replacements_counted_succ (n : Z) (s : Statistics) :
  replacements_counted n (count_replacement s) = replacements_counted (1 + n) s.
Proof.
  unfold replacements_counted, count_replacement.
  cbn [gridsGenerated symbolsGenerated replacementSymbolsGenerated lastStopPositions
       initialized].
  f_equal. lia.
Qed.

Lemma replacements_counted_add (n m : Z) (s : Statistics) :
  replacements_counted m (replacements_counted n s) = replacements_counted (n + m) s.
Proof.
  unfold replacements_counted.
  cbn [gridsGenerated symbolsGenerated replacementSymbolsGenerated lastStopPositions
       initialized].
  f_equal. lia.
Qed.

Lemma length_cons {A : Type} (x : A) (l : list A) : JS.length (x :: l) = 1 + JS.length l.
Proof. unfold JS.length. cbn [List.length]. lia. Qed.

Lemma length_app {A : Type} (l l' : list A) :
  JS.length (l ++ l') = JS.length l + JS.length l'.
Proof. unfold JS.length. rewrite List.length_app. lia. Qed.

(** *** The keys of the grouping *)

Lemma ascending_below (c lo hi : Z) (byColumn : ByColumn) :
  ascending lo hi byColumn -> c < lo -> cells_of c byColumn = [].
Proof.
  revert lo. induction byColumn as [| [k cells] rest IH]; intros lo Hasc Hc; [reflexivity |].
  destruct Hasc as [Hk Hrest]. unfold cells_of. cbn [find fst].
  destruct (Z.eqb_spec k c); [lia |].
  apply (IH (k + 1) Hrest). lia.
Qed.

Lemma group_cell_ascending (pos : Cell) (hi : Z) (byColumn : ByColumn) :
  hi <= 2 ^ 32 - 1 ->
  forall lo, 0 <= lo -> lo <= col pos < hi ->
  ascending lo hi byColumn -> ascending lo hi (group_cell pos byColumn).
Proof.
  intros Hhi. induction byColumn as [| [k cells] rest IH]; intros lo Hlo Hpos Hasc.
  - cbn. split; [lia | exact I].
  - destruct Hasc as [Hk Hrest]. cbn [group_cell].
    destruct (Z.eqb_spec k (col pos)) as [E | E]; [split; assumption |].
    assert (Hidx : is_array_index (col pos) = true).
    { unfold is_array_index. apply andb_true_intro. split; [apply Z.leb_le | apply Z.ltb_lt]; lia. }
    assert (Hidk : is_array_index k = true).
    { unfold is_array_index. apply andb_true_intro. split; [apply Z.leb_le | apply Z.ltb_lt]; lia. }
    rewrite Hidx, Hidk. cbn [andb orb negb].
    destruct (Z.ltb_spec (col pos) k) as [Hlt | Hge].
    + cbn [ascending]. split; [lia |]. split; [lia | assumption].
    + cbn [ascending]. split; [assumption |]. apply IH; [lia | lia | assumption].
Qed.

Lemma cells_of_group_cell (c : Z) (pos : Cell) (hi : Z) (byColumn : ByColumn) :
  hi <= 2 ^ 32 - 1 ->
  forall lo, 0 <= lo -> lo <= col pos < hi ->
  ascending lo hi byColumn ->
  cells_of c (group_cell pos byColumn)
  = cells_of c byColumn ++ (if col pos =? c then [pos] else []).
Proof.
  intros Hhi. induction byColumn as [| [k cells] rest IH]; intros lo Hlo Hpos Hasc.
  - unfold cells_of. cbn. now destruct (col pos =? c).
  - destruct Hasc as [Hk Hrest]. cbn [group_cell].
    destruct (Z.eqb_spec k (col pos)) as [E | E].
    + unfold cells_of. cbn [find fst snd]. subst k.
      destruct (Z.eqb_spec (col pos) c); [reflexivity | now rewrite app_nil_r].
    + assert (Hidx : is_array_index (col pos) = true).
      { unfold is_array_index. apply andb_true_intro.
        split; [apply Z.leb_le | apply Z.ltb_lt]; lia. }
      assert (Hidk : is_array_index k = true).
      { unfold is_array_index. apply andb_true_intro.
        split; [apply Z.leb_le | apply Z.ltb_lt]; lia. }
      rewrite Hidx, Hidk. cbn [andb orb negb].
      destruct (Z.ltb_spec (col pos) k) as [Hlt | Hge].
      * unfold cells_of at 1. cbn [find fst snd].
        destruct (Z.eqb_spec (col pos) c) as [Ec | Ec].
        -- rewrite (ascending_below c k hi ((k, cells) :: rest)); [reflexivity | | lia].
           cbn [ascending]. split; [lia | assumption].
        -- now rewrite app_nil_r.
      * unfold cells_of at 1 2. cbn [find fst snd].
        destruct (Z.eqb_spec k c) as [Ek | Ek].
        -- destruct (Z.eqb_spec (col pos) c); [lia | now rewrite app_nil_r].
        -- apply (IH (k + 1)); [lia | lia | assumption].
Qed.

Lemma group_by_column_ascending (positions : list Cell) :
  Forall (fun p => 0 <= col p < 6) positions ->
  forall byColumn, ascending 0 6 byColumn ->
  let grouped := fold_left (fun byColumn pos => group_cell pos byColumn) positions byColumn in
  ascending 0 6 grouped /\
  forall c, cells_of c grouped
            = cells_of c byColumn ++ filter (fun p => col p =? c) positions.
Proof.
  induction positions as [| pos rest IH]; intros Hall byColumn Hasc; cbn.
  - split; [assumption |]. intros c. now rewrite app_nil_r.
  - inversion Hall as [| ? ? Hpos Hrest]; subst.
    destruct (IH Hrest (group_cell pos byColumn)) as [H1 H2].
    { apply group_cell_ascending; [discriminate | lia | assumption | assumption]. }
    split; [exact H1 |]. intros c. rewrite H2.
    rewrite (cells_of_group_cell c pos 6 byColumn ltac:(discriminate) 0 ltac:(lia) Hpos Hasc).
    rewrite <- app_assoc. f_equal.
    now destruct (col pos =? c).
Qed.

Lemma ascending_flat_map (n : nat) :
  forall (lo : Z) (byColumn : ByColumn),
    ascending lo (lo + Z.of_nat n) byColumn ->
    flat_map snd byColumn = flat_map (fun c => cells_of c byColumn) (zseq lo n).
Proof.
  induction n as [| n IH]; intros lo byColumn Hasc.
  - destruct byColumn as [| [k cells] rest]; [reflexivity |]. destruct Hasc as [Hk _]. lia.
  - cbn [zseq flat_map].
    destruct byColumn as [| [k cells] rest].
    + cbn. clear. generalize (lo + 1). induction n as [| n IH]; intros i; [reflexivity |].
      cbn. apply IH.
    + destruct Hasc as [Hk Hrest].
      destruct (Z.eq_dec k lo) as [-> | Hne].
      * unfold cells_of at 1. cbn [find fst snd]. rewrite Z.eqb_refl.
        cbn [flat_map snd]. f_equal.
        rewrite (IH (lo + 1) rest).
        2:{ replace (lo + 1 + Z.of_nat n) with (lo + Z.of_nat (S n)) by lia. assumption. }
        assert (Hsame : forall m i, lo < i ->
                   flat_map (fun c => cells_of c rest) (zseq i m)
                   = flat_map (fun c => cells_of c ((lo, cells) :: rest)) (zseq i m)).
        { induction m as [| m IHm]; intros i Hi; [reflexivity |].
          cbn [zseq flat_map]. rewrite (IHm (i + 1)) by lia. f_equal.
          unfold cells_of. cbn [find fst].
          destruct (Z.eqb_spec lo i); [lia | reflexivity]. }
        apply Hsame. lia.
      * rewrite (ascending_below lo k (lo + Z.of_nat (S n)) ((k, cells) :: rest));
          [| cbn [ascending]; split; [lia | assumption] | lia].
        cbn [app]. apply IH. cbn [ascending].
        split; [lia |].
        replace (lo + 1 + Z.of_nat n) with (lo + Z.of_nat (S n)) by lia. assumption.
Qed.

Lemma group_by_column_order (positions : list Cell) :
  Forall (fun p => 0 <= col p < 6) positions ->
  flat_map snd (group_by_column positions) = refill_order positions.
Proof.
  intros Hall.
  destruct (group_by_column_ascending positions Hall [] I) as [Hasc Hcells].
  fold (group_by_column positions) in Hasc, Hcells.
  unfold refill_order.
  rewrite (ascending_flat_map 6 0 (group_by_column positions) Hasc).
  assert (Hext : forall l : list Z,
             flat_map (fun c => cells_of c (group_by_column positions)) l
             = flat_map (fun c => filter (fun p => col p =? c) positions) l).
  { induction l as [| c l IH]; [reflexivity |]. cbn [flat_map]. now rewrite IH, Hcells. }
  apply Hext.
Qed.

Lemma group_cell_length (pos : Cell) (byColumn : ByColumn) :
  List.length (flat_map snd (group_cell pos byColumn))
  = S (List.length (flat_map snd byColumn)).
Proof.
  induction byColumn as [| [k cells] rest IH]; [reflexivity |].
  cbn [group_cell].
  destruct (k =? col pos).
  - cbn [flat_map snd]. rewrite !List.length_app. cbn. lia.
  - destruct (is_array_index (col pos) && (negb (is_array_index k) || (col pos <? k))).
    + reflexivity.
    + cbn [flat_map snd]. rewrite !List.length_app, IH. lia.
Qed.

Lemma group_by_column_length (positions : list Cell) :
  List.length (flat_map snd (group_by_column positions)) = List.length positions.
Proof.
  unfold group_by_column.
  assert (Hgen : forall byColumn,
             List.length (flat_map snd (fold_left (fun byColumn pos => group_cell pos byColumn)
                                          positions byColumn))
             = (List.length (flat_map snd byColumn) + List.length positions)%nat).
  { induction positions as [| pos rest IH]; intros byColumn; cbn; [lia |].
    rewrite IH, group_cell_length. lia. }
  now rewrite Hgen.
Qed.





(** *** The loops of a batch *)

Section Batch.

Variable rng : EntropyProvider.

Local Open Scope engine_scope.

Lemma replace_cells_effects (cascadeSeed : option string) (colNum : Z)
    (strip : list string) (colPositions : list Cell) :
  0 < JS.length strip ->
  forall (replacements : list CellReplacement) (w : World rng),
  exists (out : list CellReplacement) (w' : World rng) (calls : list EntropyCall),
    replace_cells rng cascadeSeed colNum strip colPositions replacements w
    = (Returns (replacements ++ out), w') /\
    map cell_of out = colPositions /\
    Forall (fun r => 0 <= cell_stripPosition r < JS.length strip /\
                     cell_symbol r = JS.index strip (cell_stripPosition r) /\
                     cell_stripVersion r = STRIP_VERSION) out /\
    statistics w' = replacements_counted (JS.length colPositions) (statistics w) /\
    auditTrail w' = auditTrail w /\ clock w' = clock w /\ ticks w' = ticks w /\
    entropyCalls w' = entropyCalls w ++ calls /\
    List.length (filter is_draw calls) = List.length colPositions.
Proof.
  intros Hlen. induction colPositions as [| pos rest IH]; intros replacements w.
  - exists [], w, []. cbn [replace_cells]. unfold ret. rewrite !app_nil_r.
    change (JS.length (@nil Cell)) with 0. rewrite replacements_counted_0.
    repeat split; constructor.
  - cbn [replace_cells].
    destruct (draw_stripPosition_effects rng (positionSeed cascadeSeed colNum pos) strip w Hlen)
      as (p & w1 & calls1 & E1 & Hp & Q1s & Q1a & Q1k & Q1t & Q1c & Hdraw & _).
    erewrite bind_returns by exact E1.
    erewrite bind_returns by reflexivity.
    match goal with
    | |- exists _ _ _, replace_cells _ _ _ _ _ ?reps ?w2 = _ /\ _ =>
        destruct (IH reps w2)
          as (out & w' & calls & E & Hcells & Hall & Qs & Qa & Qk & Qt & Qc & Hdraws)
    end.
    eexists (_ :: out), w', (calls1 ++ calls).
    split; [rewrite E, <- app_assoc; reflexivity |].
    split; [cbn [map]; rewrite Hcells; destruct pos; reflexivity |].
    split; [constructor; [cbn; split; [exact Hp | split; reflexivity] | assumption] |].
    split.
    { rewrite Qs. cbn [statistics]. rewrite Q1s, replacements_counted_succ.
      now rewrite length_cons. }
    split; [rewrite Qa; cbn; exact Q1a |].
    split; [rewrite Qk; cbn; exact Q1k |].
    split; [rewrite Qt; cbn; exact Q1t |].
    split; [rewrite Qc; cbn [entropyCalls]; rewrite Q1c, app_assoc; reflexivity |].
    rewrite filter_app, List.length_app, Hdraw, Hdraws. reflexivity.
Qed.

Lemma replace_columns_effects (freeSpinsMode : bool) (cascadeSeed : option string)
    (entries : ByColumn) :
  Forall (fun entry => 0 <= fst entry < 6) entries ->
  Forall (fun entry => Forall (fun p => col p = fst entry) (snd entry)) entries ->
  forall (replacements : list CellReplacement) (w : World rng),
  exists (out : list CellReplacement) (w' : World rng) (calls : list EntropyCall),
    replace_columns rng freeSpinsMode cascadeSeed entries replacements w
    = (Returns (replacements ++ out), w') /\
    map cell_of out = flat_map snd entries /\
    Forall (refilled freeSpinsMode) out /\
    statistics w' = replacements_counted (JS.length (flat_map snd entries)) (statistics w) /\
    auditTrail w' = auditTrail w /\ clock w' = clock w /\ ticks w' = ticks w /\
    entropyCalls w' = entropyCalls w ++ calls /\
    List.length (filter is_draw calls) = List.length (flat_map snd entries).
Proof.
  induction entries as [| [colNum colPositions] rest IH];
    intros Hkeys Hsound replacements w.
  - exists [], w, []. cbn [replace_columns flat_map]. unfold ret. rewrite !app_nil_r.
    change (JS.length (@nil Cell)) with 0. rewrite replacements_counted_0.
    repeat split; constructor.
  - inversion Hkeys as [| ? ? Hk Hkeys']; subst. cbn [fst] in Hk.
    inversion Hsound as [| ? ? Hs Hsound']; subst. cbn [fst snd] in Hs.
    destruct (getStrips_index freeSpinsMode colNum Hk) as (strip & Hidx & Hnth & Hlen).
    assert (Eg : getStrip colNum freeSpinsMode = Returns strip).
    { rewrite getStrip_in_range.
      destruct (Z.ltb_spec colNum 0); [lia |]. destruct (Z.geb_spec colNum 6); [lia |].
      cbn. now rewrite Hnth. }
    cbn [replace_columns]. rewrite Eg.
    erewrite bind_returns by reflexivity.
    destruct (replace_cells_effects cascadeSeed colNum strip colPositions
                ltac:(rewrite Hlen; reflexivity) replacements w)
      as (out1 & w1 & calls1 & E1 & Hcells1 & Hall1 & Q1s & Q1a & Q1k & Q1t & Q1c & Hd1).
    erewrite bind_returns by exact E1.
    destruct (IH Hkeys' Hsound' (replacements ++ out1) w1)
      as (out & w' & calls & E & Hcells & Hall & Qs & Qa & Qk & Qt & Qc & Hd).
    exists (out1 ++ out), w', (calls1 ++ calls).
    split; [rewrite E, <- app_assoc; reflexivity |].
    split; [cbn [flat_map snd]; now rewrite map_app, Hcells1, Hcells |].
    split.
    { apply Forall_app. split; [| assumption].
      rewrite Forall_forall in Hall1, Hs. apply Forall_forall. intros r Hr.
      destruct (Hall1 r Hr) as (Hp & Hsym & Hver).
      assert (Hcol : cell_col r = colNum).
      { assert (Hin : In (cell_of r) colPositions)
          by (rewrite <- Hcells1; now apply in_map).
        exact (Hs _ Hin). }
      destruct (index_valid strip (cell_stripPosition r) (getStrip_symbols _ _ _ Eg) Hp)
        as (s & Hs' & Hvalid).
      exists strip, s. rewrite Hcol, <- Hlen.
      repeat split; try assumption; try lia. now rewrite Hsym. }
    split.
    { rewrite Qs, Q1s, replacements_counted_add. cbn [flat_map snd].
      now rewrite length_app. }
    split; [now rewrite Qa |]. split; [now rewrite Qk |]. split; [now rewrite Qt |].
    split; [rewrite Qc, Q1c, app_assoc; reflexivity |].
    cbn [flat_map snd]. rewrite filter_app, !List.length_app, Hd1, Hd. reflexivity.
Qed.




End Batch.

(** X14. A batch of replacements on columns that have a strip: when every
    position has its column in [0, 6), [generateReplacementSymbols]
    returns one replacement per position, ordered by column, and within a
    column in the order of the argument, whatever the order of the
    argument was; each replacement carries the row and column of its
    position, a strip position in [0, STRIP_LENGTH) and the symbol of the
    strip of its column there. The call makes one draw per position, adds
    the number of positions to [replacementSymbolsGenerated], changes no
    other statistic, and with logging on emits one batch event with that
    number. *)
Theorem generateReplacementSymbols_batch (rng : EntropyProvider) (g : Generator)
    (positions : list Cell) (mode : bool) (cascadeSeed : option string) (w : World rng) :
  Forall (fun p => 0 <= col p < 6) positions ->
  exists (replacements : list CellReplacement) (w' : World rng)
         (calls : list EntropyCall),
    generateReplacementSymbols rng g positions mode cascadeSeed w
    = (Returns replacements, w') /\
    map cell_of replacements = refill_order positions /\
    JS.length replacements = JS.length positions /\
    Forall (refilled mode) replacements /\
    statistics w'
    = {| gridsGenerated := gridsGenerated (statistics w);
         symbolsGenerated := symbolsGenerated (statistics w);
         replacementSymbolsGenerated :=
           replacementSymbolsGenerated (statistics w) + JS.length positions;
         lastStopPositions := lastStopPositions (statistics w);
         initialized := initialized (statistics w) |} /\
    entropyCalls w' = entropyCalls w ++ calls /\
    List.length (filter is_draw calls) = List.length positions /\
    auditTrail w'
    = auditTrail w
        ++ (if auditLogging g
            then [ {| timestamp := clock w (ticks w);
                      event := "REPLACEMENT_SYMBOLS_BATCH_GENERATED";
                      data := ReplacementSymbolsBatchGenerated (JS.length positions)
                                mode STRIP_VERSION |} ]
            else []).
Proof.
  intros Hall.
  destruct (group_by_column_spec positions) as (Hsound & _ & Hkeys).
  specialize (Hkeys (fun k => 0 <= k < 6) Hall).
  destruct (replace_columns_effects rng mode cascadeSeed (group_by_column positions)
              Hkeys Hsound [] w)
    as (out & w1 & calls & E1 & Hcells & Hok & Q1s & Q1a & Q1k & Q1t & Q1c & Hd).
  cbn [app] in E1.
  assert (Hlen : JS.length out = JS.length positions).
  { unfold JS.length. f_equal.
    rewrite <- (List.length_map cell_of out), Hcells. apply group_by_column_length. }
  unfold generateReplacementSymbols.
  erewrite bind_returns by exact E1.
  destruct (logAuditEvent_effects rng g "REPLACEMENT_SYMBOLS_BATCH_GENERATED"
              (ReplacementSymbolsBatchGenerated (JS.length out) mode STRIP_VERSION) w1)
    as (w2 & E2 & Q2s & Q2e & Q2c & Q2k & Q2a).
  erewrite bind_returns by exact E2.
  exists out, w2, calls. split; [reflexivity |].
  split; [rewrite Hcells; now apply group_by_column_order |].
  split; [exact Hlen |]. split; [exact Hok |].
  split.
  { rewrite Q2s, Q1s. unfold replacements_counted. f_equal. f_equal.
    unfold JS.length. f_equal. apply group_by_column_length. }
  split; [now rewrite Q2c |].
  split; [rewrite Hd; apply group_by_column_length |].
  now rewrite Q2a, Q1a, Q1k, Q1t, Hlen.
Qed.

Lemma generateReplacementSymbols_batch_witness :
  let positions := [ {| col := 3; row := 4 |}; {| col := 0; row := 1 |};
                     {| col := 3; row := 0 |}; {| col := 0; row := 0 |} ] in
  exists (replacements : list CellReplacement) (w' : World sampleRNG),
    generateReplacementSymbols sampleRNG defaultGenerator positions false None
      (sampleWorld 0)
    = (Returns replacements, w') /\
    map cell_of replacements
    = [ {| col := 0; row := 1 |}; {| col := 0; row := 0 |};
        {| col := 3; row := 4 |}; {| col := 3; row := 0 |} ] /\
    replacementSymbolsGenerated (statistics w') = 4.
Proof.
  intros positions.
  destruct (generateReplacementSymbols_batch sampleRNG defaultGenerator positions false None
              (sampleWorld 0))
    as (replacements & w' & calls & Hrun & Hcells & _ & _ & Hstats & _).
  - repeat constructor; cbn; lia.
  - exists replacements, w'. split; [exact Hrun |].
    split; [rewrite Hcells; reflexivity |]. now rewrite Hstats.
Defined.



(** ** Scatters *)

Lemma scatters_in_app (l l' : list (option string)) :
  scatters_in (l ++ l') = scatters_in l + scatters_in l'.
Proof. unfold scatters_in. now rewrite filter_app, length_app. Qed.

Lemma scatters_in_nonneg (l : list (option string)) : 0 <= scatters_in l.
Proof. unfold scatters_in, JS.length. lia. Qed.

Lemma zseq_app (n m : nat) :
  forall i : Z, zseq i (n + m) = zseq i n ++ zseq (i + Z.of_nat n) m.
Proof.
  induction n as [| n IH]; intros i.
  - cbn [zseq plus app]. f_equal. lia.
  - cbn [zseq plus app]. rewrite IH. do 3 f_equal. lia.
Qed.

(** A window of fewer rows holds no more scatters. *)
Lemma window_scatters_rows (g : Generator) (strip : list string) (p : Z) :
  rows g <= 5 -> scatters_in (window g strip (Some p)) <= window_scatters strip p.
Proof.
  intros Hrows. unfold window, window_scatters.
  replace (zseq 0 5) with (zseq 0 (Z.to_nat (rows g) + (5 - Z.to_nat (rows g))))
    by (f_equal; lia).
  rewrite zseq_app, map_app, scatters_in_app.
  pose proof (scatters_in_nonneg
                (map (read_cell strip (Some p))
                   (zseq (0 + Z.of_nat (Z.to_nat (rows g))) (5 - Z.to_nat (rows g))))).
  lia.
Qed.

Lemma shipped_windows (freeSpinsMode : bool) :
  forallb (windows_hold 1) (getStrips freeSpinsMode) = true.
Proof. destruct freeSpinsMode; vm_compute; reflexivity. Qed.

Lemma shipped_window_scatters (freeSpinsMode : bool) (c p : Z) :
  0 <= c < 6 -> 0 <= p < STRIP_LENGTH ->
  0 <= window_scatters (nth (Z.to_nat c) (getStrips freeSpinsMode) []) p <= 1.
Proof.
  intros Hc Hp. split; [apply scatters_in_nonneg |].
  destruct (getStrips_index freeSpinsMode c Hc) as (strip & Hidx & Hnth & _).
  rewrite Hnth.
  pose proof (shipped_windows freeSpinsMode) as Hall.
  rewrite forallb_forall in Hall.
  assert (Hin : In strip (getStrips freeSpinsMode)).
  { unfold JS.index in Hidx. destruct (c <? 0); [discriminate |].
    eapply nth_error_In. exact Hidx. }
  specialize (Hall strip Hin). unfold windows_hold in Hall.
  rewrite forallb_forall in Hall. apply Z.leb_le. apply Hall.
  apply In_zseq. unfold STRIP_LENGTH in *. lia.
Qed.

(** X16. A generated grid shows at most one scatter per column: on a
    generator of 6 columns and at most 5 rows, in either mode, with a seed
    or without, [generateInitialGrid] returns a grid of which every column
    holds at most one [infinity_glove], so the grid holds at most 6: no
    window of 5 consecutive symbols of a shipped strip, wrapping at its
    end, holds two scatters. *)
Theorem at_most_one_scatter_per_column (rng : EntropyProvider) (g : Generator)
    (options : GridOptions) (w : World rng) :
  cols g = 6 -> rows g <= 5 ->
  exists result : GridResult,
    fst (generateInitialGrid rng g options w) = Returns result /\
    Forall (fun column => scatters_in column <= 1) (grid result) /\
    0 <= scatters (grid result) <= 6.
Proof.
  intros Hcols Hrows.
  destruct (generateInitialGrid_run rng g options w) as (w1 & _ & Hrun).
  destruct (generateInitialGrid_columns_returns g (getStrips (freeSpinsMode options))
              (stop_positions rng (Z.to_nat (cols g)) (seed options) (source w)))
    as [counts Ecols].
  { rewrite getStrips_length. lia. }
  rewrite Ecols in Hrun. destruct Hrun as [md Hrun].
  eexists. split; [rewrite Hrun; reflexivity |]. cbn [grid].
  set (sp := stop_positions rng (Z.to_nat (cols g)) (seed options) (source w)).
  assert (Hcol : forall c, 0 <= c < 6 ->
             0 <= scatters_in (window g (nth (Z.to_nat c) (getStrips (freeSpinsMode options)) [])
                                 (JS.index sp c)) <= 1).
  { intros c Hc. split; [apply scatters_in_nonneg |].
    destruct (index_in_range sp c) as [p Hp].
    { unfold JS.length, sp. rewrite stop_positions_length. lia. }
    rewrite Hp.
    assert (Hrange : 0 <= p < STRIP_LENGTH).
    { pose proof (stop_positions_range rng (Z.to_nat (cols g)) (seed options) (source w))
        as Hall.
      rewrite Forall_forall in Hall. apply Hall.
      unfold JS.index in Hp. destruct (c <? 0); [discriminate |].
      eapply nth_error_In. exact Hp. }
    pose proof (window_scatters_rows g
                  (nth (Z.to_nat c) (getStrips (freeSpinsMode options)) []) p Hrows).
    pose proof (shipped_window_scatters (freeSpinsMode options) c p Hc Hrange). lia. }
  rewrite Hcols. change (zseq 0 (Z.to_nat 6)) with [0; 1; 2; 3; 4; 5]. cbn [map].
  pose proof (Hcol 0 ltac:(lia)). pose proof (Hcol 1 ltac:(lia)).
  pose proof (Hcol 2 ltac:(lia)). pose proof (Hcol 3 ltac:(lia)).
  pose proof (Hcol 4 ltac:(lia)). pose proof (Hcol 5 ltac:(lia)).
  split; [repeat (apply Forall_cons; [lia |]); apply Forall_nil |].
  cbn [scatters]. lia.
Qed.

Lemma at_most_one_scatter_per_column_witness :
  exists result : GridResult,
    fst (generateInitialGrid sampleRNG defaultGenerator
           {| freeSpinsMode := true; seed := None |} (sampleWorld 7))
    = Returns result /\
    0 <= scatters (grid result) <= 6.
Proof.
  destruct (at_most_one_scatter_per_column sampleRNG defaultGenerator
              {| freeSpinsMode := true; seed := None |} (sampleWorld 7))
    as (result & Hrun & _ & Hcount).
  - reflexivity.
  - cbn. lia.
  - exists result. split; assumption.
Defined.

(** *** Counting the stop vectors that trigger the free spins *)

Lemma stop_vectors_spec (n : nat) :
  forall v, In v (stop_vectors n) ->
            List.length v = n /\ Forall (fun p => 0 <= p < STRIP_LENGTH) v.
Proof.
  induction n as [| n IH]; intros v Hin.
  - destruct Hin as [<- | []]. split; [reflexivity | constructor].
  - cbn [stop_vectors] in Hin. apply in_flat_map in Hin.
    destruct Hin as (p & Hp & Hv). apply in_map_iff in Hv.
    destruct Hv as (v' & <- & Hv'). destruct (IH v' Hv') as [Hlen Hall].
    split; [cbn; now rewrite Hlen |]. constructor; [| assumption].
    apply In_zseq in Hp. unfold STRIP_LENGTH in *. lia.
Qed.

Lemma stop_vectors_length (n : nat) :
  Z.of_nat (List.length (stop_vectors n)) = STRIP_LENGTH ^ Z.of_nat n.
Proof.
  induction n as [| n IH]; [reflexivity |].
  cbn [stop_vectors].
  assert (Hgen : forall ps : list Z,
             Z.of_nat (List.length (flat_map (fun p => map (cons p) (stop_vectors n)) ps))
             = JS.length ps * STRIP_LENGTH ^ Z.of_nat n).
  { induction ps as [| p ps IHps]; [reflexivity |].
    cbn [flat_map]. rewrite List.length_app, List.length_map, Nat2Z.inj_add, IHps, IH.
    rewrite length_cons. lia. }
  rewrite Hgen. unfold JS.length. rewrite zseq_length.
  rewrite Nat2Z.inj_succ, Z.pow_succ_r by lia. reflexivity.
Qed.

Lemma filter_cons_map (P : list Z -> bool) (p : Z) (vs : list (list Z)) :
  List.length (filter P (map (cons p) vs))
  = List.length (filter (fun v => P (p :: v)) vs).
Proof.
  induction vs as [| v vs IH]; [reflexivity |].
  cbn [map filter]. destruct (P (p :: v)); cbn [List.length]; now rewrite IH.
Qed.

Lemma count_by_first (P : list Z -> bool) (vs : list (list Z)) (ps : list Z) :
  Z.of_nat (List.length (filter P (flat_map (fun p => map (cons p) vs) ps)))
  = fold_right Z.add 0
      (map (fun p => Z.of_nat (List.length (filter (fun v => P (p :: v)) vs))) ps).
Proof.
  induction ps as [| p ps IH]; [reflexivity |].
  cbn [flat_map map fold_right].
  rewrite filter_app, List.length_app, Nat2Z.inj_add, IH, filter_cons_map. reflexivity.
Qed.

Lemma sum_by_value (f : Z -> Z) (G : Z -> Z) (t : Z) (ps : list Z) :
  Forall (fun p => 0 <= f p <= 1) ps ->
  fold_right Z.add 0 (map (fun p => G (t - f p)) ps)
  = JS.length (filter (fun p => f p =? 0) ps) * G t
    + JS.length (filter (fun p => f p =? 1) ps) * G (t - 1).
Proof.
  induction ps as [| p ps IH]; intros Hall; [reflexivity |].
  inversion Hall as [| ? ? Hp Hrest]; subst.
  cbn [map fold_right filter]. rewrite (IH Hrest).
  assert (Hcase : f p = 0 \/ f p = 1) by lia.
  destruct Hcase as [E | E]; rewrite E.
  - change (0 =? 0) with true. change (0 =? 1) with false. cbv iota.
    rewrite length_cons, Z.sub_0_r. lia.
  - change (1 =? 0) with false. change (1 =? 1) with true. cbv iota.
    rewrite length_cons. lia.
Qed.

Lemma count_ways (fs : list (Z -> Z)) :
  Forall (fun f => Forall (fun p => 0 <= f p <= 1) (zseq 0 (Z.to_nat STRIP_LENGTH))) fs ->
  forall t : Z,
    Z.of_nat (List.length (filter (fun v => t <=? total fs v)
                             (stop_vectors (List.length fs))))
    = ways (map histogram fs) t.
Proof.
  induction fs as [| f fs IH]; intros Hall t.
  - cbn. destruct (t <=? 0); reflexivity.
  - inversion Hall as [| ? ? Hf Hrest]; subst.
    cbn [List.length stop_vectors map ways]. rewrite count_by_first.
    unfold histogram at 1. cbv iota.
    rewrite <- (sum_by_value f (ways (map histogram fs)) t _ Hf).
    f_equal. apply map_ext. intros p. rewrite <- (IH Hrest).
    do 2 f_equal. apply filter_ext. intros v. cbn [total].
    destruct (Z.leb_spec t (f p + total fs v)), (Z.leb_spec (t - f p) (total fs v));
      try reflexivity; lia.
Qed.

(** The grid of a vector of 6 stop positions holds the scatters of its 6
    windows. *)
Lemma triggers_total (freeSpinsMode : bool) (v : list Z) :
  List.length v = 6%nat ->
  triggers freeSpinsMode v
  = (4 <=? total (map window_scatters (getStrips freeSpinsMode)) v).
Proof.
  intros Hlen. unfold triggers.
  rewrite reconstructGrid_columns_windows by (rewrite getStrips_length; cbn; lia).
  assert (Hstrips : exists s0 s1 s2 s3 s4 s5,
             getStrips freeSpinsMode = [s0; s1; s2; s3; s4; s5])
    by (destruct freeSpinsMode; repeat eexists; reflexivity).
  destruct Hstrips as (s0 & s1 & s2 & s3 & s4 & s5 & ->).
  destruct v as [| p0 [| p1 [| p2 [| p3 [| p4 [| p5 [| ? ?]]]]]]]; try discriminate.
  cbn [cols]. change (zseq 0 (Z.to_nat 6)) with [0; 1; 2; 3; 4; 5].
  cbn [map scatters total]. unfold window, window_scatters. cbn [rows].
  change (Z.to_nat 5) with 5%nat.
  reflexivity.
Qed.

Lemma shipped_columns_0_1 (freeSpinsMode : bool) :
  Forall (fun f => Forall (fun p => 0 <= f p <= 1) (zseq 0 (Z.to_nat STRIP_LENGTH)))
         (map window_scatters (getStrips freeSpinsMode)).
Proof.
  apply Forall_forall. intros f Hf. apply in_map_iff in Hf.
  destruct Hf as (strip & <- & Hstrip).
  apply Forall_forall. intros p Hp. split; [apply scatters_in_nonneg |].
  pose proof (shipped_windows freeSpinsMode) as Hall.
  rewrite forallb_forall in Hall. specialize (Hall strip Hstrip).
  unfold windows_hold in Hall. rewrite forallb_forall in Hall.
  apply Z.leb_le. now apply Hall.
Qed.

Lemma triggering_vectors (freeSpinsMode : bool) :
  Z.of_nat (List.length (filter (triggers freeSpinsMode) (stop_vectors 6)))
  = ways (map histogram (map window_scatters (getStrips freeSpinsMode))) 4.
Proof.
  rewrite <- (count_ways _ (shipped_columns_0_1 freeSpinsMode)).
  rewrite List.length_map.
  replace (List.length (getStrips freeSpinsMode)) with 6%nat
    by (now destruct freeSpinsMode).
  do 2 f_equal. apply filter_ext_in. intros v Hv.
  apply triggers_total. now apply stop_vectors_spec.
Qed.

(** X17. The trigger rate of the shipped strips, counted exactly: of the
    120^6 vectors of 6 stop positions, 56,592,000,000 give a base-game
    grid of 6 columns and 5 rows with 4 scatters or more, and
    58,691,406,250 a free-spins grid; as a share of all vectors both lie
    between 1% and 5%, the band the validation script accepts for the
    simulated rate, and below 2%. *)
Theorem scatter_trigger_rate :
  let all := Z.of_nat (List.length (stop_vectors 6)) in
  let base := Z.of_nat (List.length (filter (triggers false) (stop_vectors 6))) in
  let free := Z.of_nat (List.length (filter (triggers true) (stop_vectors 6))) in
  all = 120 ^ 6 /\
  base = 56592000000 /\
  free = 58691406250 /\
  (1 * all <= 100 * base <= 5 * all) /\
  (1 * all <= 100 * free <= 5 * all) /\
  100 * base < 2 * all /\ 100 * free < 2 * all.
Proof.
  intros all base free.
  assert (Hall : all = 120 ^ 6) by apply (stop_vectors_length 6).
  assert (Hbase : base = 56592000000).
  { unfold base. rewrite triggering_vectors. vm_compute. reflexivity. }
  assert (Hfree : free = 58691406250).
  { unfold free. rewrite triggering_vectors. vm_compute. reflexivity. }
  rewrite Hall, Hbase, Hfree.
  repeat split; try reflexivity; try (intros H; discriminate H).
Qed.

(** ** Histories of calls *)

Section Histories.

Variable rng : EntropyProvider.

Local Open Scope engine_scope.

Lemma draws_app (w w' : World rng) (calls : list EntropyCall) :
  entropyCalls w' = entropyCalls w ++ calls ->
  draws w' = draws w + JS.length (filter is_draw calls).
Proof. unfold draws. intros ->. now rewrite filter_app, length_app. Qed.

(** [generateInitialGrid], whatever it does: a draw for every column, and
    the statistics updated when it returns, untouched when it throws. *)
Lemma generateInitialGrid_accounting (g : Generator) (options : GridOptions)
    (w : World rng) :
  let run := generateInitialGrid rng g options w in
  let sp := stop_positions rng (Z.to_nat (cols g)) (seed options) (source w) in
  draws (snd run) = draws w + Z.max 0 (cols g) /\
  (statistics (snd run) = statistics w /\ (6 < cols g) \/
   statistics (snd run)
   = {| gridsGenerated := gridsGenerated (statistics w) + 1;
        symbolsGenerated := symbolsGenerated (statistics w) + cols g * rows g;
        replacementSymbolsGenerated := replacementSymbolsGenerated (statistics w);
        lastStopPositions := Some sp;
        initialized := initialized (statistics w) |}).
Proof.
  cbv zeta.
  destruct (generateInitialGrid rng g options w) as [o w'] eqn:Hgen.
  unfold generateInitialGrid in Hgen.
  destruct (Date_now_effects rng w) as (w1 & E1 & Q1s & Q1e & Q1c & Q1k & Q1a).
  destruct (generateStopPositions_effects rng g (seed options) w1)
    as (w2 & t1 & E2 & Q2s & Q2k & Q2c & Q2a).
  rewrite Q1e in E2, Q2c.
  erewrite bind_returns in Hgen by exact E1.
  erewrite bind_returns in Hgen by exact E2.
  assert (Hdraws : draws w2 = draws w + Z.max 0 (cols g)).
  { rewrite (draws_app w1 w2 _ Q2c). unfold draws. rewrite Q1c.
    destruct (stop_calls_draws rng (Z.to_nat (cols g)) (seed options) (source w))
      as [Hd _].
    unfold JS.length at 2. rewrite Hd. lia. }
  destruct (generateInitialGrid_columns g (getStrips (freeSpinsMode options))
              (stop_positions rng (Z.to_nat (cols g)) (seed options) (source w)))
    as [[gr counts] | e] eqn:Ecols.
  - erewrite bind_returns in Hgen by reflexivity.
    cbv beta iota in Hgen.
    destruct (Date_now_effects rng w2) as (w3 & E3 & Q3s & Q3e & Q3c & Q3k & Q3a).
    erewrite bind_returns in Hgen by exact E3.
    erewrite bind_returns in Hgen by reflexivity.
    match type of Hgen with
    | bind (logAuditEvent rng g ?ev ?d) _ ?w4 = _ =>
        destruct (logAuditEvent_effects rng g ev d w4)
          as (w5 & E5 & Q5s & Q5e & Q5c & Q5k & Q5a)
    end.
    erewrite bind_returns in Hgen by exact E5.
    unfold ret in Hgen. injection Hgen as <- <-. cbn [snd]. split.
    + unfold draws in *. rewrite Q5c. cbn [entropyCalls]. rewrite Q3c. exact Hdraws.
    + right. rewrite Q5s. cbn. now rewrite Q3s, Q2s, Q1s.
  - erewrite bind_throws in Hgen by reflexivity.
    injection Hgen as <- <-. cbn [snd]. split; [exact Hdraws |].
    left. split; [congruence |].
    destruct (Z.le_gt_cases (cols g) 6) as [Hle | Hgt]; [| lia].
    destruct (generateInitialGrid_columns_returns g (getStrips (freeSpinsMode options))
                (stop_positions rng (Z.to_nat (cols g)) (seed options) (source w)))
      as [counts' Eret]; [rewrite getStrips_length; lia |].
    congruence.
Qed.

(** The loop over the columns of a batch, whatever the columns: as many
    replacements counted as values drawn, and no event. *)
Lemma replace_columns_accounting (freeSpinsMode : bool) (cascadeSeed : option string)
    (entries : ByColumn) :
  forall (replacements : list CellReplacement) (w : World rng),
    let run := replace_columns rng freeSpinsMode cascadeSeed entries replacements w in
    exists n : Z,
      0 <= n /\
      statistics (snd run) = replacements_counted n (statistics w) /\
      draws (snd run) = draws w + n /\
      auditTrail (snd run) = auditTrail w /\
      clock (snd run) = clock w /\ ticks (snd run) = ticks w.
Proof.
  induction entries as [| [colNum colPositions] rest IH]; intros replacements w; cbv zeta.
  - exists 0. cbn. rewrite replacements_counted_0. repeat split; lia.
  - cbn [replace_columns].
    destruct (getStrip colNum freeSpinsMode) as [strip | e] eqn:Eg.
    + erewrite bind_returns by reflexivity.
      assert (Hlen : 0 < JS.length strip).
      { rewrite (getStrip_length _ _ _ Eg). reflexivity. }
      destruct (replace_cells_effects rng cascadeSeed colNum strip colPositions Hlen
                  replacements w)
        as (out1 & w1 & calls1 & E1 & _ & _ & Q1s & Q1a & Q1k & Q1t & Q1c & Hd1).
      erewrite bind_returns by exact E1.
      destruct (IH (replacements ++ out1) w1) as (n & Hn & Qs & Qd & Qa & Qk & Qt).
      exists (JS.length colPositions + n).
      split; [unfold JS.length; lia |].
      split; [rewrite Qs, Q1s; apply replacements_counted_add |].
      split.
      { rewrite Qd, (draws_app w w1 _ Q1c). unfold JS.length. rewrite Hd1. lia. }
      split; [congruence |]. split; congruence.
    + erewrite bind_throws by reflexivity.
      exists 0. cbn. rewrite replacements_counted_0. repeat split; lia.
Qed.

Lemma generateReplacementSymbols_accounting (g : Generator) (positions : list Cell)
    (freeSpinsMode : bool) (cascadeSeed : option string) (w : World rng) :
  let run := generateReplacementSymbols rng g positions freeSpinsMode cascadeSeed w in
  exists n : Z,
    0 <= n /\
    statistics (snd run) = replacements_counted n (statistics w) /\
    draws (snd run) = draws w + n.
Proof.
  cbv zeta. unfold generateReplacementSymbols.
  destruct (replace_columns_accounting freeSpinsMode cascadeSeed (group_by_column positions)
              [] w) as (n & Hn & Qs & Qd & _).
  destruct (replace_columns rng freeSpinsMode cascadeSeed (group_by_column positions) [] w)
    as [[out | e] w1] eqn:E1; cbn [snd] in Qs, Qd.
  - erewrite bind_returns by exact E1.
    match goal with
    | |- context [bind (logAuditEvent rng g ?ev ?d) _ ?w0] =>
        destruct (logAuditEvent_effects rng g ev d w0)
          as (w' & E' & Q2s & Q2e & Q2c & Q2k & Q2a)
    end.
    erewrite bind_returns by exact E'. cbn [snd ret].
    exists n. split; [assumption |]. split; [congruence |].
    unfold draws in *. now rewrite Q2c.
  - erewrite bind_throws by exact E1. cbn [snd].
    exists n. now repeat split.
Qed.

Lemma generateReplacementSymbol_accounting (g : Generator) (column : Z)
    (freeSpinsMode : bool) (seed : option string) (w : World rng) :
  let run := generateReplacementSymbol rng g column freeSpinsMode seed w in
  exists n : Z,
    0 <= n /\
    statistics (snd run) = replacements_counted n (statistics w) /\
    draws (snd run) = draws w + n.
Proof.
  cbv zeta. unfold generateReplacementSymbol.
  destruct ((column <? 0) || (column >=? cols g)).
  { exists 0. cbn. rewrite replacements_counted_0. repeat split; lia. }
  destruct (getStrip column freeSpinsMode) as [strip | e] eqn:Eg.
  - erewrite bind_returns by reflexivity.
    assert (Hlen : 0 < JS.length strip).
    { rewrite (getStrip_length _ _ _ Eg). reflexivity. }
    destruct (draw_stripPosition_effects rng seed strip w Hlen)
      as (p & w1 & calls & E1 & Hp & Q1s & Q1a & Q1k & Q1t & Q1c & Hdraw & _).
    erewrite bind_returns by exact E1.
    erewrite bind_returns by reflexivity.
    match goal with
    | |- context [bind (logAuditEvent rng g ?ev ?d) _ ?w2] =>
        destruct (logAuditEvent_effects rng g ev d w2)
          as (w3 & E3 & Q3s & Q3e & Q3c & Q3k & Q3a)
    end.
    erewrite bind_returns by exact E3. cbn [snd ret].
    exists 1. split; [lia |]. split.
    + rewrite Q3s. cbn [statistics]. rewrite Q1s.
      rewrite <- (replacements_counted_0 (count_replacement (statistics w))).
      now rewrite replacements_counted_succ.
    + unfold draws at 1. rewrite Q3c. cbn [entropyCalls].
      change (JS.length (filter is_draw (entropyCalls w1))) with (draws w1).
      rewrite (draws_app w w1 _ Q1c). unfold JS.length. rewrite Hdraw. lia.
  - erewrite bind_throws by reflexivity.
    exists 0. cbn. rewrite replacements_counted_0. repeat split; lia.
Qed.

Lemma reconstructGrid_accounting (g : Generator) (stopPositions : StopArg)
    (freeSpinsMode : bool) (v : option string) (w : World rng) :
  let run := reconstructGrid rng g stopPositions freeSpinsMode v w in
  statistics (snd run) = statistics w /\ draws (snd run) = draws w.
Proof.
  cbv zeta. unfold reconstructGrid.
  destruct (negb _); [now split |].
  destruct stopPositions as [| positions]; [now split |].
  destruct (negb _); [now split |].
  destruct (reconstructGrid_columns g (getStrips freeSpinsMode) positions) as [gr | e].
  - erewrite bind_returns by reflexivity.
    match goal with
    | |- context [bind (logAuditEvent rng g ?ev ?d) _ ?w0] =>
        destruct (logAuditEvent_effects rng g ev d w0)
          as (w' & E' & Qs & Qe & Qc & Qk & Qa)
    end.
    erewrite bind_returns by exact E'. cbn [snd ret].
    split; [assumption |]. unfold draws. now rewrite Qc.
  - erewrite bind_throws by reflexivity. now split.
Qed.

Lemma accounted_replacements (g : Generator) (n : Z) (s : Statistics) :
  0 <= n -> accounted g s -> accounted g (replacements_counted n s).
Proof.
  intros Hn (H1 & H2 & H3 & H4). unfold accounted, replacements_counted. cbn.
  repeat split; try assumption; lia.
Qed.

Lemma perform_accounted (g : Generator) (c : Call) (w : World rng) :
  accounted g (statistics w) -> accounted g (statistics (perform rng g c w)).
Proof.
  intros Hacc. destruct c as [options | seed | column mode seed | positions mode seed
                              | stopPositions mode v | |]; cbn [perform].
  - destruct (generateInitialGrid_accounting g options w) as [_ [[-> _] | ->]];
      [assumption |].
    destruct Hacc as (H1 & H2 & H3 & H4). unfold accounted. cbn.
    split; [lia |]. split; [assumption |]. split; [rewrite H3; ring |].
    split; [destruct (lastStopPositions (statistics w)); lia |].
    split; [| apply stop_positions_range].
    unfold JS.length. rewrite stop_positions_length. lia.
  - destruct (generateStopPositions_effects rng g seed w) as (w' & t & E & Qs & _).
    rewrite E. cbn [snd]. now rewrite Qs.
  - destruct (generateReplacementSymbol_accounting g column mode seed w)
      as (n & Hn & -> & _).
    now apply accounted_replacements.
  - destruct (generateReplacementSymbols_accounting g positions mode seed w)
      as (n & Hn & -> & _).
    now apply accounted_replacements.
  - destruct (reconstructGrid_accounting g stopPositions mode v w) as [-> _]. assumption.
  - exact Hacc.
  - unfold resetStatistics.
    destruct (Date_now_effects rng w) as (w1 & E1 & _).
    erewrite bind_returns by exact E1.
    erewrite bind_returns by reflexivity.
    match goal with
    | |- context [logAuditEvent rng g ?ev ?d ?w0] =>
        destruct (logAuditEvent_effects rng g ev d w0) as (w' & E' & Qs & _)
    end.
    rewrite E'. cbn [snd]. rewrite Qs. unfold accounted. cbn. repeat split; lia.
Qed.

Lemma history_accounted (g : Generator) (calls : list Call) :
  forall w : World rng,
    accounted g (statistics w) -> accounted g (statistics (history rng g calls w)).
Proof.
  induction calls as [| c calls IH]; intros w Hacc; [assumption |].
  cbn [history fold_left]. apply IH. now apply perform_accounted.
Qed.

Lemma perform_counts_draws (g : Generator) (c : Call) (w : World rng) :
  cols g <= 6 -> counts_draws c = true ->
  draws (perform rng g c w) - draws w
  = Z.max 0 (cols g)
    * (gridsGenerated (statistics (perform rng g c w)) - gridsGenerated (statistics w))
    + (replacementSymbolsGenerated (statistics (perform rng g c w))
       - replacementSymbolsGenerated (statistics w)).
Proof.
  intros Hcols Hc.
  destruct c as [options | seed | column mode seed | positions mode seed
                 | stopPositions mode v | |]; cbn [perform]; try discriminate Hc.
  - destruct (generateInitialGrid_accounting g options w) as [-> [[_ Hbig] | ->]];
      [lia |]. cbn. lia.
  - destruct (generateReplacementSymbol_accounting g column mode seed w)
      as (n & Hn & -> & ->). cbn. lia.
  - destruct (generateReplacementSymbols_accounting g positions mode seed w)
      as (n & Hn & -> & ->). cbn. lia.
  - destruct (reconstructGrid_accounting g stopPositions mode v w) as [-> ->]. lia.
  - cbn. unfold draws. cbn. lia.
Qed.

End Histories.

(** X18. The statistics of a generator always agree with one another:
    after the constructor, with any options, and any sequence of calls of
    its methods after it, with any arguments, failed calls included, the
    counts of grids and of replacements are not negative,
    [symbolsGenerated] is [gridsGenerated * cols * rows], and
    [lastStopPositions] is [null] exactly while no grid is counted, and
    otherwise holds one position in [0, STRIP_LENGTH) for each column. *)
Theorem statistics_stay_accounted (rng : EntropyProvider) (options : Options)
    (calls : list Call) (w : World rng) :
  exists (g : Generator) (w0 : World rng),
    constructor rng options w = (Returns g, w0) /\
    accounted g (statistics w0) /\
    accounted g (statistics (history rng g calls w0)).
Proof.
  unfold constructor.
  set (g := {| rows := JS.or_default (opt_rows options) 5;
               cols := JS.or_default (opt_cols options) 6;
               auditLogging := match opt_auditLogging options with
                               | Some false => false
                               | _ => true
                               end |}).
  destruct (Date_now_effects rng w) as (w1 & E1 & _).
  erewrite bind_returns by exact E1.
  erewrite bind_returns by reflexivity.
  match goal with
  | |- context [bind (logAuditEvent rng g ?ev ?d) _ ?w2] =>
      destruct (logAuditEvent_effects rng g ev d w2) as (w3 & E3 & Q3s & _)
  end.
  erewrite bind_returns by exact E3.
  exists g, w3. split; [reflexivity |].
  assert (Hacc : accounted g (statistics w3)).
  { rewrite Q3s. unfold accounted. cbn. repeat split; lia. }
  split; [exact Hacc |]. now apply history_accounted.
Qed.

(** X19. Every draw is counted: on a generator of at most 6 columns, over
    any sequence of calls that holds no reset and no direct call of
    [generateStopPositions], the number of values drawn from the provider
    is the number of columns times the growth of [gridsGenerated] plus the
    growth of [replacementSymbolsGenerated], whatever the calls return or
    throw. *)
Theorem every_draw_is_counted (rng : EntropyProvider) (g : Generator)
    (calls : list Call) (w : World rng) :
  cols g <= 6 ->
  forallb counts_draws calls = true ->
  draws (history rng g calls w) - draws w
  = Z.max 0 (cols g)
    * (gridsGenerated (statistics (history rng g calls w)) - gridsGenerated (statistics w))
    + (replacementSymbolsGenerated (statistics (history rng g calls w))
       - replacementSymbolsGenerated (statistics w)).
Proof.
  intros Hcols. revert w. induction calls as [| c calls IH]; intros w Hcalls.
  - cbn. lia.
  - cbn [forallb] in Hcalls. apply andb_prop in Hcalls. destruct Hcalls as [Hc Hrest].
    cbn [history fold_left]. fold (history rng g calls (perform rng g c w)).
    pose proof (IH (perform rng g c w) Hrest) as Hlater.
    pose proof (perform_counts_draws rng g c w Hcols Hc) as Hnow.
    lia.
Qed.

Lemma every_draw_is_counted_witness :
  let calls :=
    [ GenerateInitialGrid {| freeSpinsMode := false; seed := Some "seed-X" |};
      GenerateReplacementSymbols
        [ {| col := 1; row := 0 |}; {| col := 7; row := 0 |}; {| col := 1; row := 1 |} ]
        false None;
      GenerateReplacementSymbol 9 false None;
      GenerateReplacementSymbol 2 true None;
      ReconstructGrid NotAnArray false None;
      GetStatistics ] in
  draws (history sampleRNG defaultGenerator calls (sampleWorld 0)) = 6 * 1 + 3.
Proof.
  intros calls.
  pose proof (every_draw_is_counted sampleRNG defaultGenerator calls (sampleWorld 0)
                ltac:(discriminate) eq_refl) as H.
  assert (Hg : gridsGenerated (statistics (history sampleRNG defaultGenerator calls
                                             (sampleWorld 0))) = 1)
    by (vm_compute; reflexivity).
  assert (Hr : replacementSymbolsGenerated
                 (statistics (history sampleRNG defaultGenerator calls (sampleWorld 0))) = 3)
    by (vm_compute; reflexivity).
  rewrite Hg, Hr in H.
  change (draws (sampleWorld 0)) with 0 in H.
  change (cols defaultGenerator) with 6 in H.
  change (gridsGenerated (statistics (sampleWorld 0))) with 0 in H.
  change (replacementSymbolsGenerated (statistics (sampleWorld 0))) with 0 in H.
  lia.
Defined.

(** ** A corrupted strip table *)

Lemma replace_at_split {A : Type} (i : Z) (x d : A) (a : list A) :
  0 <= i < JS.length a ->
  exists (before : list A) (after : list A),
    a = before ++ nth (Z.to_nat i) a d :: after /\
    JS.length before = i /\
    replace_at i x a = before ++ x :: after.
Proof.
  unfold JS.length. intros Hi.
  destruct (nth_error a (Z.to_nat i)) as [y |] eqn:Ey.
  2:{ apply nth_error_None in Ey. lia. }
  destruct (nth_error_split a (Z.to_nat i) Ey) as (before & after & Ea & Hlen).
  exists before, after.
  assert (Hnth : nth (Z.to_nat i) a d = y) by (now apply nth_error_nth).
  rewrite Hnth. split; [exact Ea |]. split; [lia |].
  unfold replace_at. rewrite Ea, <- Hlen. clear.
  induction before as [| b before IH]; [reflexivity |].
  cbn [List.length firstn skipn app] in *. now rewrite IH.
Qed.

Lemma position_errors_app (mode : string) (col : Z) (l l' : list string) :
  forall pos : Z,
    position_errors mode col pos (l ++ l')
    = position_errors mode col pos l ++ position_errors mode col (pos + JS.length l) l'.
Proof.
  induction l as [| s l IH]; intros pos.
  - cbn [app position_errors]. change (JS.length (@nil string)) with 0.
    now rewrite Z.add_0_r.
  - cbn [app position_errors]. rewrite IH, <- app_assoc, length_cons.
    do 3 f_equal. lia.
Qed.

Lemma column_errors_app (mode : string) (l l' : list (list string)) :
  forall col : Z,
    column_errors mode col (l ++ l')
    = column_errors mode col l ++ column_errors mode (col + JS.length l) l'.
Proof.
  induction l as [| strip l IH]; intros col.
  - cbn [app column_errors]. change (JS.length (@nil (list string))) with 0.
    now rewrite Z.add_0_r.
  - cbn [app column_errors]. rewrite IH, <- app_assoc, length_cons.
    do 3 f_equal. lia.
Qed.

Lemma corrupted_errors (mode : string) (strips : list (list string)) (c p : Z)
    (s : string) :
  well_formed strips -> 0 <= c < 6 -> 0 <= p < STRIP_LENGTH -> ~ In s validSymbols ->
  mode_errors mode (corrupted strips c p s)
  = [ (mode ++ " column " ++ JS.show c ++ " position " ++ JS.show p
         ++ ": Invalid symbol '" ++ s ++ "'")%string ].
Proof.
  intros [Hsix Hall] Hc Hp Hs. unfold corrupted.
  destruct (replace_at_split c (replace_at p s (nth (Z.to_nat c) strips [])) [] strips)
    as (S1 & S2 & Estrips & HlenS & ->); [lia |].
  set (strip := nth (Z.to_nat c) strips []) in *.
  rewrite Estrips in Hall. apply Forall_app in Hall. destruct Hall as [H1 H2].
  apply Forall_cons_iff in H2. destruct H2 as [[Hlen Hsyms] H3].
  destruct (replace_at_split p s ""%string strip) as (l1 & l2 & Estrip & Hlenl & ->);
    [lia |].
  assert (Hsyms' : Forall (fun s => In s validSymbols) l1 /\
                   Forall (fun s => In s validSymbols) l2).
  { rewrite Estrip in Hsyms. apply Forall_app in Hsyms. destruct Hsyms as [Ha Hb].
    apply Forall_cons_iff in Hb. now split. }
  destruct Hsyms' as [Hl1 Hl2].
  assert (Hlen' : JS.length (l1 ++ s :: l2) = STRIP_LENGTH).
  { rewrite <- Hlen. rewrite Estrip at 1. rewrite !length_app, !length_cons. reflexivity. }
  assert (Hsix' : JS.length (S1 ++ (l1 ++ s :: l2) :: S2) = 6).
  { rewrite <- Hsix. rewrite Estrips at 1. rewrite !length_app, !length_cons. reflexivity. }
  unfold mode_errors. rewrite Hsix'. cbn [Z.eqb Pos.eqb app].
  rewrite column_errors_app. cbn [column_errors].
  rewrite (proj2 (column_errors_nil mode S1 0) H1).
  rewrite (proj2 (column_errors_nil mode S2 (0 + JS.length S1 + 1)) H3).
  rewrite app_nil_r. cbn [app]. rewrite HlenS, Z.add_0_l.
  unfold strip_errors. rewrite Hlen'. cbn [Z.eqb Pos.eqb app STRIP_LENGTH].
  rewrite position_errors_app. cbn [position_errors].
  rewrite (proj2 (position_errors_nil mode c l1 0) Hl1).
  rewrite (proj2 (position_errors_nil mode c l2 (0 + JS.length l1 + 1)) Hl2).
  rewrite app_nil_r. cbn [app]. rewrite Hlenl, Z.add_0_l.
  destruct (validSymbols_has s) eqn:E; [| reflexivity].
  apply validSymbols_has_In in E. contradiction.
Qed.

(** X20. One bad symbol is reported once, where it is: in strip tables
    that pass the structural checks, replacing the symbol at position [p]
    of column [c] of the base table, or of the free-spins table, by a
    string outside the alphabet makes [validateStrips] return
    [valid = false] with exactly one error, which names the table, the
    column, the position and the string. *)
Theorem one_bad_symbol_is_located (base free_spins : list (list string)) (c p : Z)
    (s : string) :
  well_formed base -> well_formed free_spins ->
  0 <= c < 6 -> 0 <= p < STRIP_LENGTH -> ~ In s validSymbols ->
  let in_base := validateStrips_of (corrupted base c p s) free_spins in
  let in_free_spins := validateStrips_of base (corrupted free_spins c p s) in
  valid in_base = false /\
  errors in_base
  = [ ("base column " ++ JS.show c ++ " position " ++ JS.show p
         ++ ": Invalid symbol '" ++ s ++ "'")%string ] /\
  valid in_free_spins = false /\
  errors in_free_spins
  = [ ("free_spins column " ++ JS.show c ++ " position " ++ JS.show p
         ++ ": Invalid symbol '" ++ s ++ "'")%string ].
Proof.
  intros Hbase Hfree Hc Hp Hs. cbv zeta.
  rewrite !validateStrips_of_filed.
  rewrite (corrupted_errors "base" base c p s Hbase Hc Hp Hs).
  rewrite (corrupted_errors "free_spins" free_spins c p s Hfree Hc Hp Hs).
  rewrite (proj2 (mode_errors_nil "base" base) Hbase).
  rewrite (proj2 (mode_errors_nil "free_spins" free_spins) Hfree).
  cbn [app valid errors]. now repeat split.
Qed.

Lemma getStrips_well_formed (freeSpinsMode : bool) : well_formed (getStrips freeSpinsMode).
Proof.
  split; [apply getStrips_length |].
  assert (H : Forall (fun strip =>
                        JS.length strip = 120 /\
                        Forall (fun s => In s validSymbols) strip /\
                        4 <= scatterCount strip <= 7) (getStrips freeSpinsMode))
    by (apply strip_checks_sound; destruct freeSpinsMode; vm_compute; reflexivity).
  eapply Forall_impl; [| exact H]. intros strip (Hlen & Hsyms & _). now split.
Qed.

Lemma one_bad_symbol_is_located_witness :
  errors (validateStrips_of (corrupted BASE_GAME_STRIPS 2 17 "wild") FREE_SPINS_STRIPS)
  = ["base column 2 position 17: Invalid symbol 'wild'"].
Proof.
  assert (Hs : ~ In "wild"%string validSymbols).
  { intros H. cbn in H.
    repeat (destruct H as [H | H]; [discriminate H |]). exact H. }
  destruct (one_bad_symbol_is_located BASE_GAME_STRIPS FREE_SPINS_STRIPS 2 17 "wild"
              (getStrips_well_formed false) (getStrips_well_formed true)
              ltac:(lia) ltac:(unfold STRIP_LENGTH; lia) Hs)
    as (_ & Herrors & _).
  exact Herrors.
Defined.

(** ** The clock *)

Section Clock.

Variable rng : EntropyProvider.

Local Open Scope engine_scope.

Lemma forward_bind {A B : Type} (m : M rng A) (k : A -> M rng B) :
  runs_forward m -> (forall a, runs_forward (k a)) -> runs_forward (bind m k).
Proof.
  intros Hm Hk w. unfold bind. destruct (Hm w) as (Hc & Ht & Hi).
  destruct (m w) as [[a | e] w1]; cbn [snd] in *; [| now repeat split].
  destruct (Hk a w1) as (Hc' & Ht' & Hi').
  split; [congruence |]. split; [lia | congruence].
Qed.

Lemma forward_ret {A : Type} (a : A) : runs_forward (ret (rng := rng) a).
Proof. intros w. now repeat split. Qed.

Lemma forward_throw {A : Type} (e : Error) : runs_forward (throw (rng := rng) (A := A) e).
Proof. intros w. now repeat split. Qed.

Lemma forward_lift {A : Type} (o : Outcome A) : runs_forward (lift (rng := rng) o).
Proof. intros w. now repeat split. Qed.

Lemma forward_Date_now : runs_forward (Date_now rng).
Proof. intros w. cbn. repeat split; lia. Qed.

Lemma forward_read_statistics : runs_forward (read_statistics rng).
Proof. intros w. now repeat split. Qed.

Lemma forward_modify_statistics (f : Statistics -> Statistics) :
  (forall s, initialized (f s) = initialized s) ->
  runs_forward (modify_statistics rng f).
Proof. intros Hf w. cbn. repeat split; [lia | apply Hf]. Qed.

Lemma forward_rng_randomInt (lo hi : Z) : runs_forward (rng_randomInt rng lo hi).
Proof.
  intros w. unfold rng_randomInt. destruct (randomInt rng lo hi (source w)).
  cbn. repeat split; lia.
Qed.

Lemma forward_rng_createSeededRNG (seed : string) :
  runs_forward (rng_createSeededRNG rng seed).
Proof. intros w. cbn. repeat split; lia. Qed.

Lemma forward_call_seededRNG (st : stream rng) : runs_forward (call_seededRNG rng st).
Proof.
  intros w. unfold call_seededRNG. destruct (seededRNG rng st). cbn. repeat split; lia.
Qed.

Lemma forward_for_M {St : Type} (body : Z -> St -> M rng St) (n : nat) :
  (forall i s, runs_forward (body i s)) ->
  forall (i : Z) (s : St), runs_forward (for_M n i body s).
Proof.
  intros Hbody. induction n as [| n IH]; intros i s; cbn [for_M].
  - apply forward_ret.
  - apply forward_bind; [apply Hbody | intros a; apply IH].
Qed.

Lemma forward_logAuditEvent (g : Generator) (ev : string) (d : AuditData) :
  runs_forward (logAuditEvent rng g ev d).
Proof.
  unfold logAuditEvent. destruct (negb (auditLogging g)); [apply forward_ret |].
  apply forward_bind; [apply forward_Date_now | intros now].
  intros w. cbn. repeat split; lia.
Qed.

Lemma forward_draw_stripPosition (seed : option string) (strip : list string) :
  runs_forward (draw_stripPosition rng seed strip).
Proof.
  unfold draw_stripPosition. destruct (when_truthy seed).
  - apply forward_bind; [apply forward_rng_createSeededRNG | intros st].
    apply forward_bind; [apply forward_call_seededRNG | intros [u st']].
    apply forward_ret.
  - apply forward_rng_randomInt.
Qed.

Lemma forward_replace_cells (cascadeSeed : option string) (colNum : Z)
    (strip : list string) (colPositions : list Cell) :
  forall replacements : list CellReplacement,
    runs_forward (replace_cells rng cascadeSeed colNum strip colPositions replacements).
Proof.
  induction colPositions as [| pos rest IH]; intros replacements; cbn [replace_cells].
  - apply forward_ret.
  - apply forward_bind; [apply forward_draw_stripPosition | intros p].
    apply forward_bind; [now apply forward_modify_statistics | intros _]. apply IH.
Qed.

Lemma forward_replace_columns (freeSpinsMode : bool) (cascadeSeed : option string)
    (entries : ByColumn) :
  forall replacements : list CellReplacement,
    runs_forward (replace_columns rng freeSpinsMode cascadeSeed entries replacements).
Proof.
  induction entries as [| [colNum colPositions] rest IH]; intros replacements;
    cbn [replace_columns].
  - apply forward_ret.
  - apply forward_bind; [apply forward_lift | intros strip].
    apply forward_bind; [apply forward_replace_cells | intros rs]. apply IH.
Qed.

Lemma forward_generateStopPositions (g : Generator) (seed : option string) :
  runs_forward (generateStopPositions rng g seed).
Proof.
  unfold generateStopPositions. apply forward_bind.
  - destruct (when_truthy seed).
    + apply forward_bind; [apply forward_rng_createSeededRNG | intros st].
      apply forward_bind; [| intros a; apply forward_ret].
      apply forward_for_M. intros i [st' sp].
      apply forward_bind; [apply forward_call_seededRNG | intros [u st'']].
      apply forward_ret.
    + apply forward_for_M. intros i sp.
      apply forward_bind; [apply forward_rng_randomInt | intros p; apply forward_ret].
  - intros sp. apply forward_bind; [apply forward_logAuditEvent | intros _].
    apply forward_ret.
Qed.

Lemma forward_generateInitialGrid (g : Generator) (options : GridOptions) :
  runs_forward (generateInitialGrid rng g options).
Proof.
  unfold generateInitialGrid.
  apply forward_bind; [apply forward_Date_now | intros t0].
  apply forward_bind; [apply forward_generateStopPositions | intros sp].
  apply forward_bind; [apply forward_lift | intros [gr counts]].
  apply forward_bind; [apply forward_Date_now | intros t1].
  apply forward_bind; [now apply forward_modify_statistics | intros _].
  apply forward_bind; [apply forward_logAuditEvent | intros _].
  apply forward_ret.
Qed.

Lemma forward_generateReplacementSymbol (g : Generator) (column : Z)
    (freeSpinsMode : bool) (seed : option string) :
  runs_forward (generateReplacementSymbol rng g column freeSpinsMode seed).
Proof.
  unfold generateReplacementSymbol.
  destruct ((column <? 0) || (column >=? cols g)); [apply forward_throw |].
  apply forward_bind; [apply forward_lift | intros strip].
  apply forward_bind; [apply forward_draw_stripPosition | intros p].
  apply forward_bind; [now apply forward_modify_statistics | intros _].
  apply forward_bind; [apply forward_logAuditEvent | intros _].
  apply forward_ret.
Qed.

Lemma forward_generateReplacementSymbols (g : Generator) (positions : list Cell)
    (freeSpinsMode : bool) (cascadeSeed : option string) :
  runs_forward (generateReplacementSymbols rng g positions freeSpinsMode cascadeSeed).
Proof.
  unfold generateReplacementSymbols.
  apply forward_bind; [apply forward_replace_columns | intros rs].
  apply forward_bind; [apply forward_logAuditEvent | intros _].
  apply forward_ret.
Qed.

Lemma forward_reconstructGrid (g : Generator) (stopPositions : StopArg)
    (freeSpinsMode : bool) (v : option string) :
  runs_forward (reconstructGrid rng g stopPositions freeSpinsMode v).
Proof.
  unfold reconstructGrid.
  destruct (negb _); [apply forward_throw |].
  destruct stopPositions as [| positions]; [apply forward_throw |].
  destruct (negb _); [apply forward_throw |].
  apply forward_bind; [apply forward_lift | intros gr].
  apply forward_bind; [apply forward_logAuditEvent | intros _].
  apply forward_ret.
Qed.

Lemma forward_getStatistics : runs_forward (getStatistics rng).
Proof.
  unfold getStatistics.
  apply forward_bind; [apply forward_read_statistics | intros s].
  apply forward_bind; [apply forward_Date_now | intros now].
  apply forward_ret.
Qed.

Lemma forward_started {A : Type} (m : M rng A) (w : World rng) :
  runs_forward m -> started w -> started (snd (m w)).
Proof.
  intros Hm (t0 & Ht0 & Hinit). destruct (Hm w) as (Hc & Ht & Hi).
  exists t0. split; [lia | congruence].
Qed.

(** Logging, right after the start time is set to a reading of the
    clock. *)
Lemma restart_started (g : Generator) (ev : string) (d : AuditData) (w : World rng)
    (s : Statistics) :
  initialized s = clock w (ticks w) ->
  let w2 := {| statistics := s; source := source w; entropyCalls := entropyCalls w;
               auditTrail := auditTrail w; clock := clock w; ticks := S (ticks w) |} in
  exists w' : World rng,
    logAuditEvent rng g ev d w2 = (Returns tt, w') /\
    started w' /\ clock w' = clock w /\ statistics w' = s.
Proof.
  intros Hinit w2.
  destruct (logAuditEvent_effects rng g ev d w2) as (w' & E' & Qs & _).
  exists w'. split; [exact E' |].
  pose proof (forward_logAuditEvent g ev d) as Hf.
  assert (Hw2 : started w2) by (exists (ticks w); cbn; split; [lia | exact Hinit]).
  pose proof (forward_started _ w2 Hf Hw2) as Hs.
  destruct (Hf w2) as (Hc & _). rewrite E' in Hs, Hc. cbn [snd] in Hs, Hc.
  split; [exact Hs |]. split; [exact Hc | exact Qs].
Qed.

Lemma perform_started (g : Generator) (c : Call) (w : World rng) :
  started w ->
  started (perform rng g c w) /\ clock (perform rng g c w) = clock w.
Proof.
  intros Hw.
  destruct c as [options | seed | column mode seed | positions mode seed
                 | stopPositions mode v | |]; cbn [perform].
  - split; [apply forward_started; [apply forward_generateInitialGrid | assumption] |].
    apply forward_generateInitialGrid.
  - split; [apply forward_started; [apply forward_generateStopPositions | assumption] |].
    apply forward_generateStopPositions.
  - split; [apply forward_started; [apply forward_generateReplacementSymbol | assumption] |].
    apply forward_generateReplacementSymbol.
  - split; [apply forward_started; [apply forward_generateReplacementSymbols | assumption] |].
    apply forward_generateReplacementSymbols.
  - split; [apply forward_started; [apply forward_reconstructGrid | assumption] |].
    apply forward_reconstructGrid.
  - split; [apply forward_started; [apply forward_getStatistics | assumption] |].
    apply forward_getStatistics.
  - unfold resetStatistics.
    erewrite bind_returns by reflexivity.
    erewrite bind_returns by reflexivity.
    match goal with
    | |- context [logAuditEvent rng g ?ev ?d {| statistics := ?s |}] =>
        destruct (restart_started g ev d w s eq_refl) as (w' & E' & Hs & Hc & _)
    end.
    cbv zeta in E'. cbn [statistics source entropyCalls auditTrail clock ticks].
    rewrite E'. split; assumption.
Qed.

Lemma history_started (g : Generator) (calls : list Call) :
  forall w : World rng,
    started w ->
    started (history rng g calls w) /\ clock (history rng g calls w) = clock w.
Proof.
  induction calls as [| c calls IH]; intros w Hw; [now split |].
  cbn [history fold_left]. fold (history rng g calls (perform rng g c w)).
  destruct (perform_started g c w Hw) as [Hs Hc].
  destruct (IH _ Hs) as [Hs' Hc']. split; [assumption | congruence].
Qed.

End Clock.

(** X21. What [getStatistics] reports, at any time in the life of a
    generator: after the constructor and any sequence of calls of the
    methods, it returns the counters as they are, the version and the
    length of the strips, and an uptime that is the clock now less the
    recorded start time, a reading of the clock at the constructor or at
    the last reset, so never negative on a clock that does not run
    backwards; it changes no counter, draws nothing and emits nothing. *)
Theorem getStatistics_reports (rng : EntropyProvider) (options : Options)
    (calls : list Call) (w : World rng) :
  (forall a b : nat, (a <= b)%nat -> clock w a <= clock w b) ->
  exists (g : Generator) (w0 : World rng) (r : StatisticsReport),
    constructor rng options w = (Returns g, w0) /\
    let w1 := history rng g calls w0 in
    fst (getStatistics rng w1) = Returns r /\
    report r = statistics w1 /\
    report_stripVersion r = STRIP_VERSION /\
    report_stripLength r = STRIP_LENGTH /\
    uptime r = clock w1 (ticks w1) - initialized (statistics w1) /\
    0 <= uptime r /\
    statistics (snd (getStatistics rng w1)) = statistics w1 /\
    entropyCalls (snd (getStatistics rng w1)) = entropyCalls w1 /\
    auditTrail (snd (getStatistics rng w1)) = auditTrail w1.
Proof.
  intros Hclock. unfold constructor. cbv zeta.
  set (g := {| rows := JS.or_default (opt_rows options) 5;
               cols := JS.or_default (opt_cols options) 6;
               auditLogging := match opt_auditLogging options with
                               | Some false => false
                               | _ => true
                               end |}).
  erewrite bind_returns by reflexivity.
  erewrite bind_returns by reflexivity.
  cbn [statistics source entropyCalls auditTrail clock ticks]. cbv beta.
  match goal with
  | |- context [bind (logAuditEvent rng g ?ev ?d) _ {| statistics := ?s |}] =>
      destruct (restart_started rng g ev d w s eq_refl) as (w0 & E0 & Hs & Hc & _)
  end.
  cbv zeta in E0. erewrite bind_returns by exact E0.
  exists g, w0. eexists. split; [reflexivity |].
  cbv zeta.
  destruct (history_started rng g calls w0 Hs) as [(t0 & Ht0 & Hinit) Hc1].
  cbn. repeat split; try reflexivity.
  cbn [uptime]. rewrite Hinit, Hc1, Hc.
  pose proof (Hclock t0 (ticks (history rng g calls w0)) Ht0). lia.
Qed.

Lemma getStatistics_reports_witness :
  exists (g : Generator) (w0 : World sampleRNG) (r : StatisticsReport),
    constructor sampleRNG {| opt_rows := None; opt_cols := None; opt_auditLogging := None |}
      (sampleWorld 0)
    = (Returns g, w0) /\
    fst (getStatistics sampleRNG
           (history sampleRNG g
              [ GenerateInitialGrid {| freeSpinsMode := false; seed := None |};
                ResetStatistics; GetStatistics ] w0))
    = Returns r /\
    0 <= uptime r.
Proof.
  destruct (getStatistics_reports sampleRNG
              {| opt_rows := None; opt_cols := None; opt_auditLogging := None |}
              [ GenerateInitialGrid {| freeSpinsMode := false; seed := None |};
                ResetStatistics; GetStatistics ] (sampleWorld 0))
    as (g & w0 & r & Hg & Hr & _ & _ & _ & _ & Hup & _).
  - intros a b Hab.
    change (1700000000000 + Z.of_nat a <= 1700000000000 + Z.of_nat b). lia.
  - exists g, w0, r. split; [exact Hg |]. split; [exact Hr | exact Hup].
Defined.

(** ** The constructor *)

(** X22. What the constructor makes of its options: it always returns; a
    number of rows or of columns that is missing or 0 becomes 5 rows or 6
    columns, and any other number is kept, so a generator never has 0
    rows or 0 columns; logging is off only when [auditLogging] is given
    as [false]; the counters start at 0 with no last stop positions and
    the clock reading as start time; nothing is drawn; and with logging
    on one event is emitted, that carries the version, the strip length
    and the dimensions as [cols x rows]. *)
Theorem constructor_normalises (rng : EntropyProvider) (options : Options)
    (w : World rng) :
  exists (g : Generator) (w' : World rng),
    constructor rng options w = (Returns g, w') /\
    rows g <> 0 /\ cols g <> 0 /\
    (opt_rows options = None \/ opt_rows options = Some 0 -> rows g = 5) /\
    (opt_cols options = None \/ opt_cols options = Some 0 -> cols g = 6) /\
    (forall n, n <> 0 -> opt_rows options = Some n -> rows g = n) /\
    (forall n, n <> 0 -> opt_cols options = Some n -> cols g = n) /\
    (auditLogging g = false <-> opt_auditLogging options = Some false) /\
    statistics w'
    = {| gridsGenerated := 0; symbolsGenerated := 0; replacementSymbolsGenerated := 0;
         lastStopPositions := None; initialized := clock w (ticks w) |} /\
    entropyCalls w' = entropyCalls w /\
    auditTrail w'
    = auditTrail w
        ++ (if auditLogging g
            then [ {| timestamp := clock w (S (ticks w));
                      event := "REEL_STRIP_GENERATOR_INITIALIZED";
                      data := GeneratorInitialized STRIP_VERSION STRIP_LENGTH
                                (JS.show (cols g) ++ "x" ++ JS.show (rows g)) |} ]
            else []).
Proof.
  unfold constructor. cbv zeta.
  set (g := {| rows := JS.or_default (opt_rows options) 5;
               cols := JS.or_default (opt_cols options) 6;
               auditLogging := match opt_auditLogging options with
                               | Some false => false
                               | _ => true
                               end |}).
  erewrite bind_returns by reflexivity.
  erewrite bind_returns by reflexivity.
  cbn [statistics source entropyCalls auditTrail clock ticks]. cbv beta.
  match goal with
  | |- context [bind (logAuditEvent rng g ?ev ?d) _ ?w2] =>
      destruct (logAuditEvent_effects rng g ev d w2) as (w3 & E3 & Qs & Qe & Qc & Qk & Qa)
  end.
  erewrite bind_returns by exact E3.
  exists g, w3. split; [reflexivity |].
  assert (Hdefault : forall (x : option Z) (d : Z),
             d <> 0 ->
             JS.or_default x d <> 0 /\
             (x = None \/ x = Some 0 -> JS.or_default x d = d) /\
             (forall n, n <> 0 -> x = Some n -> JS.or_default x d = n)).
  { intros x d Hd. unfold JS.or_default. destruct x as [v |].
    - destruct (Z.eqb_spec v 0) as [-> | Hv].
      + split; [assumption |]. split; [reflexivity |].
        intros n Hn E. injection E as <-. contradiction.
      + split; [assumption |]. split.
        * intros [E | E]; [discriminate | injection E as ->; contradiction].
        * intros n _ E. now injection E.
    - split; [assumption |]. split; [reflexivity | discriminate]. }
  destruct (Hdefault (opt_rows options) 5 ltac:(discriminate)) as (R1 & R2 & R3).
  destruct (Hdefault (opt_cols options) 6 ltac:(discriminate)) as (C1 & C2 & C3).
  cbn [rows cols auditLogging] in *.
  repeat (split; [assumption |]).
  split; [destruct (opt_auditLogging options) as [[|] |]; split; intros E;
          first [reflexivity | discriminate E] |].
  split; [exact Qs |]. split; [exact Qc |]. exact Qa.
Qed.

(** ** The statistics of the strips *)









(** ** Replays *)

(** X24. A seeded batch can be replayed cell by cell: with a cascade seed
    that is not empty, every replacement a batch returns is the one
    [generateReplacementSymbol] returns, in any world, for the column of
    the cell and the seed [cascadeSeed_col_row], same strip position and
    same symbol, provided the column is below the column count of the
    generator, which the single call checks and the batch does not. *)
Theorem batch_replays_cell_by_cell (rng : EntropyProvider) (g : Generator)
    (positions : list Cell) (mode : bool) (s : string) (w w0 : World rng)
    (rs : list CellReplacement) (r : CellReplacement) :
  s <> ""%string ->
  fst (generateReplacementSymbols rng g positions mode (Some s) w) = Returns rs ->
  In r rs ->
  cell_col r < cols g ->
  fst (generateReplacementSymbol rng g (cell_col r) mode
         (Some (cell_seed s (cell_col r) (cell_row r))) w0)
  = Returns {| symbol := cell_symbol r;
               stripPosition := cell_stripPosition r;
               column := cell_col r;
               rep_stripVersion := cell_stripVersion r;
               rep_freeSpinsMode := mode |}.
Proof.
  intros Hs Hrun Hin Hcols.
  rewrite (generateReplacementSymbols_seeded rng g positions mode s w Hs) in Hrun.
  destruct (seeded_columns_In rng mode s (group_by_column positions) [] rs r Hrun Hin)
    as [[] | (colNum & colPositions & strip & pos & Hentry & Hpos & Hstrip & ->)].
  destruct (group_by_column_spec positions) as (Hsound & _).
  rewrite Forall_forall in Hsound. specialize (Hsound _ Hentry). cbn [fst snd] in Hsound.
  rewrite Forall_forall in Hsound. specialize (Hsound _ Hpos).
  unfold seeded_replacement in *.
  cbn [cell_col cell_row cell_symbol cell_stripPosition cell_stripVersion] in *.
  rewrite Hsound in *.
  rewrite (generateReplacementSymbol_seeded rng g colNum mode _ w0
             (cell_seed_nonempty s colNum (row pos) Hs)).
  rewrite Hstrip.
  assert (Hrange : 0 <= colNum < 6).
  { rewrite getStrip_in_range in Hstrip.
    destruct (Z.ltb_spec colNum 0); [discriminate |].
    destruct (Z.geb_spec colNum 6); [discriminate | lia]. }
  destruct (Z.ltb_spec colNum 0); [lia |].
  destruct (Z.geb_spec colNum (cols g)); [lia |].
  reflexivity.
Qed.

Lemma batch_replays_cell_by_cell_witness :
  fst (generateReplacementSymbol sampleRNG defaultGenerator 4 false
         (Some "cascade-7_4_2") (sampleWorld 5))
  = Returns {| symbol := Some "reality_gem"; stripPosition := 87; column := 4;
               rep_stripVersion := "2.0.0"; rep_freeSpinsMode := false |}.
Proof.
  assert (Hs : "cascade-7"%string <> ""%string) by discriminate.
  assert (Hrun : fst (generateReplacementSymbols sampleRNG defaultGenerator
                        [ {| col := 4; row := 2 |}; {| col := 1; row := 0 |} ] false
                        (Some "cascade-7") (sampleWorld 0))
                 = Returns [ {| cell_col := 1; cell_row := 0;
                                cell_symbol := Some "thanos_weapon";
                                cell_stripPosition := 48; cell_stripVersion := "2.0.0" |};
                             {| cell_col := 4; cell_row := 2;
                                cell_symbol := Some "reality_gem";
                                cell_stripPosition := 87; cell_stripVersion := "2.0.0" |} ])
    by (vm_compute; reflexivity).
  exact (batch_replays_cell_by_cell sampleRNG defaultGenerator
           [ {| col := 4; row := 2 |}; {| col := 1; row := 0 |} ] false "cascade-7"
           (sampleWorld 0) (sampleWorld 5) _
           {| cell_col := 4; cell_row := 2; cell_symbol := Some "reality_gem";
              cell_stripPosition := 87; cell_stripVersion := "2.0.0" |}
           Hs Hrun (or_intror (or_introl eq_refl)) eq_refl).
Defined.

(** X25. The audit trail is enough to replay a grid: on a generator that
    logs and whose column count is not negative, when
    [generateInitialGrid] returns, the last event of the audit trail is
    the [GRID_GENERATED_FROM_STRIPS] event of the call, and
    [reconstructGrid], given the stop positions, the mode and the strip
    version this event carries, returns the grid of the call, in any
    world. *)
Theorem audit_trail_replays_grid (rng : EntropyProvider) (g : Generator)
    (options : GridOptions) (w w' : World rng) (result : GridResult) :
  auditLogging g = true -> 0 <= cols g ->
  generateInitialGrid rng g options w = (Returns result, w') ->
  exists (earlier : list AuditEvent) (t : Z) (positions : list Z) (v : string)
         (mode : bool) (counts : SymbolCounts) (ms : Z),
    auditTrail w'
    = earlier ++ [ {| timestamp := t; event := "GRID_GENERATED_FROM_STRIPS";
                      data := GridGeneratedFromStrips positions v mode counts ms |} ] /\
    forall w0 : World rng,
      fst (reconstructGrid rng g (StopArray positions) mode (Some v) w0)
      = Returns (grid result).
Proof.
  intros Hlog Hcols Hgen.
  destruct (generateInitialGrid_world rng g options w w' result Hgen)
    as (_ & (t1 & t2 & Haudit) & _).
  rewrite Hlog in Haudit.
  eexists (auditTrail w ++ [_]), t2, (stopPositions result), STRIP_VERSION,
    (freeSpinsMode options), (symbolCounts result), _.
  split.
  { rewrite Haudit, <- app_assoc. reflexivity. }
  intros w0.
  destruct (generateInitialGrid_run rng g options w) as (w1 & _ & Hrun).
  destruct (generateInitialGrid_columns g (getStrips (freeSpinsMode options))
              (stop_positions rng (Z.to_nat (cols g)) (seed options) (source w)))
    as [[gr counts] | e] eqn:Ecols.
  - destruct Hrun as [md Hrun]. rewrite Hrun in Hgen.
    injection Hgen as <- _. cbn [stopPositions grid].
    rewrite reconstructGrid_accepted.
    + rewrite <- generateInitialGrid_columns_fst, Ecols. reflexivity.
    + now right.
    + unfold JS.length. rewrite stop_positions_length. lia.
  - rewrite Hrun in Hgen. discriminate.
Qed.

Lemma audit_trail_replays_grid_witness :
  let run :=
    generateInitialGrid sampleRNG defaultGenerator
      {| freeSpinsMode := true; seed := None |} (sampleWorld 3) in
  exists (result : GridResult) (positions : list Z) (v : string) (mode : bool),
    fst run = Returns result /\
    fst (reconstructGrid sampleRNG defaultGenerator (StopArray positions) mode (Some v)
           (sampleWorld 0))
    = Returns (grid result).
Proof.
  intros run.
  destruct (fst run) as [result | e] eqn:Efst; [| vm_compute in Efst; discriminate Efst].
  destruct (audit_trail_replays_grid sampleRNG defaultGenerator
              {| freeSpinsMode := true; seed := None |} (sampleWorld 3) (snd run) result
              eq_refl ltac:(discriminate))
    as (earlier & t & positions & v & mode & counts & ms & Haudit & Hreplay).
  - rewrite <- Efst. apply surjective_pairing.
  - exists result, positions, v, mode. split; [reflexivity | apply Hreplay].
Defined.
